(** * Document processors of Autogen_GraphRAG_Ollama: a shallow embedding

    The Python sources embedded here are
    - [document_processors/pdf_processor.py]   ([Module Pdf]),
    - [document_processors/word_processor.py]  ([Module Word]),
    - [document_processors/universal_processor.py] ([Module Universal]),
    - [appUI_final_v5.py], function [search_docs] ([Module AppUI]).

    Python [str] values are modelled by [string]; one [ascii] stands for one
    code point below 256 (ASCII and Latin-1 text).  Calls into PyMuPDF,
    python-docx, pytesseract, PyYAML, the file system and the retrieval
    library are answered by a [World] record, so every theorem quantifies
    over all behaviours of those libraries; the answers of a world do not
    change while the program runs.  Exceptions are values of type [exn] and
    stand for instances of [Exception]; file writes, log records and
    directory creations are recorded in an event trace.  The objects that
    [yaml.safe_load] returns live in a store and are held by address, so
    that a dictionary named twice in a YAML file is one object. *)

From Stdlib Require Import String Ascii List Bool Arith ZArith Lia Permutation.
From Stdlib Require Import DecimalString.
Import ListNotations.
Local Open Scope list_scope.
Local Open Scope string_scope.
Local Open Scope nat_scope.

Set Implicit Arguments.

(** ** Python string primitives *)

Module PyStr.

(** The newline character and the two-newline paragraph separator. *)
Definition nl : string := String "010"%char EmptyString.
Definition nlnl : string := nl ++ nl.

(** [str.isspace] on one code point below 256: TAB..CR, FS..US, space,
    NEL (0x85) and NBSP (0xA0). *)
Definition is_space (c : ascii) : bool :=
  let n := nat_of_ascii c in
  ((9 <=? n) && (n <=? 13)) || ((28 <=? n) && (n <=? 32))
  || (n =? 133) || (n =? 160).

Fixpoint lstrip (s : string) : string :=
  match s with
  | String c s' => if is_space c then lstrip s' else s
  | EmptyString => EmptyString
  end.

(** [rstrip] keeps a character when it is not a space or when something
    survives to its right. *)
Fixpoint rstrip (s : string) : string :=
  match s with
  | String c s' =>
      match rstrip s' with
      | EmptyString => if is_space c then EmptyString else String c EmptyString
      | r => String c r
      end
  | EmptyString => EmptyString
  end.

(** [s.strip()] *)
Definition strip (s : string) : string := rstrip (lstrip s).

(** Truth value of a [str]: non-empty. *)
Definition nonempty (s : string) : bool :=
  match s with EmptyString => false | _ => true end.

(** [str.lower] on one code point below 256. *)
Definition lower_char (c : ascii) : ascii :=
  let n := nat_of_ascii c in
  if ((65 <=? n) && (n <=? 90))
     || ((192 <=? n) && (n <=? 222) && negb (n =? 215))
  then ascii_of_nat (n + 32) else c.

Fixpoint lower (s : string) : string :=
  match s with
  | String c s' => String (lower_char c) (lower s')
  | EmptyString => EmptyString
  end.

(** [s.startswith(p)] *)
Definition startswith (s p : string) : bool := prefix p s.

Fixpoint rev_acc (s acc : string) : string :=
  match s with
  | String c s' => rev_acc s' (String c acc)
  | EmptyString => acc
  end.

Definition rev (s : string) : string := rev_acc s EmptyString.

(** [s.endswith(p)] *)
Definition endswith (s p : string) : bool := prefix (rev p) (rev s).

(** [sep.join(l)] *)
Definition join (sep : string) (l : list string) : string := String.concat sep l.

(** Drop the first [n] characters. *)
Fixpoint drop (n : nat) (s : string) : string :=
  match n, s with
  | S n', String _ s' => drop n' s'
  | _, _ => s
  end.

(** [s.replace(old, new)] for a non-empty [old]: leftmost, non-overlapping
    occurrences, scanning left to right.  [skip] counts the characters of
    the occurrence just replaced that are still to be passed over. *)
Fixpoint replace_go (old new s : string) (skip : nat) : string :=
  match s with
  | EmptyString => EmptyString
  | String c s' =>
      match skip with
      | S k => replace_go old new s' k
      | O =>
          if prefix old s
          then new ++ replace_go old new s' (String.length old - 1)
          else String c (replace_go old new s' 0)
      end
  end.

(** [s.replace(old, new)] for the empty [old] puts [new] before every
    character and at the end. *)
Fixpoint intersperse (new s : string) : string :=
  match s with
  | EmptyString => new
  | String c s' => new ++ String c (intersperse new s')
  end.

Definition replace (s old new : string) : string :=
  match old with
  | EmptyString => intersperse new s
  | _ => replace_go old new s 0
  end.

(** [s.split(sep)] for a non-empty [sep]: [cur] holds, reversed, the
    characters of the field being read, [skip] counts the characters of the
    separator just found that are still to be passed over. *)
Fixpoint split_go (sep s cur : string) (skip : nat) : list string :=
  match s with
  | EmptyString => [rev cur]
  | String c s' =>
      match skip with
      | S k => split_go sep s' cur k
      | O =>
          if prefix sep s
          then rev cur :: split_go sep s' EmptyString (String.length sep - 1)
          else split_go sep s' (String c cur) 0
      end
  end.

Definition split (s sep : string) : list string :=
  split_go sep s EmptyString 0.

(** [re.sub(r'\n{3,}', '\n\n', s)]: every maximal run of three or more
    newlines becomes two newlines; shorter runs stay.  [run] counts the
    newlines of the current run that were kept. *)
Fixpoint collapse_newlines_go (s : string) (run : nat) : string :=
  match s with
  | EmptyString => EmptyString
  | String c s' =>
      if Ascii.eqb c "010"%char
      then if run <? 2
           then String c (collapse_newlines_go s' (S run))
           else collapse_newlines_go s' run
      else String c (collapse_newlines_go s' 0)
  end.

Definition collapse_newlines (s : string) : string :=
  collapse_newlines_go s 0.

(** The class [\w] on one code point below 256: [str.isalnum] or the
    underscore. *)
Definition is_word_char (c : ascii) : bool :=
  let n := nat_of_ascii c in
  ((48 <=? n) && (n <=? 57)) || ((65 <=? n) && (n <=? 90)) || (n =? 95)
  || ((97 <=? n) && (n <=? 122))
  || (n =? 170) || (n =? 178) || (n =? 179) || (n =? 181) || (n =? 185)
  || (n =? 186) || ((188 <=? n) && (n <=? 190))
  || ((192 <=? n) && (n <=? 214)) || ((216 <=? n) && (n <=? 246))
  || (248 <=? n).

(** [re.findall(r'\b\w+\b', s)]: the maximal runs of word characters.
    [cur] is the run being read, reversed. *)
Fixpoint findall_words_go (s cur : string) : list string :=
  match s with
  | EmptyString => if nonempty cur then [rev cur] else []
  | String c s' =>
      if is_word_char c then findall_words_go s' (String c cur)
      else if nonempty cur then rev cur :: findall_words_go s' EmptyString
           else findall_words_go s' EmptyString
  end.

Definition findall_words (s : string) : list string :=
  findall_words_go s EmptyString.

(** Decimal digits. *)
Definition digit_val (c : ascii) : option Z :=
  let n := nat_of_ascii c in
  if (48 <=? n) && (n <=? 57) then Some (Z.of_nat (n - 48)) else None.

(** White space that [int()] skips around a literal: TAB..CR and the
    space, and NEL (0x85) and NBSP (0xA0), which [int()] turns into spaces
    first; the separators FS..US, which [str.strip] drops, are not
    skipped. *)
Definition is_int_space (c : ascii) : bool :=
  let n := nat_of_ascii c in
  ((9 <=? n) && (n <=? 13)) || (n =? 32) || (n =? 133) || (n =? 160).

Fixpoint skip_int_space (s : string) : string :=
  match s with
  | String c s' => if is_int_space c then skip_int_space s' else s
  | EmptyString => EmptyString
  end.

(** The run of digits and single underscores at the start of [s]: its
    value, the number of its digits and what follows it.  [None] when two
    underscores meet or the run ends in an underscore.  [after_underscore]
    says whether the previous character was an underscore. *)
Fixpoint scan_digits (s : string) (acc : Z) (digits : nat)
    (after_underscore : bool) : option (Z * nat * string) :=
  match s with
  | EmptyString =>
      if after_underscore then None else Some (acc, digits, EmptyString)
  | String c s' =>
      match digit_val c with
      | Some d => scan_digits s' (10 * acc + d) (S digits) false
      | None =>
          if Ascii.eqb c "_"%char
          then if after_underscore then None
               else scan_digits s' acc digits true
          else if after_underscore then None
               else Some (acc, digits, s)
      end
  end.

(** How [int(s)] ends on a [str]: with an integer, with the ValueError of
    an invalid literal, or with the ValueError of a literal of more digits
    than [sys.get_int_max_str_digits()]. *)
Inductive int_result :=
| Int_ok (z : Z)
| Int_invalid
| Int_too_long (digits : nat).

(** [int(s)] with the limit [max_str_digits] (0: no limit): white space is
    skipped, one sign is allowed, the literal may not start with an
    underscore; the number of digits is checked, above 640 digits, before
    what follows the digits is looked at; only white space may follow. *)
Definition py_int (max_str_digits : nat) (s : string) : int_result :=
  let s := skip_int_space s in
  let '(negative, s) :=
    match s with
    | String c r =>
        if Ascii.eqb c "+"%char then (false, r)
        else if Ascii.eqb c "-"%char then (true, r)
        else (false, s)
    | EmptyString => (false, s)
    end in
  match s with
  | String c _ =>
      if Ascii.eqb c "_"%char then Int_invalid
      else
        match scan_digits s 0 0 false with
        | None => Int_invalid
        | Some (value, digits, rest) =>
            if (640 <? digits) && (0 <? max_str_digits)
               && (max_str_digits <? digits)
            then Int_too_long digits
            else if digits =? 0 then Int_invalid
            else match skip_int_space rest with
                 | EmptyString =>
                     Int_ok (if negative then (- value)%Z else value)
                 | _ => Int_invalid
                 end
        end
  | EmptyString => Int_invalid
  end.

(** [str(n)] for a non-negative integer. *)
Definition str_of_nat (n : nat) : string :=
  NilZero.string_of_uint (Nat.to_uint n).

(** [needle in s] for two strings: [needle] occurs in [s]. *)
Fixpoint contains (s needle : string) : bool :=
  prefix needle s ||
  match s with
  | String _ s' => contains s' needle
  | EmptyString => false
  end.

(** [str.isprintable] on one code point below 256: not a control
    character (0..31, 127..159), NBSP or the soft hyphen. *)
Definition is_printable (c : ascii) : bool :=
  let n := nat_of_ascii c in
  negb ((n <? 32) || ((127 <=? n) && (n <=? 160)) || (n =? 173)).

Definition hex_digit (n : nat) : ascii :=
  if n <? 10 then ascii_of_nat (48 + n) else ascii_of_nat (87 + n).

Definition double_quote : ascii := "034"%char.

(** One character inside [repr(s)], for the quote in use. *)
Definition repr_char (quote c : ascii) : string :=
  let n := nat_of_ascii c in
  if Ascii.eqb c quote || Ascii.eqb c "\"%char
  then String "\"%char (String c EmptyString)
  else if n =? 9 then "\t"
  else if n =? 10 then "\n"
  else if n =? 13 then "\r"
  else if is_printable c then String c EmptyString
  else String "\"%char
         (String "x"%char
            (String (hex_digit (n / 16))
               (String (hex_digit (n mod 16)) EmptyString))).

Fixpoint repr_chars (quote : ascii) (s : string) : string :=
  match s with
  | EmptyString => EmptyString
  | String c s' => repr_char quote c ++ repr_chars quote s'
  end.

(** [repr(s)] for a [str]: in apostrophes, or in double quotes when the
    string holds an apostrophe and no double quote. *)
Definition py_repr (s : string) : string :=
  let quote :=
    if contains s "'" && negb (contains s (String double_quote EmptyString))
    then double_quote else "'"%char in
  String quote (repr_chars quote s ++ String quote EmptyString).

End PyStr.

(** ** [os.path] on POSIX paths *)

Module OsPath.
Import PyStr.

(** The part of [p] after its last slash; [cur] is that part so far,
    reversed. *)
Fixpoint basename_go (p cur : string) : string :=
  match p with
  | EmptyString => rev cur
  | String c p' =>
      if Ascii.eqb c "/"%char then basename_go p' EmptyString
      else basename_go p' (String c cur)
  end.

(** [os.path.basename(p)] *)
Definition basename (p : string) : string := basename_go p EmptyString.

(** Position of the last [c] in [s], counted from the start. *)
Fixpoint rfind_go (c : ascii) (s : string) (i : nat) (last : option nat)
  : option nat :=
  match s with
  | EmptyString => last
  | String c' s' =>
      rfind_go c s' (S i) (if Ascii.eqb c c' then Some i else last)
  end.

Definition rfind (c : ascii) (s : string) : option nat := rfind_go c s 0 None.

(** Is some character of [s] at a position in [[lo, hi)] not a dot? *)
Definition has_non_dot (s : string) (lo hi : nat) : bool :=
  negb (forallb (fun c => Ascii.eqb c "."%char)
          (list_ascii_of_string (substring lo (hi - lo) s))).

(** [os.path.splitext(p)]: the extension starts at the last dot, when that
    dot comes after the last slash and after a character of the file name
    that is not a dot. *)
Definition splitext (p : string) : string * string :=
  let filename_index :=
    match rfind "/"%char p with Some i => S i | None => 0 end in
  match rfind "."%char p with
  | Some dot_index =>
      if (filename_index <=? dot_index)
         && has_non_dot p filename_index dot_index
      then (substring 0 dot_index p, drop dot_index p)
      else (p, EmptyString)
  | None => (p, EmptyString)
  end.

(** [os.path.join(a, b)] *)
Definition join (a b : string) : string :=
  if startswith b "/" then b
  else if negb (nonempty a) || endswith a "/" then a ++ b
  else a ++ "/" ++ b.

End OsPath.

(** ** Exceptions, events and the effect monad *)

Inductive exn_class :=
| RequestException   (* requests.exceptions.RequestException and subclasses *)
| TypeError | ValueError | KeyError | IndexError | AttributeError
| OSError | RuntimeError | OverflowError | MemoryError.

(** A raised instance of [Exception]; [exn_str] is [str(e)]. *)
Record exn := Exn { exn_cls : exn_class; exn_str : string }.

Definition is_request_exception (e : exn) : bool :=
  match exn_cls e with RequestException => true | _ => false end.

(** What a run does to the outside: log records, printed lines, files opened
    for writing (which truncates them), data written, directories made, files
    copied. *)
Inductive event :=
| Log (level msg : string)
| Print (line : string)
| OpenW (path : string)
| Write (path data : string)
| Makedirs (path : string)
| Copy2 (src dst : string).

(** A computation ends with an exception or a value, and leaves a trace. *)
Definition M (A : Type) : Type := (exn + A) * list event.

Definition ret {A} (a : A) : M A := (inr a, []).

Definition bind {A B} (m : M A) (f : A -> M B) : M B :=
  match m with
  | (inl e, t) => (inl e, t)
  | (inr a, t) => let (r, t') := f a in (r, (t ++ t')%list)
  end.

Declare Scope py_scope.
Delimit Scope py_scope with py.
Notation "x <- c ;; k" := (bind c (fun x => k))
  (at level 61, c at next level, right associativity) : py_scope.
Notation "c ;; k" := (bind c (fun _ => k))
  (at level 61, right associativity) : py_scope.
Local Open Scope py_scope.

Definition raise {A} (e : exn) : M A := (inl e, []).

(** The answer of a library call. *)
Definition lift {A} (r : exn + A) : M A := (r, []).

Definition emit (ev : event) : M unit := (inr tt, [ev]).

(** [try: m  except Exception as e: h e] *)
Definition try_except {A} (m : M A) (h : exn -> M A) : M A :=
  match m with
  | (inl e, t) => let (r, t') := h e in (r, (t ++ t')%list)
  | (inr a, t) => (inr a, t)
  end.

(** [try: m  except C as e: h e] for an exception class given by [is_c]. *)
Definition try_except_if {A} (is_c : exn -> bool) (m : M A) (h : exn -> M A)
  : M A :=
  match m with
  | (inl e, t) =>
      if is_c e then let (r, t') := h e in (r, (t ++ t')%list)
      else (inl e, t)
  | (inr a, t) => (inr a, t)
  end.

(** [for x in l: body x] *)
Fixpoint for_each {A} (l : list A) (body : A -> M unit) : M unit :=
  match l with
  | [] => ret tt
  | x :: l' => body x ;; for_each l' body
  end.

Definition result_of {A} (m : M A) : exn + A := fst m.
Definition trace_of {A} (m : M A) : list event := snd m.

Definition logger_error (msg : string) : M unit := emit (Log "ERROR" msg).
Definition logger_warning (msg : string) : M unit := emit (Log "WARNING" msg).
Definition logger_info (msg : string) : M unit := emit (Log "INFO" msg).
Definition logger_debug (msg : string) : M unit := emit (Log "DEBUG" msg).

(** [f.write(data)] on the file opened at [path]. *)
Definition write (path data : string) : M unit := emit (Write path data).

(** The content of the file at [path] after the events of [tr], from the
    content [acc] before them ([None]: never opened for writing). *)
Fixpoint replay (path : string) (tr : list event) (acc : option string)
  : option string :=
  match tr with
  | [] => acc
  | OpenW p :: tr' =>
      replay path tr' (if String.eqb p path then Some EmptyString else acc)
  | Write p data :: tr' =>
      replay path tr'
        (if String.eqb p path then option_map (fun c => c ++ data) acc
         else acc)
  | _ :: tr' => replay path tr' acc
  end.

Definition file_content (path : string) (tr : list event) : option string :=
  replay path tr None.

(** [enumerate(l, start)] *)
Fixpoint enumerate_from {A} (start : nat) (l : list A) : list (nat * A) :=
  match l with
  | [] => []
  | x :: l' => (start, x) :: enumerate_from (S start) l'
  end.

(** ** Python values: what [yaml.safe_load] returns and a config holds *)

(** Hashable scalars, the keys of a [dict]. *)
Inductive pykey :=
| KNone | KBool (b : bool) | KInt (z : Z) | KStr (s : string).

(** [VFloat] carries the 64 bits of the double. *)
#[warning="-register-all"]
Inductive pyval :=
| VNone
| VBool (b : bool)
| VInt (z : Z)
| VFloat (bits : Z)
| VStr (s : string)
| VList (items : list pyval)
| VTuple (items : list pyval)
| VDict (entries : list (pykey * pyval)).

Module Py.
Import PyStr.

(** Equality of keys: [True == 1] and [False == 0]. *)
Definition key_eqb (a b : pykey) : bool :=
  match a, b with
  | KNone, KNone => true
  | KStr s, KStr t => String.eqb s t
  | KBool x, KBool y => Bool.eqb x y
  | KInt x, KInt y => Z.eqb x y
  | KBool x, KInt y | KInt y, KBool x => Z.eqb (Z.b2z x) y
  | _, _ => false
  end.

(** A [dict] keeps its entries in insertion order. *)
Definition dict := list (pykey * pyval).

Fixpoint dict_get (d : dict) (k : pykey) : option pyval :=
  match d with
  | [] => None
  | (k', v) :: d' => if key_eqb k' k then Some v else dict_get d' k
  end.

Definition dict_has (d : dict) (k : pykey) : bool :=
  match dict_get d k with Some _ => true | None => false end.

(** [d[k] = v]: an existing key keeps its place, a new one goes last. *)
Fixpoint dict_set (d : dict) (k : pykey) (v : pyval) : dict :=
  match d with
  | [] => [(k, v)]
  | (k', v') :: d' =>
      if key_eqb k' k then (k', v) :: d' else (k', v') :: dict_set d' k v
  end.

(** Truth value. *)
Definition truthy (v : pyval) : bool :=
  match v with
  | VNone => false
  | VBool b => b
  | VInt z => negb (Z.eqb z 0)
  | VFloat bits => negb (Z.eqb (Z.land bits 0x7FFFFFFFFFFFFFFF) 0)
  | VStr s => nonempty s
  | VList l | VTuple l => match l with [] => false | _ => true end
  | VDict d => match d with [] => false | _ => true end
  end.

Definition type_name (v : pyval) : string :=
  match v with
  | VNone => "NoneType" | VBool _ => "bool" | VInt _ => "int"
  | VFloat _ => "float" | VStr _ => "str" | VList _ => "list"
  | VTuple _ => "tuple" | VDict _ => "dict"
  end.

Definition is_str (s : string) (v : pyval) : bool :=
  match v with VStr t => String.eqb t s | _ => false end.

(** [s in v] for a string [s]: key of a dict, element of a list or tuple,
    substring of a string, TypeError on anything else. *)
Definition str_in (s : string) (v : pyval) : exn + bool :=
  match v with
  | VDict d => inr (dict_has d (KStr s))
  | VList l | VTuple l => inr (existsb (is_str s) l)
  | VStr t => inr (contains t s)
  | _ => inl (Exn TypeError
                ("argument of type '" ++ type_name v ++ "' is not iterable"))
  end.

(** [v[s]] for a string [s]. *)
Definition getitem (v : pyval) (s : string) : exn + pyval :=
  match v with
  | VDict d =>
      match dict_get d (KStr s) with
      | Some x => inr x
      | None => inl (Exn KeyError (py_repr s))
      end
  | VStr _ =>
      inl (Exn TypeError "string indices must be integers, not 'str'")
  | VList _ | VTuple _ =>
      inl (Exn TypeError
             (type_name v ++ " indices must be integers or slices, not str"))
  | _ => inl (Exn TypeError
                ("'" ++ type_name v ++ "' object is not subscriptable"))
  end.

(** [v[s] = x] for a string [s]; the value after the assignment. *)
Definition setitem (v : pyval) (s : string) (x : pyval) : exn + pyval :=
  match v with
  | VDict d => inr (VDict (dict_set d (KStr s) x))
  | VList _ =>
      inl (Exn TypeError "list indices must be integers or slices, not str")
  | _ => inl (Exn TypeError
                ("'" ++ type_name v
                 ++ "' object does not support item assignment"))
  end.

(** [v.get(s)] *)
Definition get (v : pyval) (s : string) : exn + pyval :=
  match v with
  | VDict d =>
      match dict_get d (KStr s) with
      | Some x => inr x
      | None => inr VNone
      end
  | _ => inl (Exn AttributeError
                ("'" ++ type_name v ++ "' object has no attribute 'get'"))
  end.

(** Truth value of a key. *)
Definition key_truthy (k : pykey) : bool :=
  match k with
  | KNone => false
  | KBool b => b
  | KInt z => negb (Z.eqb z 0)
  | KStr s => nonempty s
  end.

(** [isinstance(v, dict)] *)
Definition is_dict (v : pyval) : bool :=
  match v with VDict _ => true | _ => false end.

(** [re.findall(r'\b\w+\b', v)]: [v] has to be a string. *)
Definition re_findall_words (v : pyval) : exn + list string :=
  match v with
  | VStr s => inr (findall_words s)
  | _ => inl (Exn TypeError "expected string or bytes-like object")
  end.

End Py.

(** ** The outside world *)

(** A page of a PDF opened by PyMuPDF.  [page_ocr dpi lang] is the outcome
    of rendering the page at [dpi/72] and running tesseract on the image. *)
Record PdfPage := {
  get_text : exn + string;
  page_ocr : pyval -> pyval -> exn + string;
  (** [get_images(full=True)], each entry with what [extract_image] gives
      for it: the bytes under ["image"]. *)
  get_images : exn + list (exn + string)
}.

Record PdfDoc := {
  (** [doc.metadata]: [None] or a dictionary of strings. *)
  pdf_metadata : option (list (string * string));
  pdf_pages : list PdfPage
}.

Record Run := { run_text : string; run_bold : bool; run_italic : bool }.

Record Paragraph := {
  para_text : string;
  style_name : string;
  para_runs : list Run
}.

(** A table: its rows, each a list of cell texts. *)
Record Table := { table_rows : list (list string) }.

(** A relationship of the document part. *)
Record Rel := { reltype : string; target_ref : string; blob : exn + string }.

(** [doc.core_properties]; dates are carried as their [str()], with the
    empty string for [None]. *)
Record CoreProps := {
  cp_title : string; cp_author : string; cp_created : string;
  cp_modified : string; cp_subject : string; cp_keywords : string
}.

Record DocxDoc := {
  core_properties : exn + CoreProps;
  paragraphs : list Paragraph;
  tables : list Table;
  rels : list Rel
}.

(** A search hit of the retrieval library. *)
Record SearchDoc := { doc_id : string; content : string }.

(** ** The objects of a YAML document

    [_load_config] assigns into the dictionaries that [yaml.safe_load]
    returned, and a YAML file can name one dictionary in several places
    (an anchor and its aliases), also inside itself.  The containers of a
    document are therefore kept in a store, and a value holds a container
    by its address. *)

(** A value: a scalar, or the address of a container.  [ROther] is a date
    or a datetime, with the name of its type. *)
Inductive ref_val :=
| RNone
| RBool (b : bool)
| RInt (z : Z)
| RFloat (bits : Z)
| RStr (s : string)
| RBytes (s : string)
| ROther (type_name : string)
| RAddr (a : nat).

(** A key of a loaded dictionary: a string, or a key of another type (with
    its [repr]), which no string is equal to. *)
Inductive ykey :=
| YStr (s : string)
| YOther (repr : string).

Inductive container :=
| CList (items : list ref_val)
| CTuple (items : list ref_val)
| CSet (items : list ref_val)
| CDict (entries : list (ykey * ref_val)).

(** The container at address [a] is the [a]-th of the store.  An address
    beyond the store names no container: it stands for an object of a type
    that is not modelled, neither sized nor subscriptable. *)
Definition store := list container.

(** What [yaml.safe_load] returns: the containers it built, numbered from
    0, and the value of the document. *)
Record document := { objects : store; root : ref_val }.

Module Store.
Import PyStr.

Definition type_name (st : store) (v : ref_val) : string :=
  match v with
  | RNone => "NoneType" | RBool _ => "bool" | RInt _ => "int"
  | RFloat _ => "float" | RStr _ => "str" | RBytes _ => "bytes"
  | ROther name => name
  | RAddr a =>
      match nth_error st a with
      | Some (CList _) => "list"
      | Some (CTuple _) => "tuple"
      | Some (CSet _) => "set"
      | Some (CDict _) => "dict"
      | None => "object"
      end
  end.

(** [v == s] for a string [s]. *)
Definition is_str (s : string) (v : ref_val) : bool :=
  match v with RStr t => String.eqb t s | _ => false end.

(** The value under the string key [s]. *)
Fixpoint find (entries : list (ykey * ref_val)) (s : string)
  : option ref_val :=
  match entries with
  | [] => None
  | (YStr t, v) :: rest => if String.eqb t s then Some v else find rest s
  | (YOther _, _) :: rest => find rest s
  end.

Definition has (entries : list (ykey * ref_val)) (s : string) : bool :=
  match find entries s with Some _ => true | None => false end.

(** [d[s] = x] on the entries of a dictionary: an existing key keeps its
    place, a new one goes last. *)
Fixpoint set (entries : list (ykey * ref_val)) (s : string) (x : ref_val)
  : list (ykey * ref_val) :=
  match entries with
  | [] => [(YStr s, x)]
  | (YStr t, v) :: rest =>
      if String.eqb t s then (YStr t, x) :: rest
      else (YStr t, v) :: set rest s x
  | (YOther r, v) :: rest => (YOther r, v) :: set rest s x
  end.

(** The store with the container at address [a] replaced. *)
Fixpoint update (st : store) (a : nat) (c : container) : store :=
  match st, a with
  | [], _ => []
  | _ :: st', 0 => c :: st'
  | c0 :: st', S a' => c0 :: update st' a' c
  end.

(** [isinstance(v, dict)] *)
Definition is_dict (st : store) (v : ref_val) : bool :=
  match v with
  | RAddr a => match nth_error st a with Some (CDict _) => true | _ => false end
  | _ => false
  end.

(** [s in v] for a string [s]: key of a dictionary, element of a list, a
    tuple or a set, substring of a string, TypeError on anything else. *)
Definition str_in (st : store) (s : string) (v : ref_val) : exn + bool :=
  match v with
  | RStr t => inr (contains t s)
  | RBytes _ =>
      inl (Exn TypeError "a bytes-like object is required, not 'str'")
  | RAddr a =>
      match nth_error st a with
      | Some (CDict entries) => inr (has entries s)
      | Some (CList items) | Some (CTuple items) | Some (CSet items) =>
          inr (existsb (is_str s) items)
      | None =>
          inl (Exn TypeError "argument of type 'object' is not iterable")
      end
  | _ => inl (Exn TypeError
                ("argument of type '" ++ type_name st v
                 ++ "' is not iterable"))
  end.

(** [v[s]] for a string [s]. *)
Definition getitem (st : store) (v : ref_val) (s : string) : exn + ref_val :=
  match v with
  | RStr _ =>
      inl (Exn TypeError "string indices must be integers, not 'str'")
  | RBytes _ =>
      inl (Exn TypeError "byte indices must be integers or slices, not str")
  | RAddr a =>
      match nth_error st a with
      | Some (CDict entries) =>
          match find entries s with
          | Some x => inr x
          | None => inl (Exn KeyError (py_repr s))
          end
      | Some (CList _) =>
          inl (Exn TypeError
                 "list indices must be integers or slices, not str")
      | Some (CTuple _) =>
          inl (Exn TypeError
                 "tuple indices must be integers or slices, not str")
      | Some (CSet _) =>
          inl (Exn TypeError "'set' object is not subscriptable")
      | None => inl (Exn TypeError "'object' object is not subscriptable")
      end
  | _ => inl (Exn TypeError
                ("'" ++ type_name st v ++ "' object is not subscriptable"))
  end.

(** [v[s] = x] for a string [s]: the store after the assignment. *)
Definition setitem (st : store) (v : ref_val) (s : string) (x : ref_val)
  : exn + store :=
  match v with
  | RAddr a =>
      match nth_error st a with
      | Some (CDict entries) => inr (update st a (CDict (set entries s x)))
      | Some (CList _) =>
          inl (Exn TypeError
                 "list indices must be integers or slices, not str")
      | Some (CTuple _) =>
          inl (Exn TypeError
                 "'tuple' object does not support item assignment")
      | Some (CSet _) =>
          inl (Exn TypeError "'set' object does not support item assignment")
      | None =>
          inl (Exn TypeError
                 "'object' object does not support item assignment")
      end
  | _ => inl (Exn TypeError
                ("'" ++ type_name st v
                 ++ "' object does not support item assignment"))
  end.

(** [list(v.items())] for a dictionary whose keys are strings, as every
    dictionary of the default configuration is. *)
Definition items (st : store) (v : ref_val) : list (string * ref_val) :=
  match v with
  | RAddr a =>
      match nth_error st a with
      | Some (CDict entries) =>
          flat_map (fun kv => match kv with
                              | (YStr k, x) => [(k, x)]
                              | _ => []
                              end) entries
      | _ => []
      end
  | _ => []
  end.

(** A value of a document whose containers are placed from address [n]
    on. *)
Definition relocate (n : nat) (v : ref_val) : ref_val :=
  match v with RAddr a => RAddr (n + a) | _ => v end.

Definition relocate_container (n : nat) (c : container) : container :=
  match c with
  | CList items => CList (map (relocate n) items)
  | CTuple items => CTuple (map (relocate n) items)
  | CSet items => CSet (map (relocate n) items)
  | CDict entries =>
      CDict (map (fun kv => (fst kv, relocate n (snd kv))) entries)
  end.

(** The key of a literal, as a key of a stored dictionary. *)
Definition key_of (k : pykey) : ykey :=
  match k with
  | KStr s => YStr s
  | KNone => YOther "None"
  | KBool true => YOther "True"
  | KBool false => YOther "False"
  | KInt z => YOther (NilZero.string_of_int (Z.to_int z))
  end.

(** Evaluating a literal in the store [st]: the containers inside it are
    built first, from left to right, then the container itself; each is a
    new object. *)
Fixpoint alloc (v : pyval) (st : store) : store * ref_val :=
  match v with
  | VNone => (st, RNone)
  | VBool b => (st, RBool b)
  | VInt z => (st, RInt z)
  | VFloat bits => (st, RFloat bits)
  | VStr s => (st, RStr s)
  | VList items =>
      let '(st', refs) :=
        (fix go (l : list pyval) (st : store) : store * list ref_val :=
           match l with
           | [] => (st, [])
           | x :: l' =>
               let '(st1, r) := alloc x st in
               let '(st2, rs) := go l' st1 in (st2, r :: rs)
           end) items st in
      ((st' ++ [CList refs])%list, RAddr (List.length st'))
  | VTuple items =>
      let '(st', refs) :=
        (fix go (l : list pyval) (st : store) : store * list ref_val :=
           match l with
           | [] => (st, [])
           | x :: l' =>
               let '(st1, r) := alloc x st in
               let '(st2, rs) := go l' st1 in (st2, r :: rs)
           end) items st in
      ((st' ++ [CTuple refs])%list, RAddr (List.length st'))
  | VDict entries =>
      let '(st', refs) :=
        (fix go (l : list (pykey * pyval)) (st : store)
           : store * list (ykey * ref_val) :=
           match l with
           | [] => (st, [])
           | (k, x) :: l' =>
               let '(st1, r) := alloc x st in
               let '(st2, rs) := go l' st1 in (st2, (key_of k, r) :: rs)
           end) entries st in
      ((st' ++ [CDict refs])%list, RAddr (List.length st'))
  end.

End Store.

Record World := {
  fitz_open : string -> exn + PdfDoc;
  docx_Document : string -> exn + DocxDoc;
  os_path_getsize : string -> exn + nat;
  os_path_exists : string -> bool;
  (** [open(path, "w")] and [open(path, "wb")]: the exception, if any. *)
  open_for_write : string -> option exn;
  os_makedirs : string -> option exn;
  (** [os.walk(dir)]: the [(root, _, files)] triples, in order. *)
  os_walk : string -> list (string * list string);
  shutil_copy2 : string -> string -> option exn;
  tempfile_gettempdir : string;
  (** [open(path, 'r')] followed by [yaml.safe_load]. *)
  yaml_safe_load : string -> exn + document;
  (** Seconds that converting the file at a path takes (a float in the
      source, here its 64 bits). *)
  elapsed : string -> Z;
  (** Building the query parameters and the searcher, then
      [search.search_kg(params)], for a user query: the [local_results] of
      the answer (the empty list also stands for [None]). *)
  search_kg : string -> exn + list SearchDoc;
  (** [traceback.format_exc()] while the exception is handled. *)
  format_exc : exn -> string;
  (** [f"{x:.2f}"] for the float with the given bits. *)
  format_2f : Z -> string;
  (** [sys.get_int_max_str_digits()]: the longest literal [int()] converts
      (4300 unless configured; 0 for no limit). *)
  int_max_str_digits : nat;
  (** Whether there is memory for a string of that many characters and
      for the line it is put into. *)
  enough_memory : Z -> bool
}.

(** [c * n] for a one-character string and an integer: an OverflowError
    when [n] is no index ([n >= 2**63] or [n < -2**63]), the empty string
    when [n <= 0], a MemoryError when the string cannot be allocated. *)
Definition str_repeat (w : World) (c : ascii) (n : Z) : exn + string :=
  if ((n <? - 2 ^ 63) || (2 ^ 63 <=? n))%Z
  then inl (Exn OverflowError "cannot fit 'int' into an index-sized integer")
  else if (n <=? 0)%Z then inr EmptyString
  else if enough_memory w n
       then inr (string_of_list_ascii (repeat c (Z.to_nat n)))
       else inl (Exn MemoryError EmptyString).

Definition open_w (w : World) (path : string) : M unit :=
  match open_for_write w path with
  | Some e => raise e
  | None => emit (OpenW path)
  end.

Definition makedirs (w : World) (path : string) : M unit :=
  match os_makedirs w path with
  | Some e => raise e
  | None => emit (Makedirs path)
  end.

(** Insertion-ordered dictionaries with string keys and values, as the
    metadata dictionaries of the processors. *)
Definition sdict := list (string * string).

Fixpoint sdict_get (d : sdict) (k : string) : option string :=
  match d with
  | [] => None
  | (k', v) :: d' => if String.eqb k' k then Some v else sdict_get d' k
  end.

Fixpoint sdict_set (d : sdict) (k v : string) : sdict :=
  match d with
  | [] => [(k, v)]
  | (k', v') :: d' =>
      if String.eqb k' k then (k', v) :: d' else (k', v') :: sdict_set d' k v
  end.

(** [if src.get(key): d[name] = src[key]] *)
Definition copy_if_set (src : sdict) (key name : string) (d : sdict) : sdict :=
  match sdict_get src key with
  | Some v => if PyStr.nonempty v then sdict_set d name v else d
  | None => d
  end.

(** ** [pdf_processor.py] *)

Module Pdf.
Import PyStr Py.

Record PDFDocumentProcessor := {
  ocr_enabled : pyval;
  ocr_language : pyval;
  chunk_size : pyval;
  chunk_overlap : pyval;
  extract_images : pyval;
  image_dpi : pyval
}.

(** [config.get(key, default)] *)
Definition config_get (config : dict) (key : string) (default : pyval)
  : pyval :=
  match dict_get config (KStr key) with Some v => v | None => default end.

(** [__init__]: [config or {}], then the fields with their defaults. *)
Definition init (config : option dict) : PDFDocumentProcessor :=
  let config := match config with Some c => c | None => [] end in
  {| ocr_enabled := config_get config "ocr_enabled" (VBool true);
     ocr_language := config_get config "ocr_language" (VStr "eng");
     chunk_size := config_get config "chunk_size" (VInt 300);
     chunk_overlap := config_get config "chunk_overlap" (VInt 100);
     extract_images := config_get config "extract_images" (VBool false);
     image_dpi := config_get config "image_dpi" (VInt 300) |}.

Section WithWorld.
Variable w : World.
Variable self : PDFDocumentProcessor.

(** [_extract_text_with_ocr]: the OCR text, or the empty string (and a log
    record) when rendering or recognition raises. *)
Definition _extract_text_with_ocr (page : PdfPage) : M string :=
  try_except
    (lift (page_ocr page (image_dpi self) (ocr_language self)))
    (fun e => logger_error ("OCR error: " ++ exn_str e) ;; ret EmptyString).

(** [not text.strip() or len(text) < 50] *)
Definition little_text (text : string) : bool :=
  negb (nonempty (strip text)) || (String.length text <? 50).

(** The loop of [extract_text] over [enumerate(doc)], from page index
    [page_num] on. *)
Fixpoint extract_text_pages (file_path : string) (page_num : nat)
    (pages : list PdfPage) (full_text : list string) : M (list string) :=
  match pages with
  | [] => ret full_text
  | page :: rest =>
      text <- lift (get_text page) ;;
      text <- (if truthy (ocr_enabled self) && little_text text
               then logger_info ("Using OCR for page "
                                 ++ str_of_nat (page_num + 1)
                                 ++ " in " ++ file_path) ;;
                    _extract_text_with_ocr page
               else ret text) ;;
      extract_text_pages file_path (S page_num) rest
        (full_text ++ [text])%list
  end.

Definition extract_text (file_path : string) : M string :=
  try_except
    (doc <- lift (fitz_open w file_path) ;;
     full_text <- extract_text_pages file_path 0 (pdf_pages doc) [] ;;
     ret (join nlnl full_text))
    (fun e =>
       logger_error ("Error extracting text from PDF: " ++ exn_str e) ;;
       ret ("Error: Could not extract text from document ("
            ++ exn_str e ++ ")")).

Definition extract_metadata (file_path : string) : M sdict :=
  try_except
    (doc <- lift (fitz_open w file_path) ;;
     let metadata : sdict := [] in
     let metadata :=
       match pdf_metadata doc with
       | Some ((_ :: _) as meta) =>
           copy_if_set meta "modDate" "modified"
             (copy_if_set meta "creationDate" "created"
                (copy_if_set meta "keywords" "keywords"
                   (copy_if_set meta "subject" "subject"
                      (copy_if_set meta "author" "author"
                         (copy_if_set meta "title" "title" metadata)))))
       | _ => metadata
       end in
     let metadata :=
       sdict_set metadata "page_count"
         (str_of_nat (List.length (pdf_pages doc))) in
     size <- lift (os_path_getsize w file_path) ;;
     let metadata := sdict_set metadata "file_size" (str_of_nat size) in
     full_text <- extract_text file_path ;;
     words <- lift (re_findall_words (VStr full_text)) ;;
     ret (sdict_set metadata "word_count" (str_of_nat (List.length words))))
    (fun e =>
       logger_error ("Error extracting metadata from PDF: " ++ exn_str e) ;;
       ret [("error", "Could not extract metadata (" ++ exn_str e ++ ")")]).

(** The YAML front matter: one line per entry with a non-blank value. *)
Definition write_frontmatter (output_path : string) (metadata : sdict)
  : M unit :=
  write output_path ("---" ++ nl) ;;
  for_each metadata
    (fun kv =>
       let (key, value) := kv : string * string in
       if nonempty value && nonempty (strip value)
       then write output_path (key ++ ": " ++ value ++ nl)
       else ret tt) ;;
  write output_path ("---" ++ nlnl).

(** The image loop of one page. *)
Fixpoint save_images (output_path img_dir name : string) (page_num : nat)
    (img_idx : nat) (image_list : list (exn + string)) : M unit :=
  match image_list with
  | [] => ret tt
  | img :: rest =>
      image_data <- lift img ;;
      let img_filename :=
        "page" ++ str_of_nat (page_num + 1) ++ "_img"
        ++ str_of_nat (img_idx + 1) ++ ".png" in
      let img_path := OsPath.join img_dir img_filename in
      open_w w img_path ;;
      write img_path image_data ;;
      let rel_path := OsPath.join (name ++ "_images") img_filename in
      write output_path
        ("![Image " ++ str_of_nat (img_idx + 1) ++ " from page "
         ++ str_of_nat (page_num + 1) ++ "](" ++ rel_path ++ ")" ++ nlnl) ;;
      save_images output_path img_dir name page_num (S img_idx) rest
  end.

(** The page loop of [convert_to_markdown], from page index [page_num]. *)
Fixpoint convert_pages (output_dir name output_path : string)
    (page_num : nat) (pages : list PdfPage) : M unit :=
  match pages with
  | [] => ret tt
  | page :: rest =>
      write output_path ("## Page " ++ str_of_nat (page_num + 1) ++ nlnl) ;;
      text <- lift (get_text page) ;;
      text <- (if little_text text
               then if truthy (ocr_enabled self)
                    then _extract_text_with_ocr page
                    else ret text
               else ret text) ;;
      let text := collapse_newlines text in
      let paragraphs := split text nlnl in
      for_each paragraphs
        (fun paragraph =>
           if nonempty (strip paragraph)
           then write output_path (strip paragraph ++ nlnl)
           else ret tt) ;;
      (if truthy (extract_images self)
       then let img_dir := OsPath.join output_dir (name ++ "_images") in
            makedirs w img_dir ;;
            image_list <- lift (get_images page) ;;
            save_images output_path img_dir name page_num 0 image_list
       else ret tt) ;;
      convert_pages output_dir name output_path (S page_num) rest
  end.

(** The path [convert_to_markdown] writes to. *)
Definition md_name (file_path : string) : string :=
  fst (OsPath.splitext (OsPath.basename file_path)).

Definition md_path (file_path output_dir : string) : string :=
  OsPath.join output_dir (md_name file_path ++ ".md").

(** The body of the [try] block of [convert_to_markdown]. *)
Definition convert_body (file_path output_dir : string) : M string :=
  let name := md_name file_path in
  let output_path := md_path file_path output_dir in
  doc <- lift (fitz_open w file_path) ;;
  open_w w output_path ;;
  metadata <- extract_metadata file_path ;;
  write_frontmatter output_path metadata ;;
  let title :=
    match sdict_get metadata "title" with Some t => t | None => name end in
  write output_path ("# " ++ title ++ nlnl) ;;
  convert_pages output_dir name output_path 0 (pdf_pages doc) ;;
  ret output_path.

Definition convert_to_markdown (file_path output_dir : string) : M string :=
  try_except
    (convert_body file_path output_dir)
    (fun e =>
       logger_error ("Error converting PDF to Markdown: " ++ exn_str e) ;;
       ret ("Error: Could not convert document to Markdown ("
            ++ exn_str e ++ ")")).

(** The inner loop of [process_directory] over the files of one directory. *)
Fixpoint process_files (root output_dir : string) (files : list string)
    (processed_files : list string) : M (list string) :=
  match files with
  | [] => ret processed_files
  | file :: rest =>
      if endswith (lower file) ".pdf"
      then let file_path := OsPath.join root file in
           result <- convert_to_markdown file_path output_dir ;;
           process_files root output_dir rest
             (if negb (startswith result "Error")
              then (processed_files ++ [result])%list
              else processed_files)
      else process_files root output_dir rest processed_files
  end.

(** The outer loop over [os.walk(input_dir)]. *)
Fixpoint process_walk (output_dir : string)
    (walk : list (string * list string)) (processed_files : list string)
  : M (list string) :=
  match walk with
  | [] => ret processed_files
  | (root, files) :: rest =>
      processed_files <- process_files root output_dir files processed_files ;;
      process_walk output_dir rest processed_files
  end.

Definition process_directory (input_dir output_dir : string)
  : M (list string) :=
  (if negb (os_path_exists w output_dir)
   then makedirs w output_dir else ret tt) ;;
  process_walk output_dir (os_walk w input_dir) [].

End WithWorld.
End Pdf.

(** ** [word_processor.py] *)

Module Word.
Import PyStr Py.

Record WordDocumentProcessor := {
  chunk_size : Z;
  chunk_overlap : Z;
  include_images : bool
}.

Section WithWorld.
Variable w : World.
Variable self : WordDocumentProcessor.

(** The loop of [extract_text] over the relationships of the document. *)
Fixpoint save_rel_images (rels : list Rel) (images : list string)
  : M (list string) :=
  match rels with
  | [] => ret images
  | rel :: rest =>
      if contains (reltype rel) "image"
      then let img_path :=
             OsPath.join (tempfile_gettempdir w)
               (List.last (split (target_ref rel) "/") EmptyString) in
           open_w w img_path ;;
           data <- lift (blob rel) ;;
           write img_path data ;;
           save_rel_images rest (images ++ [img_path])%list
      else save_rel_images rest images
  end.

(** [extract_text] returns a pair: the text and the image paths. *)
Definition extract_text (file_path : string) : M (string * list string) :=
  try_except
    (doc <- lift (docx_Document w file_path) ;;
     let full_text :=
       map para_text
         (filter (fun para => nonempty (strip (para_text para)))
            (paragraphs doc)) in
     let full_text :=
       (full_text
        ++ flat_map (fun table =>
                       map (fun row => join " | " (map strip row))
                         (table_rows table))
             (tables doc))%list in
     images <- (if include_images self
                then save_rel_images (rels doc) []
                else ret []) ;;
     ret (join nlnl full_text, images))
    (fun e =>
       logger_error ("Error extracting text from Word document: "
                     ++ exn_str e) ;;
       ret ("Error: Could not extract text from document ("
            ++ exn_str e ++ ")", [])).

(** [if value: metadata[name] = value] *)
Definition set_if (value name : string) (d : sdict) : sdict :=
  if nonempty value then sdict_set d name value else d.

Definition extract_metadata (file_path : string) : M sdict :=
  try_except
    (doc <- lift (docx_Document w file_path) ;;
     let metadata : sdict := [] in
     core_props <- lift (core_properties doc) ;;
     let metadata :=
       set_if (cp_keywords core_props) "keywords"
         (set_if (cp_subject core_props) "subject"
            (set_if (cp_modified core_props) "modified"
               (set_if (cp_created core_props) "created"
                  (set_if (cp_author core_props) "author"
                     (set_if (cp_title core_props) "title" metadata))))) in
     extracted <- extract_text file_path ;;
     let (text, images) := extracted : string * list string in
     words <- lift (re_findall_words
                      (VTuple [VStr text; VList (map VStr images)])) ;;
     let metadata :=
       sdict_set metadata "word_count" (str_of_nat (List.length words)) in
     size <- lift (os_path_getsize w file_path) ;;
     ret (sdict_set metadata "file_size" (str_of_nat size)))
    (fun e =>
       logger_error ("Error extracting metadata from Word document: "
                     ++ exn_str e) ;;
       ret [("error", "Could not extract metadata (" ++ exn_str e ++ ")")]).

Definition write_frontmatter (output_path : string) (metadata : sdict)
  : M unit :=
  write output_path ("---" ++ nl) ;;
  for_each metadata
    (fun kv =>
       let (key, value) := kv : string * string in
       if nonempty value && nonempty (strip value)
       then write output_path (key ++ ": " ++ value ++ nl)
       else ret tt) ;;
  write output_path ("---" ++ nlnl).

(** The two formatting loops over the runs of a paragraph. *)
Definition apply_bold (runs : list Run) (text : string) : string :=
  fold_left (fun text run =>
               if run_bold run
               then replace text (run_text run) ("**" ++ run_text run ++ "**")
               else text) runs text.

Definition apply_italic (runs : list Run) (text : string) : string :=
  fold_left (fun text run =>
               if run_italic run
               then replace text (run_text run) ("*" ++ run_text run ++ "*")
               else text) runs text.

(** [int(para.style.name.replace('Heading', ''))]; the message of an
    invalid literal shows the first 200 characters of its [repr]. *)
Definition heading_level (name : string) : exn + Z :=
  let digits := replace name "Heading" EmptyString in
  match py_int (int_max_str_digits w) digits with
  | Int_ok level => inr level
  | Int_invalid =>
      inl (Exn ValueError
             ("invalid literal for int() with base 10: "
              ++ substring 0 200 (py_repr digits)))
  | Int_too_long n =>
      inl (Exn ValueError
             ("Exceeds the limit ("
              ++ str_of_nat (int_max_str_digits w)
              ++ " digits) for integer string conversion: value has "
              ++ str_of_nat n
              ++ " digits; use sys.set_int_max_str_digits() "
              ++ "to increase the limit"))
  end.

(** The body of the paragraph loop for one paragraph. *)
Definition convert_paragraph (output_path : string) (para : Paragraph)
  : M unit :=
  if negb (nonempty (strip (para_text para))) then ret tt
  else if startswith (style_name para) "Heading"
  then level <- lift (heading_level (style_name para)) ;;
       marks <- lift (str_repeat w "#" level) ;;
       write output_path (marks ++ " " ++ para_text para ++ nlnl)
  else let text := para_text para in
       let text := apply_bold (para_runs para) text in
       let text := apply_italic (para_runs para) text in
       write output_path (text ++ nlnl).

(** The body of the table loop for one table. *)
Definition convert_table (output_path : string) (table : Table) : M unit :=
  match table_rows table with
  | [] => raise (Exn IndexError "list index out of range")
  | row0 :: rows =>
      let header_cells := map strip row0 in
      write output_path ("| " ++ join " | " header_cells ++ " |" ++ nl) ;;
      write output_path
        ("| " ++ join " | " (repeat "---" (List.length header_cells))
         ++ " |" ++ nl) ;;
      for_each rows
        (fun row =>
           write output_path ("| " ++ join " | " (map strip row)
                              ++ " |" ++ nl)) ;;
      write output_path nl
  end.

Definition md_name (file_path : string) : string :=
  fst (OsPath.splitext (OsPath.basename file_path)).

Definition md_path (file_path output_dir : string) : string :=
  OsPath.join output_dir (md_name file_path ++ ".md").

(** The body of the [try] block of [convert_to_markdown]. *)
Definition convert_body (file_path output_dir : string) : M string :=
  let output_path := md_path file_path output_dir in
  doc <- lift (docx_Document w file_path) ;;
  let images : list string := [] in
  open_w w output_path ;;
  metadata <- extract_metadata file_path ;;
  write_frontmatter output_path metadata ;;
  for_each (paragraphs doc) (convert_paragraph output_path) ;;
  for_each (tables doc) (convert_table output_path) ;;
  for_each images
    (fun img_path => write output_path ("![Image](" ++ img_path ++ ")"
                                        ++ nlnl)) ;;
  ret output_path.

Definition convert_to_markdown (file_path output_dir : string) : M string :=
  try_except
    (convert_body file_path output_dir)
    (fun e =>
       logger_error ("Error converting Word document to Markdown: "
                     ++ exn_str e) ;;
       ret ("Error: Could not convert document to Markdown ("
            ++ exn_str e ++ ")")).

Fixpoint process_files (root output_dir : string) (files : list string)
    (processed_files : list string) : M (list string) :=
  match files with
  | [] => ret processed_files
  | file :: rest =>
      if endswith (lower file) ".docx" || endswith (lower file) ".doc"
      then let file_path := OsPath.join root file in
           result <- convert_to_markdown file_path output_dir ;;
           process_files root output_dir rest
             (if negb (startswith result "Error")
              then (processed_files ++ [result])%list
              else processed_files)
      else process_files root output_dir rest processed_files
  end.

Fixpoint process_walk (output_dir : string)
    (walk : list (string * list string)) (processed_files : list string)
  : M (list string) :=
  match walk with
  | [] => ret processed_files
  | (root, files) :: rest =>
      processed_files <- process_files root output_dir files processed_files ;;
      process_walk output_dir rest processed_files
  end.

Definition process_directory (input_dir output_dir : string)
  : M (list string) :=
  (if negb (os_path_exists w output_dir)
   then makedirs w output_dir else ret tt) ;;
  process_walk output_dir (os_walk w input_dir) [].

End WithWorld.
End Word.

(** ** [appUI_final_v5.py]: [search_docs] *)

Module AppUI.
Import PyStr.

Section WithWorld.
Variable w : World.

Definition format_doc (doc : SearchDoc) : string :=
  "Document: " ++ doc_id doc ++ nl ++ "Content: " ++ content doc.

Definition search_docs (query : string) : M string :=
  try_except_if is_request_exception
    (local_results <- lift (search_kg w query) ;;
     match local_results with
     | _ :: _ => ret (join nlnl (map format_doc local_results))
     | [] => ret "No relevant documents found."
     end)
    (fun e =>
       let error_trace := format_exc w e in
       emit (Print ("Error searching documents: " ++ exn_str e ++ nl
                    ++ error_trace)) ;;
       ret ("Error searching documents: " ++ exn_str e)).

End WithWorld.
End AppUI.

(** ** [universal_processor.py] *)

Module Universal.
Import PyStr Py.

(** The literal [default_config] of [_load_config]. *)
Definition default_config : pyval :=
  VDict
    [ (KStr "log_level", VStr "INFO");
      (KStr "max_workers", VInt 4);
      (KStr "processors",
        VDict
          [ (KStr "word",
              VDict [ (KStr "enabled", VBool true);
                      (KStr "chunk_size", VInt 300);
                      (KStr "chunk_overlap", VInt 100) ]);
            (KStr "pdf",
              VDict [ (KStr "enabled", VBool true);
                      (KStr "ocr_enabled", VBool true);
                      (KStr "ocr_language", VStr "eng");
                      (KStr "chunk_size", VInt 300);
                      (KStr "chunk_overlap", VInt 100);
                      (KStr "extract_images", VBool false) ]) ]);
      (KStr "output_dir", VStr "input/markdown");
      (KStr "backup_dir", VStr "input/originals");
      (KStr "file_extensions",
        VDict [ (KStr "word", VList [VStr ".docx"; VStr ".doc"]);
                (KStr "pdf", VList [VStr ".pdf"]) ]) ].

(** The objects that evaluating the literal [default_config] builds, in
    the order they are built: the two dictionaries of "processors" and
    that dictionary, the two lists of "file_extensions" and that
    dictionary, and last the dictionary itself. *)
Definition default_store : store :=
  [ CDict [ (YStr "enabled", RBool true);
            (YStr "chunk_size", RInt 300);
            (YStr "chunk_overlap", RInt 100) ];
    CDict [ (YStr "enabled", RBool true);
            (YStr "ocr_enabled", RBool true);
            (YStr "ocr_language", RStr "eng");
            (YStr "chunk_size", RInt 300);
            (YStr "chunk_overlap", RInt 100);
            (YStr "extract_images", RBool false) ];
    CDict [ (YStr "word", RAddr 0); (YStr "pdf", RAddr 1) ];
    CList [RStr ".docx"; RStr ".doc"];
    CList [RStr ".pdf"];
    CDict [ (YStr "word", RAddr 3); (YStr "pdf", RAddr 4) ];
    CDict [ (YStr "log_level", RStr "INFO");
            (YStr "max_workers", RInt 4);
            (YStr "processors", RAddr 2);
            (YStr "output_dir", RStr "input/markdown");
            (YStr "backup_dir", RStr "input/originals");
            (YStr "file_extensions", RAddr 5) ] ].

(** [default_config], the last object built. *)
Definition default_root : ref_val := RAddr 6.

(** A processor object of [self.processors]. *)
Inductive processor :=
| WordProc (p : Word.WordDocumentProcessor)
| PdfProc (p : Pdf.PDFDocumentProcessor).

(** The object after [__init__]: the merged configuration, the processors
    that are enabled, and [max_workers], the size of the thread pool. *)
Record UniversalDocumentProcessor := {
  config : pyval;
  processors : list (string * processor);
  max_workers : nat
}.

(** The dictionary [process_file] returns.  [None] in [duration] stands for
    the absent key. *)
Record Result := {
  file : string;
  success : bool;
  output_path : option string;
  processor_type : option pykey;
  error : option string;
  duration : option Z
}.

Definition set_processor_type (t : option pykey) (r : Result) : Result :=
  {| file := file r; success := success r; output_path := output_path r;
     processor_type := t; error := error r; duration := duration r |}.

Definition set_error (msg : string) (r : Result) : Result :=
  {| file := file r; success := success r; output_path := output_path r;
     processor_type := processor_type r; error := Some msg;
     duration := duration r |}.

(** [result["success"] = True; result["output_path"] = p;
     result["duration"] = d] *)
Definition set_done (p : string) (d : Z) (r : Result) : Result :=
  {| file := file r; success := true; output_path := Some p;
     processor_type := processor_type r; error := error r;
     duration := Some d |}.

(** *** A [try] block that updates a local dictionary

    [process_file] changes its [result] dictionary inside the [try] block
    and the handler continues from the dictionary as the exception left it:
    computations here carry that dictionary along, also when they raise. *)
Definition SM (S A : Type) : Type := S -> ((exn + A) * S) * list event.

Definition sret {S A} (a : A) : SM S A := fun s => ((inr a, s), []).

Definition sbind {S A B} (m : SM S A) (f : A -> SM S B) : SM S B :=
  fun s =>
    match m s with
    | ((inl e, s'), t) => ((inl e, s'), t)
    | ((inr a, s'), t) =>
        let '(r, t') := f a s' in (r, (t ++ t')%list)
    end.

(** A computation that leaves the dictionary alone. *)
Definition call {S A} (m : M A) : SM S A := fun s => ((fst m, s), snd m).

Definition modify {S} (f : S -> S) : SM S unit := fun s => ((inr tt, f s), []).

Definition stry_except {S A} (m : SM S A) (h : exn -> SM S A) : SM S A :=
  fun s =>
    match m s with
    | ((inl e, s'), t) => let '(r, t') := h e s' in (r, (t ++ t')%list)
    | ok => ok
    end.

(** Run from the dictionary [s] and return the dictionary at the end. *)
Definition returning {S} (m : SM S unit) (s : S) : M S :=
  match m s with
  | ((inl e, _), t) => (inl e, t)
  | ((inr _, s'), t) => (inr s', t)
  end.

Declare Scope sm_scope.
Delimit Scope sm_scope with sm.
Notation "x <- c ;; k" := (sbind c (fun x => k))
  (at level 61, c at next level, right associativity) : sm_scope.
Notation "c ;; k" := (sbind c (fun _ => k))
  (at level 61, right associativity) : sm_scope.

Section WithWorld.
Variable w : World.

(** *** The configuration

    [_load_config] builds [default_config], loads the file and assigns the
    missing defaults into the loaded dictionaries, in place.  The
    computations below carry the store of all these objects. *)
Local Open Scope sm_scope.

(** Read the store. *)
Definition look {A} (f : store -> exn + A) : SM store A :=
  fun st => ((f st, st), []).

(** An assignment: the store changes unless it raises. *)
Definition assign (f : store -> exn + store) : SM store unit :=
  fun st =>
    match f st with
    | inl e => ((inl e, st), [])
    | inr st' => ((inr tt, st'), [])
    end.

(** [yaml.safe_load(f)]: the containers of the document are new objects,
    placed after those that exist. *)
Definition load (path : string) : SM store ref_val :=
  fun st =>
    match yaml_safe_load w path with
    | inl e => ((inl e, st), [])
    | inr doc =>
        ((inr (Store.relocate (List.length st) (root doc)),
          (st ++ map (Store.relocate_container (List.length st))
                   (objects doc))%list),
         [])
    end.

(** The inner loop of the merge: the sub-keys of one default dictionary. *)
Fixpoint merge_subkeys (config : ref_val) (key : string)
    (sub : list (string * ref_val)) : SM store unit :=
  match sub with
  | [] => sret tt
  | (subkey, subvalue) :: rest =>
      inner <- look (fun st => Store.getitem st config key) ;;
      present <- look (fun st => Store.str_in st subkey inner) ;;
      (if negb present
       then inner <- look (fun st => Store.getitem st config key) ;;
            assign (fun st => Store.setitem st inner subkey subvalue)
       else sret tt) ;;
      merge_subkeys config key rest
  end.

(** The loop [for key, value in default_config.items()]. *)
Fixpoint merge_defaults (config : ref_val)
    (defaults : list (string * ref_val)) : SM store unit :=
  match defaults with
  | [] => sret tt
  | (key, value) :: rest =>
      present <- look (fun st => Store.str_in st key config) ;;
      (if negb present
       then assign (fun st => Store.setitem st config key value)
       else value_is_dict <- look (fun st => inr (Store.is_dict st value)) ;;
            if value_is_dict
            then current <- look (fun st => Store.getitem st config key) ;;
                 current_is_dict <-
                   look (fun st => inr (Store.is_dict st current)) ;;
                 if current_is_dict
                 then sub <- look (fun st => inr (Store.items st value)) ;;
                      merge_subkeys config key sub
                 else sret tt
            else sret tt) ;;
      merge_defaults config rest
  end.

(** Run from the store [st]: the value returned, with the store at the
    end. *)
Definition with_store {A} (st : store) (m : SM store A) : M (store * A) :=
  match m st with
  | ((inl e, _), t) => (inl e, t)
  | ((inr a, st'), t) => (inr (st', a), t)
  end.

(** [_load_config]; [None] and the empty path are both false.  The result
    is the dictionary returned, with the store it lives in. *)
Definition _load_config (config_path : option string)
  : M (store * ref_val) :=
  match config_path with
  | None | Some EmptyString => ret (default_store, default_root)
  | Some path =>
      if negb (os_path_exists w path) then ret (default_store, default_root)
      else with_store default_store
             (stry_except
                (config <- load path ;;
                 defaults <-
                   look (fun st => inr (Store.items st default_root)) ;;
                 merge_defaults config defaults ;;
                 sret config)
                (fun e =>
                   call (logger_error ("Error loading config: "
                                       ++ exn_str e)) ;;
                   sret default_root))
  end.

Local Close Scope sm_scope.

Variable self : UniversalDocumentProcessor.

Fixpoint find_processor (name : pykey) (ps : list (string * processor))
  : option processor :=
  match ps with
  | [] => None
  | (n, p) :: ps' =>
      if key_eqb (KStr n) name then Some p else find_processor name ps'
  end.

(** The loop of [_get_processor_for_file] over the items of
    [config["file_extensions"]]. *)
Fixpoint match_extension (ext : string) (items : dict)
  : M (option (pykey * processor)) :=
  match items with
  | [] => ret None
  | (processor_type, extensions) :: rest =>
      known <- lift (str_in ext extensions) ;;
      match (if known then find_processor processor_type (processors self)
             else None) with
      | Some p => ret (Some (processor_type, p))
      | None => match_extension ext rest
      end
  end.

(** [_get_processor_for_file]: [None] stands for [(None, None)]. *)
Definition _get_processor_for_file (file_path : string)
  : M (option (pykey * processor)) :=
  let ext := lower (snd (OsPath.splitext file_path)) in
  file_extensions <- lift (getitem (config self) "file_extensions") ;;
  match file_extensions with
  | VDict items => match_extension ext items
  | v => raise (Exn AttributeError
                  ("'" ++ type_name v ++ "' object has no attribute 'items'"))
  end.

(** [processor.convert_to_markdown(file_path, output_dir)] *)
Definition convert_with (p : processor) (file_path output_dir : string)
  : M string :=
  match p with
  | WordProc wp => Word.convert_to_markdown w wp file_path output_dir
  | PdfProc pp => Pdf.convert_to_markdown w pp file_path output_dir
  end.

(** [os.makedirs(v, exist_ok=True)] for a configuration value. *)
Definition makedirs_value (v : pyval) : M string :=
  match v with
  | VStr dir => makedirs w dir ;; ret dir
  | _ => raise (Exn TypeError
                  ("expected str, bytes or os.PathLike object, not "
                   ++ type_name v))
  end.

Local Open Scope sm_scope.

(** The [try] block of [process_file]. *)
Definition process_file_body (file_path : string) : SM Result unit :=
  output_dir <- call (lift (getitem (config self) "output_dir")) ;;
  output_dir <- call (makedirs_value output_dir) ;;
  found <- call (_get_processor_for_file file_path) ;;
  modify (set_processor_type (option_map fst found)) ;;
  match found with
  | None =>
      let msg := "No suitable processor found for " ++ file_path in
      modify (set_error msg) ;;
      call (logger_warning msg)
  | Some (_, processor) =>
      output_path <- call (convert_with processor file_path output_dir) ;;
      let duration := elapsed w file_path in
      if negb (startswith output_path "Error")
      then modify (set_done output_path duration) ;;
           call (logger_info ("Successfully processed " ++ file_path
                              ++ " in " ++ format_2f w duration ++ "s")) ;;
           configured <- call (lift (get (config self) "backup_dir")) ;;
           if truthy configured
           then backup_dir <- call (lift (getitem (config self)
                                            "backup_dir")) ;;
                backup_dir <- call (makedirs_value backup_dir) ;;
                let backup_path :=
                  OsPath.join backup_dir (OsPath.basename file_path) in
                call (match shutil_copy2 w file_path backup_path with
                      | Some e => raise e
                      | None => emit (Copy2 file_path backup_path)
                      end) ;;
                call (logger_debug ("Backed up original file to "
                                    ++ backup_path))
           else sret tt
      else modify (set_error output_path) ;;
           call (logger_error ("Failed to process " ++ file_path ++ ": "
                               ++ output_path))
  end.

Definition process_file (file_path : string) : M Result :=
  let result :=
    {| file := file_path; success := false; output_path := None;
       processor_type := None; error := None; duration := None |} in
  returning
    (stry_except (process_file_body file_path)
       (fun e =>
          modify (set_error (exn_str e)) ;;
          call (logger_error ("Exception processing " ++ file_path ++ ": "
                              ++ exn_str e))))
    result.

Local Close Scope sm_scope.

(** The first loop of [process_directory] over the files of one
    directory. *)
Fixpoint compatible_files (root : string) (files : list string)
    (files_to_process : list string) : M (list string) :=
  match files with
  | [] => ret files_to_process
  | file :: rest =>
      let file_path := OsPath.join root file in
      found <- _get_processor_for_file file_path ;;
      compatible_files root rest
        (match found with
         | Some (processor_type, _) =>
             if key_truthy processor_type
             then (files_to_process ++ [file_path])%list
             else files_to_process
         | None => files_to_process
         end)
  end.

Fixpoint compatible_walk (walk : list (string * list string))
    (files_to_process : list string) : M (list string) :=
  match walk with
  | [] => ret files_to_process
  | (root, files) :: rest =>
      files_to_process <- compatible_files root files files_to_process ;;
      compatible_walk rest files_to_process
  end.

(** The files [process_directory] submits to the pool. *)
Definition find_files (input_dir : string) : M (list string) :=
  files_to_process <- compatible_walk (os_walk w input_dir) [] ;;
  logger_info ("Found " ++ str_of_nat (List.length files_to_process)
               ++ " files to process") ;;
  ret files_to_process.

(** What the loop over [as_completed] appends for a finished future. *)
Definition collect (file_path : string) (outcome : M Result) : Result :=
  match result_of outcome with
  | inr result => result
  | inl e =>
      {| file := file_path; success := false; output_path := None;
         processor_type := None; error := Some (exn_str e);
         duration := None |}
  end.

(** *** The thread pool

    [ThreadPoolExecutor(max_workers)] takes the submitted calls in
    submission order and has at most [max_workers] of them in flight;
    [as_completed] yields each future when its call has finished, so
    [results] grows in completion order. *)
Record pool := {
  pending : list string;
  in_flight : list string;
  results : list Result
}.

Definition submit_all (files_to_process : list string) : pool :=
  {| pending := files_to_process; in_flight := []; results := [] |}.

Inductive pool_step : pool -> pool -> Prop :=
| step_start : forall f pend fl res,
    List.length fl < max_workers self ->
    pool_step {| pending := f :: pend; in_flight := fl; results := res |}
              {| pending := pend; in_flight := (fl ++ [f])%list;
                 results := res |}
| step_complete : forall f pend fl1 fl2 res,
    pool_step {| pending := pend; in_flight := (fl1 ++ f :: fl2)%list;
                 results := res |}
              {| pending := pend; in_flight := (fl1 ++ fl2)%list;
                 results := (res ++ [collect f (process_file f)])%list |}.

Inductive pool_steps : pool -> pool -> Prop :=
| steps_refl : forall p, pool_steps p p
| steps_next : forall p q r, pool_step p q -> pool_steps q r -> pool_steps p r.

Definition pool_finished (p : pool) : Prop :=
  pending p = [] /\ in_flight p = [].

(** [process_directory input_dir] can return [res]: the files are found,
    the pool has at least one worker, and some run of the pool from the
    submitted files ends with the results [res]. *)
Definition process_directory_returns (input_dir : string)
    (res : list Result) : Prop :=
  exists files_to_process final,
    result_of (find_files input_dir) = inr files_to_process /\
    0 < max_workers self /\
    pool_steps (submit_all files_to_process) final /\
    pool_finished final /\
    results final = res.

(** A deterministic run of the pool, one file after the other: the
    schedule in which every call finishes before the next one starts. *)
Fixpoint run_in_order (files : list string) (res : list Result)
  : list Result :=
  match files with
  | [] => res
  | f :: rest =>
      run_in_order rest (res ++ [collect f (process_file f)])%list
  end.

(** [str(z)] for an integer. *)
Definition str_of_Z (z : Z) : string :=
  if (z <? 0)%Z then "-" ++ str_of_nat (Z.abs_nat z)
  else str_of_nat (Z.abs_nat z).

(** What an f-string prints for [result['processor_type']]. *)
Definition str_of_type (t : option pykey) : string :=
  match t with
  | None | Some KNone => "None"
  | Some (KBool true) => "True"
  | Some (KBool false) => "False"
  | Some (KInt z) => str_of_Z z
  | Some (KStr s) => s
  end.

(** The arrow of the report lines, U+2192.  It has no code below 256 and is
    carried as the three bytes of its UTF-8 encoding; nothing looks inside
    it. *)
Definition arrow : string :=
  String "226"%char (String "134"%char (String "146"%char EmptyString)).

(** [os.path.basename(result['output_path'])]: a TypeError on [None]. *)
Definition basename_of_output (r : Result) : exn + string :=
  match output_path r with
  | Some p => inr (OsPath.basename p)
  | None => inl (Exn TypeError
                   "expected str, bytes or os.PathLike object, not NoneType")
  end.

(** The line of the report for the successful result number [idx]. *)
Definition success_line (entry : nat * Result) : M string :=
  let (idx, result) := entry in
  let duration :=
    match duration result with
    | Some d => format_2f w d
    | None => "0.00"
    end in
  output <- lift (basename_of_output result) ;;
  ret (str_of_nat (idx + 1) ++ ". **" ++ OsPath.basename (file result)
       ++ "** " ++ arrow ++ " " ++ output
       ++ " (" ++ str_of_type (processor_type result) ++ ", "
       ++ duration ++ "s)").

(** The line of the report for the failed result number [idx]. *)
Definition failure_line (entry : nat * Result) : string :=
  let (idx, result) := entry in
  str_of_nat (idx + 1) ++ ". **" ++ OsPath.basename (file result) ++ "**: "
  ++ match error result with Some msg => msg | None => "None" end.

(** The loop over [enumerate(successful)]. *)
Fixpoint success_lines (entries : list (nat * Result)) (report : list string)
  : M (list string) :=
  match entries with
  | [] => ret report
  | entry :: rest =>
      line <- success_line entry ;;
      success_lines rest (report ++ [line])%list
  end.

(** [generate_report] *)
Definition generate_report (results : list Result) : M string :=
  let successful := filter success results in
  let failed := filter (fun r => negb (success r)) results in
  let report :=
    [ "# Document Processing Report";
      nl ++ "Processed " ++ str_of_nat (List.length results) ++ " files: "
      ++ str_of_nat (List.length successful) ++ " successful, "
      ++ str_of_nat (List.length failed) ++ " failed" ++ nl ] in
  report <-
    (match successful with
     | _ :: _ =>
         success_lines (enumerate_from 0 successful)
           (report ++ [(nl ++ "## Successfully Processed Files")%string])%list
     | [] => ret report
     end) ;;
  let report :=
    match failed with
    | _ :: _ =>
        (report ++ [(nl ++ "## Failed Files")%string]
         ++ map failure_line (enumerate_from 0 failed))%list
    | [] => report
    end in
  ret (join nl report).

End WithWorld.
End Universal.

(** ** Sample worlds, used to run the embedding on concrete inputs *)

Module Sample.
Import PyStr Py.

Definition not_found (path : string) : exn :=
  Exn OSError ("[Errno 2] No such file or directory: '" ++ path ++ "'").

(** A world with no files at all, where every write succeeds. *)
Definition empty_world : World :=
  {| fitz_open := fun path => inl (not_found path);
     docx_Document := fun path => inl (not_found path);
     os_path_getsize := fun path => inl (not_found path);
     os_path_exists := fun _ => false;
     open_for_write := fun _ => None;
     os_makedirs := fun _ => None;
     os_walk := fun _ => [];
     shutil_copy2 := fun _ _ => None;
     tempfile_gettempdir := "/tmp";
     yaml_safe_load := fun path => inl (not_found path);
     elapsed := fun _ => 0%Z;
     search_kg := fun _ => inr [];
     format_exc := fun e => "Traceback (most recent call last): " ++ exn_str e;
     format_2f := fun _ => "0.00";
     int_max_str_digits := 4300;
     enough_memory := fun n => (n <=? 1000000)%Z |}.

Definition long_text : string :=
  "The quick brown fox jumps over the lazy dog, twice." ++ nlnl
  ++ "Second paragraph." ++ nl ++ nl ++ nl ++ nl ++ "  Third one.  ".

(** A page with enough native text, and a scanned page with none. *)
Definition text_page : PdfPage :=
  {| get_text := inr long_text;
     page_ocr := fun _ _ => inr "never used";
     get_images := inr [] |}.

Definition scanned_page : PdfPage :=
  {| get_text := inr "  ";
     page_ocr := fun _ _ => inr ("Scanned words" ++ nl);
     get_images := inr [] |}.

Definition report_pdf : PdfDoc :=
  {| pdf_metadata := Some [("title", "Annual Report"); ("author", EmptyString)];
     pdf_pages := [text_page; scanned_page] |}.

Definition memo_docx : DocxDoc :=
  {| core_properties :=
       inr {| cp_title := "Memo"; cp_author := "A"; cp_created := EmptyString;
              cp_modified := EmptyString; cp_subject := EmptyString; cp_keywords := EmptyString |};
     paragraphs :=
       [ {| para_text := "Intro"; style_name := "Heading 1";
            para_runs := [] |};
         {| para_text := "   "; style_name := "Normal"; para_runs := [] |};
         {| para_text := "Hello big world"; style_name := "Normal";
            para_runs := [ {| run_text := "Hello "; run_bold := false;
                              run_italic := false |};
                           {| run_text := "big"; run_bold := true;
                              run_italic := false |};
                           {| run_text := " world"; run_bold := false;
                              run_italic := true |} ] |} ];
     tables := [ {| table_rows := [["a "; "b"]; ["1"; " 2"]] |} ];
     rels := [] |}.

(** A world with [docs/report.pdf], [docs/memo.docx] and [docs/notes.txt]. *)
Definition docs_world : World :=
  {| fitz_open := fun path =>
       if String.eqb path "docs/report.pdf" then inr report_pdf
       else inl (not_found path);
     docx_Document := fun path =>
       if String.eqb path "docs/memo.docx" then inr memo_docx
       else inl (not_found path);
     os_path_getsize := fun path =>
       if String.eqb path "docs/report.pdf" then inr 2048
       else if String.eqb path "docs/memo.docx" then inr 512
       else inl (not_found path);
     os_path_exists := fun path => String.eqb path "out";
     open_for_write := fun _ => None;
     os_makedirs := fun _ => None;
     os_walk := fun dir =>
       if String.eqb dir "docs"
       then [("docs", ["report.pdf"; "memo.docx"; "notes.txt"; "OLD.PDF"])]
       else [];
     shutil_copy2 := fun _ _ => None;
     tempfile_gettempdir := "/tmp";
     yaml_safe_load := fun path => inl (not_found path);
     elapsed := fun _ => 0%Z;
     search_kg := fun query =>
       if String.eqb query "fox"
       then inr [ {| doc_id := "d1"; content := "The fox." |};
                  {| doc_id := "d2"; content := "A dog." |} ]
       else inr [];
     format_exc := fun e => "Traceback (most recent call last): " ++ exn_str e;
     format_2f := fun _ => "0.00";
     int_max_str_digits := 4300;
     enough_memory := fun n => (n <=? 1000000)%Z |}.

(** A world whose retrieval index is missing: the search raises an
    [OSError], which is not a [RequestException]. *)
Definition no_index_world : World :=
  {| fitz_open := fitz_open empty_world;
     docx_Document := docx_Document empty_world;
     os_path_getsize := os_path_getsize empty_world;
     os_path_exists := os_path_exists empty_world;
     open_for_write := open_for_write empty_world;
     os_makedirs := os_makedirs empty_world;
     os_walk := os_walk empty_world;
     shutil_copy2 := shutil_copy2 empty_world;
     tempfile_gettempdir := tempfile_gettempdir empty_world;
     yaml_safe_load := yaml_safe_load empty_world;
     elapsed := elapsed empty_world;
     search_kg := fun _ => inl (not_found "output/artifacts");
     format_exc := format_exc empty_world;
     format_2f := format_2f empty_world;
     int_max_str_digits := int_max_str_digits empty_world;
     enough_memory := enough_memory empty_world |}.

(** A world with a partial [config.yaml]:
    <<
    file_extensions: [".pdf"]
    processors:
      pdf:
        ocr_enabled: false
    >> *)
Definition partial_config : document :=
  {| objects :=
       [ CDict [ (YStr "file_extensions", RAddr 1);
                 (YStr "processors", RAddr 2) ];
         CList [RStr ".pdf"];
         CDict [ (YStr "pdf", RAddr 3) ];
         CDict [ (YStr "ocr_enabled", RBool false) ] ];
     root := RAddr 0 |}.

Definition config_world : World :=
  {| fitz_open := fitz_open empty_world;
     docx_Document := docx_Document empty_world;
     os_path_getsize := os_path_getsize empty_world;
     os_path_exists := fun path => String.eqb path "config.yaml";
     open_for_write := open_for_write empty_world;
     os_makedirs := os_makedirs empty_world;
     os_walk := os_walk empty_world;
     shutil_copy2 := shutil_copy2 empty_world;
     tempfile_gettempdir := tempfile_gettempdir empty_world;
     yaml_safe_load := fun path =>
       if String.eqb path "config.yaml" then inr partial_config
       else inl (not_found path);
     elapsed := elapsed empty_world;
     search_kg := search_kg empty_world;
     format_exc := format_exc empty_world;
     format_2f := format_2f empty_world;
     int_max_str_digits := int_max_str_digits empty_world;
     enough_memory := enough_memory empty_world |}.

(** A world whose [config.yaml] uses one mapping in two places:
    <<
    processors: &shared {}
    file_extensions:
      word: *shared
    >> *)
Definition shared_config : document :=
  {| objects :=
       [ CDict [ (YStr "processors", RAddr 1);
                 (YStr "file_extensions", RAddr 2) ];
         CDict [];
         CDict [ (YStr "word", RAddr 1) ] ];
     root := RAddr 0 |}.

Definition shared_world : World :=
  {| fitz_open := fitz_open empty_world;
     docx_Document := docx_Document empty_world;
     os_path_getsize := os_path_getsize empty_world;
     os_path_exists := fun path => String.eqb path "config.yaml";
     open_for_write := open_for_write empty_world;
     os_makedirs := os_makedirs empty_world;
     os_walk := os_walk empty_world;
     shutil_copy2 := shutil_copy2 empty_world;
     tempfile_gettempdir := tempfile_gettempdir empty_world;
     yaml_safe_load := fun path =>
       if String.eqb path "config.yaml" then inr shared_config
       else inl (not_found path);
     elapsed := elapsed empty_world;
     search_kg := search_kg empty_world;
     format_exc := format_exc empty_world;
     format_2f := format_2f empty_world;
     int_max_str_digits := int_max_str_digits empty_world;
     enough_memory := enough_memory empty_world |}.

(** A PDF whose second page cannot be read, in a world where nothing else
    exists. *)
Definition damaged_page : PdfPage :=
  {| get_text := inl (Exn RuntimeError "damaged page");
     page_ocr := fun _ _ => inr "never used";
     get_images := inr [] |}.

Definition damaged_pdf : PdfDoc :=
  {| pdf_metadata := None;
     pdf_pages := [text_page; damaged_page; text_page] |}.

Definition damaged_world : World :=
  {| fitz_open := fun path =>
       if String.eqb path "damaged.pdf" then inr damaged_pdf
       else inl (not_found path);
     docx_Document := docx_Document empty_world;
     os_path_getsize := fun path =>
       if String.eqb path "damaged.pdf" then inr 100
       else inl (not_found path);
     os_path_exists := os_path_exists empty_world;
     open_for_write := open_for_write empty_world;
     os_makedirs := os_makedirs empty_world;
     os_walk := os_walk empty_world;
     shutil_copy2 := shutil_copy2 empty_world;
     tempfile_gettempdir := tempfile_gettempdir empty_world;
     yaml_safe_load := yaml_safe_load empty_world;
     elapsed := elapsed empty_world;
     search_kg := search_kg empty_world;
     format_exc := format_exc empty_world;
     format_2f := format_2f empty_world;
     int_max_str_digits := int_max_str_digits empty_world;
     enough_memory := enough_memory empty_world |}.

(** The documents of [docs_world] where the backup directory cannot be
    written. *)
Definition no_backup_world : World :=
  {| fitz_open := fitz_open docs_world;
     docx_Document := docx_Document docs_world;
     os_path_getsize := os_path_getsize docs_world;
     os_path_exists := os_path_exists docs_world;
     open_for_write := open_for_write docs_world;
     os_makedirs := os_makedirs docs_world;
     os_walk := os_walk docs_world;
     shutil_copy2 := fun _ dst =>
       Some (Exn OSError ("[Errno 13] Permission denied: '" ++ dst ++ "'"));
     tempfile_gettempdir := tempfile_gettempdir docs_world;
     yaml_safe_load := yaml_safe_load docs_world;
     elapsed := elapsed docs_world;
     search_kg := search_kg docs_world;
     format_exc := format_exc docs_world;
     format_2f := format_2f docs_world;
     int_max_str_digits := int_max_str_digits docs_world;
     enough_memory := enough_memory docs_world |}.

(** A document whose second paragraph has a heading style that is not
    numbered, in a world where nothing else exists. *)
Definition styled_docx : DocxDoc :=
  {| core_properties :=
       inr {| cp_title := "Notes"; cp_author := EmptyString;
              cp_created := EmptyString; cp_modified := EmptyString;
              cp_subject := EmptyString; cp_keywords := EmptyString |};
     paragraphs :=
       [ {| para_text := "Overview"; style_name := "Heading 2";
            para_runs := [] |};
         {| para_text := "Contents"; style_name := "Heading TOC";
            para_runs := [] |};
         {| para_text := "Never written"; style_name := "Normal";
            para_runs := [] |} ];
     tables := [];
     rels := [] |}.

Definition styled_world : World :=
  {| fitz_open := fitz_open empty_world;
     docx_Document := fun path =>
       if String.eqb path "styled.docx" then inr styled_docx
       else inl (not_found path);
     os_path_getsize := os_path_getsize empty_world;
     os_path_exists := os_path_exists empty_world;
     open_for_write := open_for_write empty_world;
     os_makedirs := os_makedirs empty_world;
     os_walk := os_walk empty_world;
     shutil_copy2 := shutil_copy2 empty_world;
     tempfile_gettempdir := tempfile_gettempdir empty_world;
     yaml_safe_load := yaml_safe_load empty_world;
     elapsed := elapsed empty_world;
     search_kg := search_kg empty_world;
     format_exc := format_exc empty_world;
     format_2f := format_2f empty_world;
     int_max_str_digits := int_max_str_digits empty_world;
     enough_memory := enough_memory empty_world |}.

(** Two directories that each hold a [report.pdf]. *)
Definition scan_pdf : PdfDoc :=
  {| pdf_metadata := None; pdf_pages := [scanned_page] |}.

Definition twin_world : World :=
  {| fitz_open := fun path =>
       if String.eqb path "a/report.pdf" then inr report_pdf
       else if String.eqb path "b/report.pdf" then inr scan_pdf
       else inl (not_found path);
     docx_Document := docx_Document empty_world;
     os_path_getsize := fun path =>
       if String.eqb path "a/report.pdf" then inr 2048
       else if String.eqb path "b/report.pdf" then inr 64
       else inl (not_found path);
     os_path_exists := os_path_exists empty_world;
     open_for_write := open_for_write empty_world;
     os_makedirs := os_makedirs empty_world;
     os_walk := fun dir =>
       if String.eqb dir "in"
       then [("a", ["report.pdf"]); ("b", ["report.pdf"])]
       else [];
     shutil_copy2 := shutil_copy2 empty_world;
     tempfile_gettempdir := tempfile_gettempdir empty_world;
     yaml_safe_load := yaml_safe_load empty_world;
     elapsed := elapsed empty_world;
     search_kg := search_kg empty_world;
     format_exc := format_exc empty_world;
     format_2f := format_2f empty_world;
     int_max_str_digits := int_max_str_digits empty_world;
     enough_memory := enough_memory empty_world |}.

(** A document with a picture and a hyperlink, in a world where nothing
    else exists. *)
Definition illustrated_docx : DocxDoc :=
  {| core_properties := inl (Exn KeyError "no core properties part");
     paragraphs :=
       [ {| para_text := "See the figure."; style_name := "Normal";
            para_runs := [] |};
         {| para_text := " "; style_name := "Normal"; para_runs := [] |} ];
     tables := [ {| table_rows := [[" x "; "y"]] |} ];
     rels :=
       [ {| reltype := "http://schemas.openxmlformats.org/officeDocument/2006/relationships/image";
            target_ref := "media/image1.png";
            blob := inr "PNG" |};
         {| reltype := "http://schemas.openxmlformats.org/officeDocument/2006/relationships/hyperlink";
            target_ref := "https://example.org/";
            blob := inl (Exn AttributeError "no target part") |} ] |}.

Definition illustrated_world : World :=
  {| fitz_open := fitz_open empty_world;
     docx_Document := fun path =>
       if String.eqb path "figure.docx" then inr illustrated_docx
       else inl (not_found path);
     os_path_getsize := os_path_getsize empty_world;
     os_path_exists := os_path_exists empty_world;
     open_for_write := open_for_write empty_world;
     os_makedirs := os_makedirs empty_world;
     os_walk := os_walk empty_world;
     shutil_copy2 := shutil_copy2 empty_world;
     tempfile_gettempdir := tempfile_gettempdir empty_world;
     yaml_safe_load := yaml_safe_load empty_world;
     elapsed := elapsed empty_world;
     search_kg := search_kg empty_world;
     format_exc := format_exc empty_world;
     format_2f := format_2f empty_world;
     int_max_str_digits := int_max_str_digits empty_world;
     enough_memory := enough_memory empty_world |}.

Definition image_processor : Word.WordDocumentProcessor :=
  {| Word.chunk_size := 300; Word.chunk_overlap := 100;
     Word.include_images := true |}.

(** A document whose second table has no rows, in a world where nothing
    else exists. *)
Definition gappy_docx : DocxDoc :=
  {| core_properties := inl (Exn KeyError "no core properties part");
     paragraphs :=
       [ {| para_text := "Totals"; style_name := "Heading 1";
            para_runs := [] |} ];
     tables := [ {| table_rows := [["a"; "b"]; ["1"; "2"]] |};
                 {| table_rows := [] |};
                 {| table_rows := [["never written"]] |} ];
     rels := [] |}.

Definition gappy_world : World :=
  {| fitz_open := fitz_open empty_world;
     docx_Document := fun path =>
       if String.eqb path "gappy.docx" then inr gappy_docx
       else inl (not_found path);
     os_path_getsize := os_path_getsize empty_world;
     os_path_exists := os_path_exists empty_world;
     open_for_write := open_for_write empty_world;
     os_makedirs := os_makedirs empty_world;
     os_walk := os_walk empty_world;
     shutil_copy2 := shutil_copy2 empty_world;
     tempfile_gettempdir := tempfile_gettempdir empty_world;
     yaml_safe_load := yaml_safe_load empty_world;
     elapsed := elapsed empty_world;
     search_kg := search_kg empty_world;
     format_exc := format_exc empty_world;
     format_2f := format_2f empty_world;
     int_max_str_digits := int_max_str_digits empty_world;
     enough_memory := enough_memory empty_world |}.

Definition pdf_processor : Pdf.PDFDocumentProcessor := Pdf.init None.

Definition word_processor : Word.WordDocumentProcessor :=
  {| Word.chunk_size := 300; Word.chunk_overlap := 100;
     Word.include_images := false |}.

(** The object built from the default configuration: both processors and
    four workers. *)
Definition universal_processor : Universal.UniversalDocumentProcessor :=
  {| Universal.config := Universal.default_config;
     Universal.processors :=
       [("word", Universal.WordProc word_processor);
        ("pdf", Universal.PdfProc pdf_processor)];
     Universal.max_workers := 4 |}.

End Sample.

(** * Statements

    The vocabulary of the properties below, written from the wording of
    the specification. *)

(** ** Conversions that catch every exception *)

(** What the [try]/[except] of [convert_to_markdown] guarantees, given the
    body of the [try] block, the whole call, the output path and the prefix
    of the log message: either the body ran through, the call returns the
    output path and that file was opened and written; or the body raised
    [e], the call does not raise, it returns a string that starts with
    "Error", and logs the error last. *)
Definition path_or_error (body run : M string) (output_path what : string)
  : Prop :=
  (exists t content,
      body = (inr output_path, t) /\ run = (inr output_path, t) /\
      file_content output_path t = Some content)
  \/
  (exists e t msg,
      body = (inl e, t) /\ result_of run = inr msg /\
      PyStr.startswith msg "Error" = true /\
      trace_of run = (t ++ [Log "ERROR" (what ++ exn_str e)])%list).

(** The message of the error dictionary. *)
Definition metadata_error (e : exn) : string :=
  "Could not extract metadata (" ++ exn_str e ++ ")".

(** ** Searching *)

(** The line feed. *)
Definition line_feed : string := String (ascii_of_nat 10) EmptyString.

(** A hit rendered as "Document: {doc_id}\nContent: {content}". *)
Definition rendered (doc : SearchDoc) : string :=
  "Document: " ++ doc_id doc ++ line_feed ++ "Content: " ++ content doc.

(** Strings joined by blank lines: two line feeds between one and the
    next. *)
Fixpoint joined_by_blank_lines (l : list string) : string :=
  match l with
  | [] => EmptyString
  | [x] => x
  | x :: rest => x ++ line_feed ++ line_feed ++ joined_by_blank_lines rest
  end.

(** C5 as stated: [search_docs] returns the rendered hits joined by blank
    lines, or the fixed message when there is none, or, whenever the search
    fails, a string that starts with "Error searching documents:". *)
Definition search_docs_as_stated (w : World) (query : string) : Prop :=
  match search_kg w query with
  | inr [] =>
      result_of (AppUI.search_docs w query)
      = inr "No relevant documents found."
  | inr docs =>
      result_of (AppUI.search_docs w query)
      = inr (joined_by_blank_lines (map rendered docs))
  | inl _ =>
      exists s,
        result_of (AppUI.search_docs w query) = inr s /\
        PyStr.startswith s "Error searching documents:" = true
  end.

(** ** The result dictionary of [process_file] *)

(** The invariant of the dictionary [process_file] returns: success is
    true exactly when an output path is present. *)
Definition success_iff_output (r : Universal.Result) : Prop :=
  Universal.success r = true <-> Universal.output_path r <> None.

(** A computation over a local dictionary keeps the property [P] of the
    dictionary, whether it returns or raises. *)
Definition sm_preserves {S A} (P : S -> Prop) (m : Universal.SM S A) : Prop :=
  forall s, P s -> P (snd (fst (m s))).

(** A computation over a local dictionary that never raises. *)
Definition sm_returns {S A} (m : Universal.SM S A) : Prop :=
  forall s, exists a s' t, m s = ((inr a, s'), t).

(** ** Directories *)

(** File names that [process_directory] converts. *)
Definition pdf_name (file : string) : bool :=
  PyStr.endswith (PyStr.lower file) ".pdf".

Definition word_name (file : string) : bool :=
  PyStr.endswith (PyStr.lower file) ".docx"
  || PyStr.endswith (PyStr.lower file) ".doc".

(** The paths of the files of a walk whose name is accepted, in walk
    order. *)
Definition selected (accepted : string -> bool)
    (walk : list (string * list string)) : list string :=
  flat_map (fun entry => map (OsPath.join (fst entry))
                           (filter accepted (snd entry))) walk.

(** A conversion result that is kept: it does not start with "Error". *)
Definition not_error (result : string) : bool :=
  negb (PyStr.startswith result "Error").

(** Convert the files at [paths] one after the other and keep the results
    that are not errors. *)
Fixpoint convert_all (convert : string -> M string) (paths : list string)
    (processed_files : list string) : M (list string) :=
  match paths with
  | [] => ret processed_files
  | path :: rest =>
      bind (convert path)
        (fun result =>
           convert_all convert rest
             (if not_error result
              then (processed_files ++ [result])%list
              else processed_files))
  end.

(** What [process_directory] does for the files [paths] it selects, with
    the conversion [convert], whose [try] block is [body] and whose output
    path is [out_path]: every selected file is converted, in order, and
    nothing else is; a result that does not start with "Error" is the
    output path of a conversion that ran through; the list returned holds
    exactly those results. *)
Definition converts_exactly (w : World) (output_dir : string)
    (convert body : string -> M string) (out_path : string -> string)
    (paths : list string) (run : M (list string)) : Prop :=
  exists results,
    Forall2 (fun path result =>
               result_of (convert path) = inr result /\
               (not_error result = true ->
                result = out_path path /\
                result_of (body path) = inr result))
      paths results /\
    result_of run = inr (filter not_error results) /\
    trace_of run
    = ((if os_path_exists w output_dir then [] else [Makedirs output_dir])
       ++ flat_map (fun path => trace_of (convert path)) paths)%list.

(** ** Page texts and the markdown of a PDF *)

(** A text that consists of white space only (the empty text included). *)
Definition whitespace_only (s : string) : bool :=
  forallb PyStr.is_space (list_ascii_of_string s).

(** The native text of a page, [page.get_text()]. *)
Definition native_text (page : PdfPage) : string :=
  match get_text page with inr text => text | inl _ => EmptyString end.

(** The OCR result for a page: what tesseract reads, or the empty string
    when rendering or recognition fails. *)
Definition ocr_result (self : Pdf.PDFDocumentProcessor) (page : PdfPage)
  : string :=
  match page_ocr page (Pdf.image_dpi self) (Pdf.ocr_language self) with
  | inr text => text
  | inl _ => EmptyString
  end.

(** OCR replaces a native text when it is enabled and the text is white
    space only or shorter than 50 characters. *)
Definition needs_ocr (self : Pdf.PDFDocumentProcessor) (text : string)
  : bool :=
  Py.truthy (Pdf.ocr_enabled self)
  && (whitespace_only text || (String.length text <? 50)).

(** The text used for a page. *)
Definition page_text (self : Pdf.PDFDocumentProcessor) (page : PdfPage)
  : string :=
  if needs_ocr self (native_text page) then ocr_result self page
  else native_text page.

(** Concatenation of a list of strings. *)
Definition cat (l : list string) : string := fold_right append EmptyString l.

(** The data written to [path] by the events of a trace, in order. *)
Fixpoint written (path : string) (tr : list event) : string :=
  match tr with
  | [] => EmptyString
  | Write p data :: tr' =>
      if String.eqb p path then data ++ written path tr'
      else written path tr'
  | _ :: tr' => written path tr'
  end.

(** No event of the trace opens (and so truncates) [path]. *)
Definition never_opens (path : string) (tr : list event) : bool :=
  forallb (fun ev => match ev with
                     | OpenW p => negb (String.eqb p path)
                     | _ => true
                     end) tr.

(** The trace holds log records only. *)
Definition only_logs (tr : list event) : bool :=
  forallb (fun ev => match ev with Log _ _ => true | _ => false end) tr.

(** The trace only writes to [path]. *)
Definition only_writes (path : string) (tr : list event) : bool :=
  forallb (fun ev => match ev with
                     | Write p _ => String.eqb p path
                     | _ => false
                     end) tr.

(** The non-empty paragraphs of a page text: blank-line separated blocks
    after runs of newlines are collapsed, trimmed, without the blank ones. *)
Definition paragraphs_of (text : string) : list string :=
  filter PyStr.nonempty
    (map PyStr.strip
       (PyStr.split (PyStr.collapse_newlines text) PyStr.nlnl)).

(** The markdown reference to image [idx] of page [n]. *)
Definition image_ref (name : string) (n idx : nat) : string :=
  "![Image " ++ PyStr.str_of_nat idx ++ " from page " ++ PyStr.str_of_nat n
  ++ "]("
  ++ OsPath.join (name ++ "_images")
       ("page" ++ PyStr.str_of_nat n ++ "_img" ++ PyStr.str_of_nat idx
        ++ ".png")
  ++ ")" ++ PyStr.nlnl.

(** The image references of page [n], when image extraction is on. *)
Definition image_refs (self : Pdf.PDFDocumentProcessor) (name : string)
    (n : nat) (page : PdfPage) : string :=
  if Py.truthy (Pdf.extract_images self)
  then match get_images page with
       | inr images =>
           cat (map (fun entry => image_ref name n (fst entry))
                  (enumerate_from 1 images))
       | inl _ => EmptyString
       end
  else EmptyString.

(** The section of page [n]: its heading, its non-empty paragraphs, each
    followed by a blank line, and its image references. *)
Definition page_section (self : Pdf.PDFDocumentProcessor) (name : string)
    (entry : nat * PdfPage) : string :=
  let (n, page) := entry in
  "## Page " ++ PyStr.str_of_nat n ++ PyStr.nlnl
  ++ cat (map (fun paragraph => paragraph ++ PyStr.nlnl)
            (paragraphs_of (page_text self page)))
  ++ image_refs self name n page.

(** The YAML front matter of a metadata dictionary: one "key: value" line
    for every entry whose value is not blank, between two "---" lines. *)
Definition frontmatter (metadata : sdict) : string :=
  "---" ++ PyStr.nl
  ++ cat (map (fun kv => fst kv ++ ": " ++ snd kv ++ PyStr.nl)
            (filter (fun kv => negb (whitespace_only (snd kv))) metadata))
  ++ "---" ++ PyStr.nlnl.

(** The title heading: the title of the metadata, or the file name without
    its extension. *)
Definition title_heading (metadata : sdict) (name : string) : string :=
  "# "
  ++ match sdict_get metadata "title" with Some t => t | None => name end
  ++ PyStr.nlnl.

(** The last character of a string. *)
Fixpoint last_char (s : string) : option ascii :=
  match s with
  | EmptyString => None
  | String c EmptyString => Some c
  | String _ s' => last_char s'
  end.

(** ** The markdown of a Word document *)

(** Every character of a string satisfies [P]. *)
Definition all_chars (P : ascii -> bool) (s : string) : bool :=
  forallb P (list_ascii_of_string s).

(** A paragraph with non-whitespace text. *)
Definition has_text (para : Paragraph) : bool :=
  negb (whitespace_only (para_text para)).

(** A paragraph whose style name starts with "Heading". *)
Definition is_heading (para : Paragraph) : bool :=
  PyStr.startswith (style_name para) "Heading".

(** "#", [n] times. *)
Fixpoint hashes (n : nat) : string :=
  match n with
  | O => EmptyString
  | S n' => String "#" (hashes n')
  end.

(** The text with the runs marked: for every marked run in turn, every
    occurrence of the text of the run in the text so far is put between
    two marks. *)
Fixpoint mark_runs (mark : string) (marked : Run -> bool) (runs : list Run)
    (text : string) : string :=
  match runs with
  | [] => text
  | run :: rest =>
      mark_runs mark marked rest
        (if marked run
         then PyStr.replace text (run_text run)
                (mark ++ run_text run ++ mark)
         else text)
  end.

(** The body text of a paragraph: its text with the bold runs marked by
    "**", then the italic runs marked by "*". *)
Definition body_text (para : Paragraph) : string :=
  mark_runs "*" run_italic (para_runs para)
    (mark_runs "**" run_bold (para_runs para) (para_text para)).

(** The marks of a heading line: one "#" for each level, where the level
    is the integer that the style name spells once every "Heading" is
    taken out of it, and no mark for a level below 1.  There are none to
    write, and the conversion stops with an exception of the given class,
    when the name spells no integer or one of too many digits, when the
    level is not within the 64-bit indices, or when the marks do not fit
    in memory. *)
Definition heading_marks (w : World) (name : string) : exn_class + string :=
  match PyStr.py_int (int_max_str_digits w)
          (PyStr.replace name "Heading" EmptyString) with
  | PyStr.Int_ok level =>
      if ((level <? - 2 ^ 63) || (2 ^ 63 <=? level))%Z then inl OverflowError
      else if (level <=? 0)%Z then inr EmptyString
      else if enough_memory w level then inr (hashes (Z.to_nat level))
      else inl MemoryError
  | _ => inl ValueError
  end.

(** What a paragraph with text is written as: a "Heading" paragraph as
    its marks, a space and its text, any other paragraph as its body text;
    both are followed by a blank line. *)
Definition rendered_paragraph (w : World) (para : Paragraph)
  : exn_class + string :=
  if is_heading para
  then match heading_marks w (style_name para) with
       | inl cls => inl cls
       | inr marks =>
           inr (marks ++ " " ++ para_text para ++ line_feed ++ line_feed)
       end
  else inr (body_text para ++ line_feed ++ line_feed).

Definition table_line (cells : list string) : string :=
  "| " ++ PyStr.join " | " cells ++ " |" ++ PyStr.nl.

(** A table: header line, separator line, one line per further row, and a
    blank line. *)
Definition render_table (table : Table) : string :=
  match table_rows table with
  | [] => EmptyString
  | header :: rows =>
      table_line (map PyStr.strip header)
      ++ table_line (repeat "---" (List.length header))
      ++ cat (map (fun row => table_line (map PyStr.strip row)) rows)
      ++ PyStr.nl
  end.

(** Where [extract_text] saves the image of a relationship. *)
Definition image_path (w : World) (rel : Rel) : string :=
  OsPath.join (tempfile_gettempdir w)
    (List.last (PyStr.split (target_ref rel) "/") EmptyString).

(** What a table is written as; a table without rows stops the
    conversion with an IndexError. *)
Definition rendered_table (table : Table) : exn_class + string :=
  match table_rows table with
  | [] => inl IndexError
  | _ => inr (render_table table)
  end.

(** The items rendered one after the other, up to the first that stops
    the conversion. *)
Fixpoint rendered_until {A} (render : A -> exn_class + string)
    (items : list A) : string * option exn_class :=
  match items with
  | [] => (EmptyString, None)
  | item :: rest =>
      match render item with
      | inl cls => (EmptyString, Some cls)
      | inr text =>
          let (more, stop) := rendered_until render rest in
          (text ++ more, stop)
      end
  end.

(** The markdown of the paragraphs and tables of a document: the
    paragraphs that have text, in document order, then the tables, up to
    the first one that stops the conversion. *)
Definition markdown_body (w : World) (doc : DocxDoc)
  : string * option exn_class :=
  match rendered_until (rendered_paragraph w)
          (filter has_text (paragraphs doc)) with
  | (text, Some cls) => (text, Some cls)
  | (text, None) =>
      let (rows, stop) := rendered_until rendered_table (tables doc) in
      (text ++ rows, stop)
  end.

(** C6 as stated, for one paragraph: a "Heading" paragraph is a heading
    line whose level is the integer parsed from the rest of the style name
    after "Heading", any other paragraph is its text; both are followed by
    a blank line. *)
Definition stated_rendering (w : World) (para : Paragraph) (line : string)
  : Prop :=
  if is_heading para
  then exists level,
         PyStr.py_int (int_max_str_digits w) (PyStr.drop 7 (style_name para))
         = PyStr.Int_ok level /\
         line = hashes (Z.to_nat level) ++ " " ++ para_text para
                ++ line_feed ++ line_feed
  else line = para_text para ++ line_feed ++ line_feed.

(** C6 as stated: the markdown file of a document that opens holds, one
    after the other, every paragraph with text rendered as stated. *)
Definition word_layout_as_stated (w : World)
    (self : Word.WordDocumentProcessor) (file_path output_dir : string)
  : Prop :=
  forall doc,
    docx_Document w file_path = inr doc ->
    exists lines before after,
      Forall2 (stated_rendering w) (filter has_text (paragraphs doc)) lines
      /\ file_content (Word.md_path file_path output_dir)
           (trace_of (Word.convert_to_markdown w self file_path output_dir))
         = Some (before ++ cat lines ++ after).

(** No image of the document is saved at [path]. *)
Definition images_saved_elsewhere (w : World)
    (self : Word.WordDocumentProcessor) (doc : DocxDoc) (path : string)
  : Prop :=
  Word.include_images self = true ->
  forall rel, In rel (rels doc) -> image_path w rel <> path.

(** No event of the trace opens or writes [path]. *)
Definition avoids (path : string) (tr : list event) : bool :=
  forallb (fun ev => match ev with
                     | OpenW p | Write p _ => negb (String.eqb p path)
                     | _ => true
                     end) tr.

(** Characters of a decimal literal after the sign. *)
Definition digit_or_underscore (c : ascii) : bool :=
  match PyStr.digit_val c with Some _ => true | None => Ascii.eqb c "_" end.

(** Characters of a string [int()] accepts. *)
Definition int_char (c : ascii) : bool :=
  PyStr.is_int_space c || digit_or_underscore c
  || Ascii.eqb c "+" || Ascii.eqb c "-".

(** ** Configuration *)

(** The store once the file is loaded: the objects of
    [default_config], then those of the document. *)
Definition loaded_store (doc : document) : store :=
  (Universal.default_store
   ++ map (Store.relocate_container (List.length Universal.default_store))
        (objects doc))%list.

(** The value of the document in that store. *)
Definition loaded_root (doc : document) : ref_val :=
  Store.relocate (List.length Universal.default_store) (root doc).

(** The entries of the dictionary that a value is, if it is one. *)
Definition dict_at (st : store) (v : ref_val)
  : option (list (ykey * ref_val)) :=
  match v with
  | RAddr a =>
      match nth_error st a with Some (CDict es) => Some es | _ => None end
  | _ => None
  end.

(** The defaults of [_load_config], as key and value pairs. *)
Definition default_items : list (string * ref_val) :=
  Store.items Universal.default_store Universal.default_root.

(** The top-level default keys. *)
Definition top_level_keys : list string :=
  ["log_level"; "max_workers"; "processors"; "output_dir"; "backup_dir";
   "file_extensions"].

(** The sub-keys of a default value with their values: the entries of a
    default that is a dictionary, none for any other default. *)
Definition sub_items (value : ref_val) : list (string * ref_val) :=
  Store.items Universal.default_store value.

(** The value a list of pairs has for a key: that of the first pair with
    the key. *)
Fixpoint assoc (l : list (string * ref_val)) (s : string) : option ref_val :=
  match l with
  | [] => None
  | (k, v) :: rest => if String.eqb k s then Some v else assoc rest s
  end.

(** [result] has every string key of the dictionary [default], and under
    each key whose default is itself a dictionary, again every key of that
    one, as deep as the defaults go ([depth] bounds the nesting). *)
Fixpoint covers (depth : nat) (st : store) (default result : ref_val)
  : bool :=
  match depth with
  | O => true
  | S depth' =>
      match dict_at st default with
      | None => true
      | Some entries =>
          match dict_at st result with
          | None => false
          | Some es =>
              forallb (fun entry =>
                         match entry with
                         | (YStr key, value) =>
                             match Store.find es key with
                             | Some v => covers depth' st value v
                             | None => false
                             end
                         | _ => true
                         end) entries
          end
      end
  end.

(** C10 as stated: the result is a dictionary with every top-level default
    key, and within each nested default dictionary every sub-key is
    present.  No default dictionary is inside itself, so the defaults nest
    less deep than they have objects. *)
Definition merged_as_stated (st : store) (result : ref_val) : Prop :=
  covers (List.length Universal.default_store) st Universal.default_root
    result = true.

(** The result is a dictionary that has every top-level default key. *)
Definition has_top_level_keys (st : store) (result : ref_val) : Prop :=
  exists es,
    dict_at st result = Some es /\
    forall key, In key top_level_keys -> Store.has es key = true.

(** The objects of [default_config] are as the literal built them. *)
Definition defaults_intact (st : store) : Prop :=
  firstn (List.length Universal.default_store) st = Universal.default_store.

(** Entries that are new to a dictionary with the entries [es]: each
    has a string key that neither the dictionary nor an entry before it
    has. *)
Fixpoint new_entries (es added : list (ykey * ref_val)) : Prop :=
  match added with
  | [] => True
  | (YStr s, v) :: rest =>
      Store.find es s = None /\ new_entries (es ++ [(YStr s, v)]) rest
  | _ => False
  end.

(** Every object of [st0] is in [st], at its address: a dictionary with
    its entries, in their order and before the new ones, and any other
    object unchanged. *)
Definition keeps_objects (st0 st : store) : Prop :=
  List.length st = List.length st0 /\
  forall x c,
    nth_error st0 x = Some c ->
    match c with
    | CDict es =>
        exists added,
          nth_error st x = Some (CDict (es ++ added)) /\
          new_entries es added
    | _ => nth_error st x = Some c
    end.

(** The default dictionaries merged into the dictionary at [b]: those
    whose key the root dictionary, with the entries [root_entries], has for
    [b] itself, in the order of the defaults. *)
Definition merged_into (root_entries : list (ykey * ref_val)) (b : nat)
    (defaults : list (string * ref_val)) : list (string * ref_val) :=
  filter (fun entry =>
            match Store.find root_entries (fst entry) with
            | Some (RAddr b') => b' =? b
            | _ => false
            end) defaults.

(** What the defaults give to the loaded dictionary at [x] for a string
    key [s] it does not have: to the root dictionary (at [a]) the default
    of [s]; to a dictionary that is the value of the root under the key of
    a default dictionary, the value that default has for [s], and where
    it is the value under several such keys, that of the first which has
    one.  The values are those of the defaults themselves: a default that
    is a dictionary or a list is given as the object it is, not as a
    copy. *)
Definition supplied (defaults : list (string * ref_val)) (a : nat)
    (root_entries : list (ykey * ref_val)) (x : nat) (s : string)
  : option ref_val :=
  match (if x =? a then assoc defaults s else None) with
  | Some v => Some v
  | None =>
      assoc (flat_map (fun entry => sub_items (snd entry))
               (merged_into root_entries x defaults)) s
  end.

(** The defaults are merged one level deep into the loaded document
    [doc], whose value is the dictionary at [a] with the entries
    [root_entries]: [st] is the store with the document loaded, except
    that each of its dictionaries has got, after its own entries, what the
    defaults supply for the keys it did not have. *)
Definition merged_one_level (doc : document) (a : nat)
    (root_entries : list (ykey * ref_val)) (st : store) : Prop :=
  keeps_objects (loaded_store doc) st /\
  forall x es,
    dict_at (loaded_store doc) (RAddr x) = Some es ->
    exists es',
      dict_at st (RAddr x) = Some es' /\
      forall s,
        Store.find es' s
        = match Store.find es s with
          | Some v => Some v
          | None => if List.length Universal.default_store <=? x
                    then supplied default_items a root_entries x s
                    else None
          end.

(** The dictionary that [_load_config] loads, if it loads one: the
    document of a file that is named, exists and can be loaded, with the
    address and the entries of its value when that is a dictionary. *)
Definition loaded_dictionary (w : World) (config_path : option string)
  : option (document * nat * list (ykey * ref_val)) :=
  match config_path with
  | None => None
  | Some path =>
      if PyStr.nonempty path && os_path_exists w path
      then match yaml_safe_load w path with
           | inl _ => None
           | inr doc =>
               match loaded_root doc with
               | RAddr a =>
                   match dict_at (loaded_store doc) (RAddr a) with
                   | Some root_entries => Some (doc, a, root_entries)
                   | None => None
                   end
               | _ => None
               end
           end
      else None
  end.

(** ** The thread pool *)

(** What the pool appends for a file: the dictionary [process_file]
    returns for it. *)
Definition outcome (w : World) (self : Universal.UniversalDocumentProcessor)
    (file_path : string) : Universal.Result :=
  Universal.collect file_path (Universal.process_file w self file_path).

(** C4 as stated: at no point of a run of the pool are two calls of
    [process_file] in flight. *)
Definition one_at_a_time (w : World)
    (self : Universal.UniversalDocumentProcessor) (files : list string)
  : Prop :=
  forall p,
    Universal.pool_steps w self (Universal.submit_all files) p ->
    List.length (Universal.in_flight p) <= 1.

(** What every state of the pool satisfies, for the submitted [files]: the
    results so far and the calls in flight or pending account for every
    file once, and at most [max_workers] calls are in flight. *)
Definition pool_invariant (w : World)
    (self : Universal.UniversalDocumentProcessor) (files : list string)
    (p : Universal.pool) : Prop :=
  Permutation
    (Universal.results p
     ++ map (outcome w self) (Universal.in_flight p)
     ++ map (outcome w self) (Universal.pending p))%list
    (map (outcome w self) files)
  /\ List.length (Universal.in_flight p) <= Universal.max_workers self.

(** ** Further properties: text and metadata of a PDF *)

(** The exception of the first page whose text cannot be read. *)
Fixpoint first_failure (pages : list PdfPage) : option exn :=
  match pages with
  | [] => None
  | page :: rest =>
      match get_text page with
      | inl e => Some e
      | inr _ => first_failure rest
      end
  end.

(** The exception that stops [extract_text]: that of the failed open or of
    the first unreadable page. *)
Definition text_failure (w : World) (file_path : string) : option exn :=
  match fitz_open w file_path with
  | inl e => Some e
  | inr doc => first_failure (pdf_pages doc)
  end.

(** The string [extract_text] returns for the exception [e]. *)
Definition extract_text_error (e : exn) : string :=
  "Error: Could not extract text from document (" ++ exn_str e ++ ")".

(** What [PDFDocumentProcessor.extract_text] returns: the error string of
    the failed open or of the first unreadable page, else the page texts
    joined by blank lines. *)
Definition extracted_text (w : World) (self : Pdf.PDFDocumentProcessor)
    (file_path : string) : string :=
  match fitz_open w file_path with
  | inl e => extract_text_error e
  | inr doc =>
      match first_failure (pdf_pages doc) with
      | Some e => extract_text_error e
      | None =>
          PyStr.join PyStr.nlnl (map (page_text self) (pdf_pages doc))
      end
  end.


(** ** Further properties: the dictionary of [process_file] *)

(** A dictionary of a file that was not converted: no output path, no
    duration, and a message under ["error"]. *)
Definition reports_failure (r : Universal.Result) : Prop :=
  Universal.output_path r = None /\
  Universal.duration r = None /\
  exists msg, Universal.error r = Some msg.

(** A dictionary of a converted file: the dispatcher chose the processor
    [proc] under the key [t], the processor returned the path [p] for the
    configured output directory, and the dictionary holds [p], [t] and the
    time taken. *)
Definition reports_conversion (w : World)
    (self : Universal.UniversalDocumentProcessor) (file_path : string)
    (r : Universal.Result) : Prop :=
  exists dir t proc p,
    Py.getitem (Universal.config self) "output_dir" = inr (VStr dir) /\
    result_of (Universal._get_processor_for_file self file_path)
    = inr (Some (t, proc)) /\
    result_of (Universal.convert_with w proc file_path dir) = inr p /\
    PyStr.startswith p "Error" = false /\
    Universal.output_path r = Some p /\
    Universal.processor_type r = Some t /\
    Universal.duration r = Some (elapsed w file_path).

(** A dictionary that reports what happened to its own file. *)
Definition well_reported (w : World)
    (self : Universal.UniversalDocumentProcessor) (r : Universal.Result)
  : Prop :=
  if Universal.success r
  then reports_conversion w self (Universal.file r) r
  else reports_failure r.

(** ** Further properties: the report *)

(** The second line of the report, for [n] results of which [s] are
    successful and [f] failed. *)
Definition counts_line (n s f : nat) : string :=
  PyStr.nl ++ "Processed " ++ PyStr.str_of_nat n ++ " files: "
  ++ PyStr.str_of_nat s ++ " successful, "
  ++ PyStr.str_of_nat f ++ " failed" ++ PyStr.nl.

(** The lines a section of the report takes: none when it has no entry,
    else a heading and one line per entry. *)
Definition section_lines (n : nat) : nat :=
  match n with 0 => 0 | S _ => S n end.

(** A report for [n] results, [s] of them successful and [f] failed: the
    title, the counts, and the lines of the two sections. *)
Definition report_for (n s f : nat) (report : string) : Prop :=
  exists body,
    report = PyStr.join PyStr.nl
               ("# Document Processing Report" :: counts_line n s f :: body)
    /\ List.length body = section_lines s + section_lines f.

(** ** Further properties: the dispatcher *)

(** The extension the dispatcher looks up: that of the path, lower-cased. *)
Definition extension (file_path : string) : string :=
  PyStr.lower (snd (OsPath.splitext file_path)).

(** A value that [in] can search: a list, a tuple, a string or a
    dictionary. *)
Definition searchable (v : pyval) : bool :=
  match v with
  | VList _ | VTuple _ | VStr _ | VDict _ => true
  | _ => false
  end.

(** The configuration maps every processor type to something [in] can
    search. *)
Definition extensions_configured
    (self : Universal.UniversalDocumentProcessor) (items : Py.dict) : Prop :=
  Py.getitem (Universal.config self) "file_extensions" = inr (VDict items)
  /\ forallb (fun entry => searchable (snd entry)) items = true.

(** The entry [(t, exts)] of the configuration lists the extension. *)
Definition lists_extension (items : Py.dict) (ext : string) (t : pykey)
  : Prop :=
  exists exts, In (t, exts) items /\ Py.str_in ext exts = inr true.

(** Every path of a walk, in walk order. *)
Definition walk_paths (walk : list (string * list string)) : list string :=
  flat_map (fun entry => map (OsPath.join (fst entry)) (snd entry)) walk.

(** The dispatcher finds a processor for the path, under a key that is
    true. *)
Definition compatible (self : Universal.UniversalDocumentProcessor)
    (file_path : string) : bool :=
  match result_of (Universal._get_processor_for_file self file_path) with
  | inr (Some (processor_type, _)) => Py.key_truthy processor_type
  | _ => false
  end.

(** ** Further properties: the configuration *)

(** Every setting of the loaded document is in the store [st]: each of
    its objects is there, a dictionary with its entries first and in their
    order, any other object unchanged; so are the objects of the
    defaults. *)
Definition keeps_settings (doc : document) (st : store) : Prop :=
  keeps_objects (loaded_store doc) st /\ defaults_intact st.

(** The record [_load_config] logs for the exception [e]. *)
Definition config_error (e : exn) : event :=
  Log "ERROR" ("Error loading config: " ++ exn_str e).

(** ** Further properties: what a run touches *)

(** Every event of the trace satisfies [P]. *)
Definition every (P : event -> bool) (tr : list event) : bool :=
  forallb P tr.

(** An event that copies no file. *)
Definition no_copy (ev : event) : bool :=
  match ev with Copy2 _ _ => false | _ => true end.

(** An event that is a log record, or that opens or writes the file at
    [path]: no other file, no directory, no copy. *)
Definition touches_only (path : string) (ev : event) : bool :=
  match ev with
  | Log _ _ => true
  | OpenW p | Write p _ => String.eqb p path
  | _ => false
  end.

(** ** Further properties: the text of a Word document *)

(** The text [extract_text] collects: the paragraphs that have text, then
    one line per table row with the stripped cells joined by " | ", all
    joined by blank lines. *)
Definition document_text (doc : DocxDoc) : string :=
  PyStr.join PyStr.nlnl
    (map para_text (filter has_text (paragraphs doc))
     ++ flat_map (fun table =>
                    map (fun row => PyStr.join " | " (map PyStr.strip row))
                      (table_rows table))
          (tables doc))%list.

(** The relationships whose type mentions an image. *)
Definition image_rels (doc : DocxDoc) : list Rel :=
  filter (fun rel => PyStr.contains (reltype rel) "image") (rels doc).

(** The image of a relationship can be saved: its file opens and its data
    can be read. *)
Definition can_save (w : World) (rel : Rel) : Prop :=
  open_for_write w (image_path w rel) = None /\ exists data, blob rel = inr data.

(** Saving the image of a relationship: its file is opened and its data
    written. *)
Definition saving (w : World) (rel : Rel) : list event :=
  [OpenW (image_path w rel);
   Write (image_path w rel)
     (match blob rel with inr data => data | inl _ => EmptyString end)].
(** * Properties *)

(** ** The string primitives on small inputs *)

Example strip_drops_outer_space :
  PyStr.strip ("  a b " ++ PyStr.nl) = "a b"
  /\ PyStr.strip "   " = EmptyString.
Proof. split; reflexivity. Qed.

Example split_on_blank_lines :
  PyStr.split ("a" ++ PyStr.nlnl ++ "b" ++ PyStr.nlnl) PyStr.nlnl
  = ["a"; "b"; EmptyString]
  /\ PyStr.split (PyStr.nl ++ PyStr.nl ++ PyStr.nl) PyStr.nlnl
     = [EmptyString; PyStr.nl].
Proof. split; reflexivity. Qed.

Example collapse_long_runs :
  PyStr.collapse_newlines
    ("a" ++ PyStr.nl ++ PyStr.nl ++ PyStr.nl ++ PyStr.nl ++ "b" ++ PyStr.nl
     ++ "c")
  = "a" ++ PyStr.nlnl ++ "b" ++ PyStr.nl ++ "c".
Proof. reflexivity. Qed.

Example replace_all_occurrences :
  PyStr.replace "Heading 1" "Heading" EmptyString = " 1"
  /\ PyStr.replace "aaa" "aa" "b" = "ba"
  /\ PyStr.replace "abc" EmptyString "*" = "*a*b*c*".
Proof. repeat split; reflexivity. Qed.

Example int_of_literals :
  PyStr.py_int 4300 " 1" = PyStr.Int_ok 1
  /\ PyStr.py_int 4300 "1_0" = PyStr.Int_ok 10
  /\ PyStr.py_int 4300 "-12 " = PyStr.Int_ok (-12)
  /\ PyStr.py_int 4300 EmptyString = PyStr.Int_invalid
  /\ PyStr.py_int 4300 " 1 Char" = PyStr.Int_invalid
  /\ PyStr.py_int 4300 "1__0" = PyStr.Int_invalid
  /\ PyStr.py_int 4300 "_1" = PyStr.Int_invalid
  /\ PyStr.py_int 4300 "1_" = PyStr.Int_invalid
  /\ PyStr.py_int 4300 ("7" ++ String (ascii_of_nat 28) EmptyString)
     = PyStr.Int_invalid
  /\ PyStr.py_int 4300 (String (ascii_of_nat 160) "7") = PyStr.Int_ok 7.
Proof. repeat split; reflexivity. Qed.

(** A literal of more digits than the limit is refused before what
    follows its digits is looked at; below 641 digits no limit applies. *)
Example int_of_long_literals :
  PyStr.py_int 700 (string_of_list_ascii (repeat "1"%char 701) ++ "x")
  = PyStr.Int_too_long 701
  /\ PyStr.py_int 700 ("x" ++ string_of_list_ascii (repeat "1"%char 701))
     = PyStr.Int_invalid
  /\ PyStr.py_int 10 "00000000012" = PyStr.Int_ok 12.
Proof. repeat split; vm_compute; reflexivity. Qed.

Example repr_of_strings :
  PyStr.py_repr " TOC" = "' TOC'"
  /\ PyStr.py_repr "it's" = String PyStr.double_quote
                              ("it's" ++ String PyStr.double_quote
                                           EmptyString)
  /\ PyStr.py_repr ("a" ++ PyStr.nl) = "'a\n'"
  /\ PyStr.py_repr (String (ascii_of_nat 133) EmptyString) = "'\x85'".
Proof. repeat split; reflexivity. Qed.

Example findall_counts_words :
  PyStr.findall_words "hello, world_1 foo-bar  "
  = ["hello"; "world_1"; "foo"; "bar"].
Proof. reflexivity. Qed.

Example splitext_cases :
  OsPath.splitext "docs/report.PDF" = ("docs/report", ".PDF")
  /\ OsPath.splitext ".bashrc" = (".bashrc", EmptyString)
  /\ OsPath.splitext "a.b/c" = ("a.b/c", EmptyString)
  /\ OsPath.splitext "a.tar.gz" = ("a.tar", ".gz").
Proof. repeat split; reflexivity. Qed.

Example join_cases :
  OsPath.join "out" "a.md" = "out/a.md"
  /\ OsPath.join EmptyString "a.md" = "a.md"
  /\ OsPath.join "out/" "a.md" = "out/a.md"
  /\ OsPath.join "out" "/a.md" = "/a.md".
Proof. repeat split; reflexivity. Qed.

(** The sample report, converted. *)
Example sample_report_markdown :
  file_content "out/report.md"
    (trace_of (Pdf.convert_to_markdown Sample.docs_world Sample.pdf_processor
                 "docs/report.pdf" "out"))
  = Some ("---" ++ PyStr.nl
          ++ "title: Annual Report" ++ PyStr.nl
          ++ "page_count: 2" ++ PyStr.nl
          ++ "file_size: 2048" ++ PyStr.nl
          ++ "word_count: 16" ++ PyStr.nl
          ++ "---" ++ PyStr.nlnl
          ++ "# Annual Report" ++ PyStr.nlnl
          ++ "## Page 1" ++ PyStr.nlnl
          ++ "The quick brown fox jumps over the lazy dog, twice."
          ++ PyStr.nlnl
          ++ "Second paragraph." ++ PyStr.nlnl
          ++ "Third one." ++ PyStr.nlnl
          ++ "## Page 2" ++ PyStr.nlnl
          ++ "Scanned words" ++ PyStr.nlnl).
Proof. reflexivity. Qed.

(** The sample memo, converted: the metadata is the error dictionary. *)
Example sample_memo_markdown :
  file_content "out/memo.md"
    (trace_of (Word.convert_to_markdown Sample.docs_world
                 Sample.word_processor "docs/memo.docx" "out"))
  = Some ("---" ++ PyStr.nl
          ++ "error: Could not extract metadata "
          ++ "(expected string or bytes-like object)" ++ PyStr.nl
          ++ "---" ++ PyStr.nlnl
          ++ "# Intro" ++ PyStr.nlnl
          ++ "Hello **big*** world*" ++ PyStr.nlnl
          ++ "| a | b |" ++ PyStr.nl
          ++ "| --- | --- |" ++ PyStr.nl
          ++ "| 1 | 2 |" ++ PyStr.nl
          ++ PyStr.nl).
Proof. reflexivity. Qed.

(** ** The effect monad *)

Lemma bind_inv : forall {A B} (m : M A) (f : A -> M B) b t,
  bind m f = (inr b, t) ->
  exists a t1 t2, m = (inr a, t1) /\ f a = (inr b, t2) /\ t = (t1 ++ t2)%list.
Proof.
  intros A B [[e | a] t1] f b t H; simpl in H.
  - discriminate.
  - destruct (f a) as [r t2] eqn:Hf. inversion H; subst.
    exists a, t1, t2. auto.
Qed.

Lemma bind_ok : forall {A B} (m : M A) (f : A -> M B) a t1,
  m = (inr a, t1) ->
  bind m f = (fst (f a), (t1 ++ snd (f a))%list).
Proof.
  intros A B m f a t1 ->. simpl. destruct (f a); reflexivity.
Qed.

Lemma bind_fail : forall {A B} (m : M A) (f : A -> M B) e t1,
  m = (inl e, t1) -> bind m f = (inl e, t1).
Proof. intros A B m f e t1 ->. reflexivity. Qed.

Lemma lift_inv : forall {A} (r : exn + A) a t,
  lift r = (inr a, t) -> r = inr a /\ t = [].
Proof. intros A r a t H. inversion H. auto. Qed.

Lemma bind_assoc : forall {A B C} (m : M A) (f : A -> M B) (g : B -> M C),
  bind (bind m f) g = bind m (fun a => bind (f a) g).
Proof.
  intros A B C [[e | a] t] f g; simpl.
  - reflexivity.
  - destruct (f a) as [[e | b] t']; simpl.
    + reflexivity.
    + destruct (g b) as [r t'']. rewrite app_assoc. reflexivity.
Qed.

Lemma bind_ret_l : forall {A B} (a : A) (f : A -> M B), bind (ret a) f = f a.
Proof. intros A B a f. simpl. destruct (f a). reflexivity. Qed.

Lemma bind_ext : forall {A B} (m : M A) (f g : A -> M B),
  (forall a, f a = g a) -> bind m f = bind m g.
Proof.
  intros A B [[e | a] t] f g H; simpl.
  - reflexivity.
  - rewrite H. reflexivity.
Qed.

Lemma bind_lift_ok : forall {A B} (a : A) (f : A -> M B),
  bind (lift (inr a)) f = f a.
Proof. intros. apply bind_ret_l. Qed.

Lemma bind_run : forall {A B} (m : M A) (f : A -> M B) a b t1 t2,
  m = (inr a, t1) -> f a = (inr b, t2) ->
  bind m f = (inr b, (t1 ++ t2)%list).
Proof. intros A B m f a b t1 t2 -> Hf. simpl. rewrite Hf. reflexivity. Qed.

(** Peel the binds of a computation known to return a value. *)
Ltac bind_inv_in H :=
  let a := fresh "a" in
  let t1 := fresh "t" in
  let t2 := fresh "t" in
  let H1 := fresh "Hm" in
  let H2 := fresh "Hk" in
  let Ht := fresh "Ht" in
  apply bind_inv in H; destruct H as (a & t1 & t2 & H1 & H2 & Ht);
  cbv beta zeta in H2.

Ltac bind_inv_all :=
  repeat match goal with
         | H : bind _ _ = (inr _, _) |- _ => bind_inv_in H
         end.

(** A handler that logs and returns a value catches every exception. *)
Lemma try_except_total : forall {A} (m : M A) (h : exn -> M A),
  (forall e, exists a t, h e = (inr a, t)) ->
  exists a, result_of (try_except m h) = inr a.
Proof.
  intros A [[e | a] t] h Hh; simpl.
  - destruct (Hh e) as (a & t' & ->). exists a. reflexivity.
  - exists a. reflexivity.
Qed.

(** ** Traces and file contents *)

Lemma replay_app : forall path t1 t2 acc,
  replay path (t1 ++ t2) acc = replay path t2 (replay path t1 acc).
Proof.
  intros path t1; induction t1 as [| ev t1 IH]; intros t2 acc; simpl.
  - reflexivity.
  - destruct ev; apply IH.
Qed.

Lemma replay_opened : forall path tr c,
  exists c', replay path tr (Some c) = Some c'.
Proof.
  intros path tr; induction tr as [| ev tr IH]; intros c; simpl.
  - exists c. reflexivity.
  - destruct ev; try apply IH.
    + destruct (String.eqb path0 path); apply IH.
    + destruct (String.eqb path0 path); simpl; apply IH.
Qed.

(** ** Strings *)

Lemma append_nil_r : forall s : string, s ++ EmptyString = s.
Proof. induction s as [| c s IH]; simpl; [| rewrite IH]; reflexivity. Qed.

Lemma append_assoc : forall a b c : string, (a ++ b) ++ c = a ++ (b ++ c).
Proof.
  induction a as [| x a IH]; intros b c; simpl; [| rewrite IH]; reflexivity.
Qed.

Lemma cat_app : forall l1 l2, cat (l1 ++ l2)%list = cat l1 ++ cat l2.
Proof.
  induction l1 as [| x l1 IH]; intros l2; simpl.
  - reflexivity.
  - rewrite IH, append_assoc. reflexivity.
Qed.

Lemma rstrip_keeps_non_space : forall c s,
  PyStr.is_space c = false ->
  PyStr.nonempty (PyStr.rstrip (String c s)) = true.
Proof.
  intros c s Hc. simpl. destruct (PyStr.rstrip s); [rewrite Hc |]; reflexivity.
Qed.

(** [not text.strip()] holds exactly for the texts of white space only. *)
Lemma strip_empty_iff_whitespace : forall s,
  PyStr.nonempty (PyStr.strip s) = negb (whitespace_only s).
Proof.
  unfold PyStr.strip, whitespace_only.
  induction s as [| c s IH]; [reflexivity |].
  cbn [PyStr.lstrip list_ascii_of_string forallb].
  destruct (PyStr.is_space c) eqn:Hc.
  - exact IH.
  - apply rstrip_keeps_non_space. exact Hc.
Qed.

Lemma little_text_spec : forall text,
  Pdf.little_text text = whitespace_only text || (String.length text <? 50).
Proof.
  intros text. unfold Pdf.little_text.
  rewrite strip_empty_iff_whitespace, negb_involutive. reflexivity.
Qed.

(** ** C1: [convert_to_markdown] catches, logs and returns *)


Lemma pdf_body_returns : forall w self file_path output_dir p t,
  Pdf.convert_body w self file_path output_dir = (inr p, t) ->
  p = Pdf.md_path file_path output_dir /\
  exists t', t = OpenW (Pdf.md_path file_path output_dir) :: t'.
Proof.
  intros w self file_path output_dir p t H. unfold Pdf.convert_body in H.
  bind_inv_in H. bind_inv_in Hk. subst.
  unfold lift in Hm. inversion Hm; subst; clear Hm.
  unfold open_w in Hm0.
  destruct (open_for_write w (Pdf.md_path file_path output_dir));
    [discriminate |].
  inversion Hm0; subst; clear Hm0.
  split.
  - bind_inv_all.
    match goal with H : ret _ = (inr _, _) |- _ => inversion H end.
    reflexivity.
  - simpl. eexists. reflexivity.
Qed.

Lemma word_body_returns : forall w self file_path output_dir p t,
  Word.convert_body w self file_path output_dir = (inr p, t) ->
  p = Word.md_path file_path output_dir /\
  exists t', t = OpenW (Word.md_path file_path output_dir) :: t'.
Proof.
  intros w self file_path output_dir p t H. unfold Word.convert_body in H.
  bind_inv_in H. bind_inv_in Hk. subst.
  unfold lift in Hm. inversion Hm; subst; clear Hm.
  unfold open_w in Hm0.
  destruct (open_for_write w (Word.md_path file_path output_dir));
    [discriminate |].
  inversion Hm0; subst; clear Hm0.
  split.
  - bind_inv_all.
    match goal with H : ret _ = (inr _, _) |- _ => inversion H end.
    reflexivity.
  - simpl. eexists. reflexivity.
Qed.

Lemma catch_log_return : forall (body : M string) what output_path,
  (forall p t, body = (inr p, t) ->
               p = output_path /\ exists t', t = OpenW output_path :: t') ->
  path_or_error body
    (try_except body
       (fun e =>
          logger_error (what ++ exn_str e) ;;
          ret ("Error: Could not convert document to Markdown ("
               ++ exn_str e ++ ")")))
    output_path what.
Proof.
  intros body what output_path Hbody.
  destruct body as [[e | p] t] eqn:Hb.
  - right. exists e, t. eexists. split; [reflexivity |].
    simpl. split; [reflexivity |]. split; reflexivity.
  - left. destruct (Hbody p t eq_refl) as [-> [t' ->]].
    destruct (replay_opened output_path t' EmptyString) as [c Hc].
    exists (OpenW output_path :: t'), c.
    repeat split. unfold file_content. simpl.
    rewrite String.eqb_refl. exact Hc.
Qed.

(** C1: for every world, processor, file path and output directory, neither
    [PDFDocumentProcessor.convert_to_markdown] nor
    [WordDocumentProcessor.convert_to_markdown] raises: when the body of
    the [try] block runs through, the call returns the path of the markdown
    file, which has been written; when the body raises, the error is logged
    and the returned string starts with "Error". *)
Theorem convert_to_markdown_catches_all :
  forall w pdf word file_path output_dir,
    path_or_error
      (Pdf.convert_body w pdf file_path output_dir)
      (Pdf.convert_to_markdown w pdf file_path output_dir)
      (Pdf.md_path file_path output_dir)
      "Error converting PDF to Markdown: "
    /\
    path_or_error
      (Word.convert_body w word file_path output_dir)
      (Word.convert_to_markdown w word file_path output_dir)
      (Word.md_path file_path output_dir)
      "Error converting Word document to Markdown: ".
Proof.
  intros w pdf word file_path output_dir. split.
  - apply catch_log_return. intros p t. apply pdf_body_returns.
  - apply catch_log_return. intros p t. apply word_body_returns.
Qed.

(** ** C8: [WordDocumentProcessor.extract_metadata] *)

Lemma word_extract_text_returns : forall w self file_path,
  exists text images t,
    Word.extract_text w self file_path = (inr (text, images), t).
Proof.
  intros w self file_path. unfold Word.extract_text.
  match goal with
  | |- context [try_except ?m ?h] => destruct m as [[e | [text images]] t]
  end; simpl; eauto.
Qed.


(** C8: for every world, processor and file path,
    [WordDocumentProcessor.extract_metadata] returns a dictionary whose only
    key is "error".  When the document and its core properties load, the
    error is the TypeError that [re.findall] raises on the pair
    [extract_text] returns, and the metadata collected before it is
    dropped; otherwise it is the error of the failed load. *)
Theorem word_extract_metadata_only_error :
  forall w self file_path,
    exists e,
      result_of (Word.extract_metadata w self file_path)
      = inr [("error", metadata_error e)] /\
      match docx_Document w file_path with
      | inl e' => e = e'
      | inr doc =>
          match core_properties doc with
          | inl e' => e = e'
          | inr _ => e = Exn TypeError "expected string or bytes-like object"
          end
      end.
Proof.
  intros w self file_path. unfold Word.extract_metadata.
  destruct (docx_Document w file_path) as [e | doc]; simpl.
  - exists e. split; reflexivity.
  - destruct (core_properties doc) as [e | props]; simpl.
    + exists e. split; reflexivity.
    + destruct (word_extract_text_returns w self file_path)
        as (text & images & t & ->).
      simpl. exists (Exn TypeError "expected string or bytes-like object").
      split; reflexivity.
Qed.

(** ** C5: [search_docs] *)

Lemma join_blank_lines : forall l,
  PyStr.join PyStr.nlnl l = joined_by_blank_lines l.
Proof.
  unfold PyStr.join. induction l as [| x [| y l] IH]; try reflexivity.
  change (String.concat PyStr.nlnl (x :: y :: l))
    with (x ++ PyStr.nlnl ++ String.concat PyStr.nlnl (y :: l)).
  rewrite IH. reflexivity.
Qed.

Lemma format_doc_rendered : forall docs,
  map AppUI.format_doc docs = map rendered docs.
Proof. intros docs. apply map_ext. intros doc. reflexivity. Qed.


(** C5, counterexample: when the search raises an exception that is not a
    [RequestException] (here the [OSError] of a missing index),
    [search_docs] raises it instead of returning an error string. *)
Lemma search_docs_raises_other_errors :
  result_of (AppUI.search_docs Sample.no_index_world "fox")
  = inl (Sample.not_found "output/artifacts")
  /\ ~ search_docs_as_stated Sample.no_index_world "fox".
Proof.
  split.
  - reflexivity.
  - unfold search_docs_as_stated. simpl. intros [s [H _]]. discriminate H.
Qed.

(** C5, amended: [search_docs] returns the hits rendered as
    "Document: {doc_id}\nContent: {content}" and joined by blank lines; the
    exact string "No relevant documents found." when there is no hit; a
    string starting with "Error searching documents:" when the search
    raises a [RequestException]; any other exception is raised to the
    caller. *)
Theorem search_docs_formats_or_reports :
  forall w query,
    match search_kg w query with
    | inr [] =>
        result_of (AppUI.search_docs w query)
        = inr "No relevant documents found."
    | inr docs =>
        result_of (AppUI.search_docs w query)
        = inr (joined_by_blank_lines (map rendered docs))
    | inl e =>
        if is_request_exception e
        then result_of (AppUI.search_docs w query)
             = inr ("Error searching documents: " ++ exn_str e)
             /\ PyStr.startswith ("Error searching documents: " ++ exn_str e)
                  "Error searching documents:" = true
        else result_of (AppUI.search_docs w query) = inl e
    end.
Proof.
  intros w query. unfold AppUI.search_docs.
  destruct (search_kg w query) as [e | [| doc docs]];
    cbn [lift bind ret try_except_if result_of fst snd].
  - destruct (is_request_exception e); simpl; auto.
  - reflexivity.
  - rewrite join_blank_lines, format_doc_rendered. reflexivity.
Qed.

(** Two hits, as [search_docs] returns them. *)
Example search_docs_two_hits :
  forall w query,
    search_kg w query = inr [ {| doc_id := "7"; content := "fox" |};
                              {| doc_id := "9"; content := "dog" |} ] ->
    result_of (AppUI.search_docs w query)
    = inr ("Document: 7" ++ line_feed ++ "Content: fox"
           ++ line_feed ++ line_feed
           ++ "Document: 9" ++ line_feed ++ "Content: dog").
Proof.
  intros w query Hhits. unfold AppUI.search_docs. rewrite Hhits.
  reflexivity.
Qed.

(** ** C9: the dictionary returned by [process_file] *)

Section LocalDictionary.
Import Universal.
Context {S : Type} (P : S -> Prop).

Lemma preserves_sret : forall A (a : A), sm_preserves P (sret (S:=S) a).
Proof. intros A a s Hs. exact Hs. Qed.

Lemma preserves_call : forall A (m : M A), sm_preserves P (call (S:=S) m).
Proof. intros A m s Hs. exact Hs. Qed.

Lemma preserves_modify : forall f : S -> S,
  (forall s, P s -> P (f s)) -> sm_preserves P (modify f).
Proof. intros f Hf s Hs. simpl. auto. Qed.

Lemma preserves_sbind : forall A B (m : SM S A) (f : A -> SM S B),
  sm_preserves P m -> (forall a, sm_preserves P (f a)) ->
  sm_preserves P (sbind m f).
Proof.
  intros A B m f Hm Hf s Hs. unfold sbind.
  specialize (Hm s Hs).
  destruct (m s) as [[[e | a] s'] t]; simpl in *.
  - exact Hm.
  - specialize (Hf a s' Hm).
    destruct (f a s') as [[r s''] t']. exact Hf.
Qed.

Lemma preserves_stry : forall A (m : SM S A) (h : exn -> SM S A),
  sm_preserves P m -> (forall e, sm_preserves P (h e)) ->
  sm_preserves P (stry_except m h).
Proof.
  intros A m h Hm Hh s Hs. unfold stry_except.
  specialize (Hm s Hs).
  destruct (m s) as [[[e | a] s'] t]; simpl in *.
  - specialize (Hh e s' Hm).
    destruct (h e s') as [[r s''] t']. exact Hh.
  - exact Hm.
Qed.

Lemma stry_returns : forall A (m : SM S A) (h : exn -> SM S A),
  (forall e, sm_returns (h e)) -> sm_returns (stry_except m h).
Proof.
  intros A m h Hh s. unfold stry_except.
  destruct (m s) as [[[e | a] s'] t].
  - destruct (Hh e s') as (a & s'' & t' & ->). eauto.
  - eauto.
Qed.

Lemma returning_preserves : forall (m : SM S unit) (s : S),
  sm_preserves P m -> sm_returns m -> P s ->
  exists s' t, returning m s = (inr s', t) /\ P s'.
Proof.
  intros m s Hp Hr Hs. unfold returning.
  specialize (Hp s Hs). destruct (Hr s) as (a & s' & t & Hm).
  rewrite Hm in *. simpl in Hp. eauto.
Qed.

End LocalDictionary.

Create HintDb local_dict.
#[local] Hint Resolve preserves_sret preserves_call preserves_modify
  preserves_sbind preserves_stry : local_dict.

Lemma set_processor_type_inv : forall t r,
  success_iff_output r -> success_iff_output (Universal.set_processor_type t r).
Proof. intros t r H. exact H. Qed.

Lemma set_error_inv : forall msg r,
  success_iff_output r -> success_iff_output (Universal.set_error msg r).
Proof. intros msg r H. exact H. Qed.

Lemma set_done_inv : forall p d r,
  success_iff_output (Universal.set_done p d r).
Proof. intros p d r. unfold success_iff_output. simpl. split; congruence. Qed.

#[local] Hint Resolve set_processor_type_inv set_error_inv set_done_inv
  : local_dict.

Lemma process_file_body_inv : forall w self file_path,
  sm_preserves success_iff_output
    (Universal.process_file_body w self file_path).
Proof.
  intros w self file_path. unfold Universal.process_file_body.
  repeat match goal with
         | |- sm_preserves _ (Universal.sbind _ _) =>
             apply preserves_sbind; [| intros ? ]
         | |- sm_preserves _ (Universal.call _) => apply preserves_call
         | |- sm_preserves _ (Universal.sret _) => apply preserves_sret
         | |- sm_preserves _ (Universal.modify _) =>
             apply preserves_modify; intros; auto with local_dict
         | |- sm_preserves _ (match ?x with _ => _ end) => destruct x
         end.
Qed.

Lemma process_file_handler_returns : forall file_path e,
  sm_returns
    (Universal.sbind (Universal.modify (Universal.set_error (exn_str e)))
       (fun _ => Universal.call
                   (logger_error ("Exception processing " ++ file_path
                                  ++ ": " ++ exn_str e)))).
Proof.
  intros file_path e s.
  unfold Universal.sbind, Universal.modify, Universal.call. simpl.
  do 3 eexists. reflexivity.
Qed.

(** C9: for every world, processor object and file, [process_file] returns
    a dictionary in which success is true exactly when the output path is
    not None; and when [_get_processor_for_file] finds no processor for the
    file, success is false and the error is a message. *)
Theorem process_file_result_invariant :
  forall w self file_path,
    exists r,
      result_of (Universal.process_file w self file_path) = inr r /\
      success_iff_output r /\
      (result_of (Universal._get_processor_for_file self file_path)
       = inr None ->
       Universal.success r = false /\ Universal.error r <> None).
Proof.
  intros w self file_path. unfold Universal.process_file.
  match goal with
  | |- context [Universal.returning ?m ?s] =>
      destruct (@returning_preserves _ success_iff_output m s)
        as (r & t & Hrun & Hinv)
  end.
  - apply preserves_stry.
    + apply process_file_body_inv.
    + intros e. apply preserves_sbind; [| intros ? ].
      * apply preserves_modify. auto with local_dict.
      * apply preserves_call.
  - apply stry_returns. intros e. apply process_file_handler_returns.
  - unfold success_iff_output. simpl. split; congruence.
  - exists r. split; [rewrite Hrun; reflexivity |]. split; [exact Hinv |].
    intros Hnone. revert Hrun.
    unfold Universal.returning, Universal.stry_except,
      Universal.process_file_body, Universal.sbind, Universal.call,
      Universal.modify.
    unfold lift. simpl.
    destruct (Py.getitem (Universal.config self) "output_dir") as [e | v];
      simpl.
    + intros H; inversion H; subst; simpl. split; congruence.
    + destruct (Universal.makedirs_value w v) as [[e | dir] t1]; simpl.
      * intros H; inversion H; subst; simpl. split; congruence.
      * destruct (Universal._get_processor_for_file self file_path)
          as [[e | found] t2]; simpl in *; try discriminate.
        inversion Hnone; subst. simpl.
        intros H; inversion H; subst; simpl. split; congruence.
Qed.

(** C9 on a file without a processor and on a PDF. *)
Lemma process_file_result_invariant_witness :
  (exists r,
      result_of (Universal.process_file Sample.docs_world
                   Sample.universal_processor "docs/notes.txt") = inr r /\
      Universal.success r = false /\ Universal.error r <> None).
Proof.
  destruct (process_file_result_invariant Sample.docs_world
              Sample.universal_processor "docs/notes.txt")
    as (r & Hr & _ & Hnone).
  exists r. split; [exact Hr |]. apply Hnone. reflexivity.
Defined.

(** ** C7: [process_directory] of the PDF and Word processors *)

Lemma convert_all_app : forall convert l1 l2 acc,
  convert_all convert (l1 ++ l2) acc
  = bind (convert_all convert l1 acc) (convert_all convert l2).
Proof.
  intros convert l1; induction l1 as [| p l1 IH]; intros l2 acc; simpl.
  - destruct (convert_all convert l2 acc). reflexivity.
  - change (bind (convert p) ?f) with (bind (convert p) f).
    rewrite (bind_assoc (convert p)). apply bind_ext. intros r. apply IH.
Qed.

Lemma pdf_process_files_eq : forall w self root output_dir files acc,
  Pdf.process_files w self root output_dir files acc
  = convert_all (fun path => Pdf.convert_to_markdown w self path output_dir)
      (map (OsPath.join root) (filter pdf_name files)) acc.
Proof.
  intros w self root output_dir files; induction files as [| f files IH];
    intros acc; simpl.
  - reflexivity.
  - unfold pdf_name at 1. destruct (PyStr.endswith (PyStr.lower f) ".pdf").
    + simpl. apply bind_ext. intros r. unfold not_error. apply IH.
    + apply IH.
Qed.

Lemma pdf_process_walk_eq : forall w self output_dir walk acc,
  Pdf.process_walk w self output_dir walk acc
  = convert_all (fun path => Pdf.convert_to_markdown w self path output_dir)
      (selected pdf_name walk) acc.
Proof.
  intros w self output_dir walk; induction walk as [| [root files] walk IH];
    intros acc; simpl.
  - reflexivity.
  - rewrite convert_all_app, pdf_process_files_eq. apply bind_ext.
    intros r. apply IH.
Qed.

Lemma word_process_files_eq : forall w self root output_dir files acc,
  Word.process_files w self root output_dir files acc
  = convert_all (fun path => Word.convert_to_markdown w self path output_dir)
      (map (OsPath.join root) (filter word_name files)) acc.
Proof.
  intros w self root output_dir files; induction files as [| f files IH];
    intros acc; simpl.
  - reflexivity.
  - unfold word_name at 1.
    destruct (PyStr.endswith (PyStr.lower f) ".docx"
              || PyStr.endswith (PyStr.lower f) ".doc").
    + simpl. apply bind_ext. intros r. unfold not_error. apply IH.
    + apply IH.
Qed.

Lemma word_process_walk_eq : forall w self output_dir walk acc,
  Word.process_walk w self output_dir walk acc
  = convert_all (fun path => Word.convert_to_markdown w self path output_dir)
      (selected word_name walk) acc.
Proof.
  intros w self output_dir walk; induction walk as [| [root files] walk IH];
    intros acc; simpl.
  - reflexivity.
  - rewrite convert_all_app, word_process_files_eq. apply bind_ext.
    intros r. apply IH.
Qed.

Lemma convert_all_results :
  forall convert (Q : string -> string -> Prop) paths acc,
    (forall path, exists r, result_of (convert path) = inr r /\ Q path r) ->
    exists results,
      Forall2 (fun path result =>
                 result_of (convert path) = inr result /\ Q path result)
        paths results /\
      convert_all convert paths acc
      = (inr (acc ++ filter not_error results)%list,
         flat_map (fun path => trace_of (convert path)) paths).
Proof.
  intros convert Q paths; induction paths as [| p paths IH]; intros acc Hc.
  - exists []. split; [constructor |]. simpl. rewrite app_nil_r. reflexivity.
  - destruct (Hc p) as (r & Hr & HQ).
    destruct (IH (if not_error r then (acc ++ [r])%list else acc) Hc)
      as (results & Hall & Hrun).
    exists (r :: results). split; [constructor; auto |].
    simpl. destruct (convert p) as [[e | r'] t] eqn:Hp; simpl in Hr.
    + discriminate.
    + inversion Hr; subst r'. simpl. rewrite Hrun. simpl.
      destruct (not_error r); simpl; [rewrite <- app_assoc |]; reflexivity.
Qed.

(** A kept result is the output path of a conversion that ran through. *)
Lemma kept_result_is_path : forall body run output_path what,
  path_or_error body run output_path what ->
  exists r,
    result_of run = inr r /\
    (not_error r = true -> r = output_path /\ result_of body = inr r).
Proof.
  intros body run output_path what [(t & c & Hb & Hr & _)
                                   | (e & t & msg & Hb & Hr & Hmsg & _)].
  - exists output_path. rewrite Hr, Hb. auto.
  - exists msg. split; [exact Hr |].
    unfold not_error. rewrite Hmsg. discriminate.
Qed.

Lemma pdf_convert_kept : forall w self output_dir path,
  exists r,
    result_of (Pdf.convert_to_markdown w self path output_dir) = inr r /\
    (not_error r = true ->
     r = Pdf.md_path path output_dir /\
     result_of (Pdf.convert_body w self path output_dir) = inr r).
Proof.
  intros. eapply kept_result_is_path. apply catch_log_return.
  intros p t. apply pdf_body_returns.
Qed.

Lemma word_convert_kept : forall w self output_dir path,
  exists r,
    result_of (Word.convert_to_markdown w self path output_dir) = inr r /\
    (not_error r = true ->
     r = Word.md_path path output_dir /\
     result_of (Word.convert_body w self path output_dir) = inr r).
Proof.
  intros. eapply kept_result_is_path. apply catch_log_return.
  intros p t. apply word_body_returns.
Qed.

Lemma process_directory_shape :
  forall w output_dir convert body out_path paths,
    (os_path_exists w output_dir = true \/ os_makedirs w output_dir = None) ->
    (forall path,
        exists r,
          result_of (convert path) = inr r /\
          (not_error r = true ->
           r = out_path path /\ result_of (body path) = inr r)) ->
    converts_exactly w output_dir convert body out_path paths
      (bind (if negb (os_path_exists w output_dir)
             then makedirs w output_dir else ret tt)
         (fun _ => convert_all convert paths [])).
Proof.
  intros w output_dir convert body out_path paths Hdir Hc.
  destruct (convert_all_results convert _ paths [] Hc)
    as (results & Hall & Hrun).
  exists results. split; [exact Hall |]. rewrite Hrun.
  unfold makedirs.
  destruct (os_path_exists w output_dir); simpl.
  - split; reflexivity.
  - destruct Hdir as [Hd | Hd]; [discriminate |]. rewrite Hd. simpl.
    split; reflexivity.
Qed.

(** C7: when the output directory exists or can be made,
    [PDFDocumentProcessor.process_directory] converts exactly the files of
    the walk whose lower-cased name ends in ".pdf", and
    [WordDocumentProcessor.process_directory] exactly those whose lower-cased
    name ends in ".docx" or ".doc"; each returns exactly the conversion
    results that do not start with "Error", in order, and each of these is
    the output path of a conversion that ran through. *)
Theorem process_directory_converts_exactly :
  forall w pdf word input_dir output_dir,
    (os_path_exists w output_dir = true \/ os_makedirs w output_dir = None) ->
    converts_exactly w output_dir
      (fun path => Pdf.convert_to_markdown w pdf path output_dir)
      (fun path => Pdf.convert_body w pdf path output_dir)
      (fun path => Pdf.md_path path output_dir)
      (selected pdf_name (os_walk w input_dir))
      (Pdf.process_directory w pdf input_dir output_dir)
    /\
    converts_exactly w output_dir
      (fun path => Word.convert_to_markdown w word path output_dir)
      (fun path => Word.convert_body w word path output_dir)
      (fun path => Word.md_path path output_dir)
      (selected word_name (os_walk w input_dir))
      (Word.process_directory w word input_dir output_dir).
Proof.
  intros w pdf word input_dir output_dir Hdir. split.
  - unfold Pdf.process_directory.
    erewrite bind_ext; [| intros; apply pdf_process_walk_eq].
    apply process_directory_shape; [exact Hdir |].
    intros path. apply pdf_convert_kept.
  - unfold Word.process_directory.
    erewrite bind_ext; [| intros; apply word_process_walk_eq].
    apply process_directory_shape; [exact Hdir |].
    intros path. apply word_convert_kept.
Qed.

(** C7 on the sample directory, whose output directory exists. *)
Lemma process_directory_converts_exactly_witness :
  converts_exactly Sample.docs_world "out"
    (fun path => Pdf.convert_to_markdown Sample.docs_world
                   Sample.pdf_processor path "out")
    (fun path => Pdf.convert_body Sample.docs_world
                   Sample.pdf_processor path "out")
    (fun path => Pdf.md_path path "out")
    (selected pdf_name (os_walk Sample.docs_world "docs"))
    (Pdf.process_directory Sample.docs_world Sample.pdf_processor
       "docs" "out")
  /\
  converts_exactly Sample.docs_world "out"
    (fun path => Word.convert_to_markdown Sample.docs_world
                   Sample.word_processor path "out")
    (fun path => Word.convert_body Sample.docs_world
                   Sample.word_processor path "out")
    (fun path => Word.md_path path "out")
    (selected word_name (os_walk Sample.docs_world "docs"))
    (Word.process_directory Sample.docs_world Sample.word_processor
       "docs" "out").
Proof.
  apply (process_directory_converts_exactly Sample.docs_world
           Sample.pdf_processor Sample.word_processor "docs" "out").
  left. reflexivity.
Defined.

(** File names are selected whatever the case of their extension. *)

Lemma rev_acc_app : forall s acc, PyStr.rev_acc s acc = PyStr.rev s ++ acc.
Proof.
  unfold PyStr.rev. induction s as [| c s IH]; intros acc; simpl.
  - reflexivity.
  - rewrite IH, (IH (String c EmptyString)). rewrite append_assoc.
    reflexivity.
Qed.

Lemma rev_app : forall a b, PyStr.rev (a ++ b) = PyStr.rev b ++ PyStr.rev a.
Proof.
  unfold PyStr.rev. induction a as [| c a IH]; intros b; simpl.
  - symmetry. apply append_nil_r.
  - rewrite !(rev_acc_app _ (String c EmptyString)). unfold PyStr.rev.
    rewrite IH. rewrite append_assoc. reflexivity.
Qed.

Lemma rev_involutive : forall s, PyStr.rev (PyStr.rev s) = s.
Proof.
  induction s as [| c s IH]; [reflexivity |].
  change (String c s) with (String c EmptyString ++ s) at 1.
  rewrite rev_app, rev_app, IH. reflexivity.
Qed.

Lemma prefix_app : forall p rest, prefix p (p ++ rest) = true.
Proof.
  induction p as [| c p IH]; intros rest; simpl.
  - destruct rest; reflexivity.
  - destruct (ascii_dec c c); [apply IH | contradiction].
Qed.

Lemma prefix_exists : forall p s,
  prefix p s = true -> exists rest, s = p ++ rest.
Proof.
  induction p as [| c p IH]; intros s H.
  - exists s. reflexivity.
  - destruct s as [| d s]; [discriminate |].
    simpl in H. destruct (ascii_dec c d) as [-> |]; [| discriminate].
    destruct (IH s H) as [rest ->]. exists rest. reflexivity.
Qed.

(** [s.endswith(p)] holds exactly when [s] is some string followed by
    [p]. *)
Lemma endswith_iff : forall s p,
  PyStr.endswith s p = true <-> exists stem, s = stem ++ p.
Proof.
  intros s p. unfold PyStr.endswith. split.
  - intros H. apply prefix_exists in H. destruct H as [rest Hrest].
    exists (PyStr.rev rest).
    rewrite <- (rev_involutive s), Hrest, rev_app, rev_involutive.
    reflexivity.
  - intros [stem ->]. rewrite rev_app. apply prefix_app.
Qed.

Lemma lower_app : forall a b,
  PyStr.lower (a ++ b) = PyStr.lower a ++ PyStr.lower b.
Proof.
  induction a as [| c a IH]; intros b; simpl; [| rewrite IH]; reflexivity.
Qed.

Lemma lower_split : forall s a' b',
  PyStr.lower s = a' ++ b' ->
  exists a b, s = a ++ b /\ PyStr.lower a = a' /\ PyStr.lower b = b'.
Proof.
  intros s a'; revert s. induction a' as [| c a' IH]; intros s b' H.
  - exists EmptyString, s. auto.
  - destruct s as [| d s]; [discriminate |].
    simpl in H. inversion H as [[Hc Hs]].
    destruct (IH s b' Hs) as (a & b & -> & Ha & Hb).
    exists (String d a), b. simpl. rewrite Ha. auto.
Qed.

(** A name is selected exactly when it ends in an extension that is [ext]
    up to the case of its letters. *)
Lemma selected_by_extension : forall file ext,
  PyStr.endswith (PyStr.lower file) ext = true <->
  exists stem tail, file = stem ++ tail /\ PyStr.lower tail = ext.
Proof.
  intros file ext. rewrite endswith_iff. split.
  - intros [stem' H]. apply lower_split in H.
    destruct H as (stem & tail & -> & _ & Htail). eauto.
  - intros (stem & tail & -> & <-). exists (PyStr.lower stem).
    apply lower_app.
Qed.

(** ** C3: OCR as a fallback *)

Lemma only_logs_app : forall t1 t2,
  only_logs (t1 ++ t2) = only_logs t1 && only_logs t2.
Proof. intros. apply forallb_app. Qed.

Lemma ocr_call : forall self page,
  exists tr,
    Pdf._extract_text_with_ocr self page = (inr (ocr_result self page), tr)
    /\ only_logs tr = true.
Proof.
  intros self page. unfold Pdf._extract_text_with_ocr, ocr_result.
  destruct (page_ocr page (Pdf.image_dpi self) (Pdf.ocr_language self))
    as [e | text]; simpl; eexists; split; reflexivity.
Qed.

Lemma native_text_of : forall page text,
  get_text page = inr text -> native_text page = text.
Proof. intros page text H. unfold native_text. rewrite H. reflexivity. Qed.

(** The page loop of [extract_text] appends the text of every page. *)
Lemma extract_text_pages_spec : forall self file_path pages page_num full_text,
  (forall page, In page pages -> exists text, get_text page = inr text) ->
  exists tr,
    Pdf.extract_text_pages self file_path page_num pages full_text
    = (inr (full_text ++ map (page_text self) pages)%list, tr)
    /\ only_logs tr = true.
Proof.
  intros self file_path pages.
  induction pages as [| page pages IH]; intros page_num full_text Hpages.
  - simpl. rewrite app_nil_r. eexists. split; reflexivity.
  - destruct (Hpages page (or_introl eq_refl)) as [text Htext].
    assert (Hrest : forall p, In p pages -> exists t, get_text p = inr t)
      by (intros p Hp; apply Hpages; right; exact Hp).
    destruct (IH (S page_num) (full_text ++ [page_text self page])%list Hrest)
      as (tr & Hrun & Hlogs).
    cbn [Pdf.extract_text_pages map]. rewrite Htext.
    change (lift (inr text)) with (ret (A:=string) text).
    rewrite bind_ret_l.
    unfold page_text in *. rewrite (native_text_of _ Htext) in *.
    unfold needs_ocr in *. rewrite <- little_text_spec in *.
    destruct (Py.truthy (Pdf.ocr_enabled self) && Pdf.little_text text).
    + destruct (ocr_call self page) as (tr' & Hocr & Hlogs').
      unfold lift, logger_info, emit. simpl. rewrite Hocr. simpl.
      rewrite Hrun. rewrite <- app_assoc. simpl.
      eexists. split; [reflexivity |].
      simpl. rewrite only_logs_app, Hlogs', Hlogs. reflexivity.
    + unfold lift. simpl. rewrite Hrun. rewrite <- app_assoc. simpl.
      eexists. split; [reflexivity | exact Hlogs].
Qed.

(** ** Traces of writes *)

Lemma written_app : forall path t1 t2,
  written path (t1 ++ t2) = written path t1 ++ written path t2.
Proof.
  intros path t1 t2; induction t1 as [| ev t1 IH]; simpl.
  - reflexivity.
  - destruct ev; try exact IH.
    destruct (String.eqb path0 path); [rewrite IH, append_assoc |]; auto.
Qed.

Lemma never_opens_app : forall path t1 t2,
  never_opens path (t1 ++ t2) = never_opens path t1 && never_opens path t2.
Proof. intros. apply forallb_app. Qed.

Lemma never_opens_write : forall path p data tr,
  never_opens path (Write p data :: tr) = never_opens path tr.
Proof. reflexivity. Qed.

Lemma only_logs_quiet : forall path tr,
  only_logs tr = true ->
  never_opens path tr = true /\ written path tr = EmptyString.
Proof.
  intros path tr; induction tr as [| ev tr IH]; simpl; intros H.
  - auto.
  - destruct ev; try discriminate. apply IH. exact H.
Qed.

Lemma only_writes_never_opens : forall path tr,
  only_writes path tr = true -> never_opens path tr = true.
Proof.
  intros path tr; induction tr as [| ev tr IH]; simpl; intros H.
  - reflexivity.
  - destruct ev; try discriminate.
    apply andb_true_iff in H. apply IH, H.
Qed.

(** Without a new [open], the file grows by what is written to it. *)
Lemma replay_written : forall path tr c,
  never_opens path tr = true ->
  replay path tr (Some c) = Some (c ++ written path tr).
Proof.
  intros path tr; induction tr as [| ev tr IH]; intros c H; simpl in *.
  - rewrite append_nil_r. reflexivity.
  - destruct ev; try (apply IH; exact H).
    + apply andb_true_iff in H. destruct H as [Hp H].
      destruct (String.eqb path0 path); [discriminate |]. apply IH, H.
    + destruct (String.eqb path0 path); simpl.
      * rewrite IH by exact H. rewrite append_assoc. reflexivity.
      * apply IH, H.
Qed.

(** ** Paths of images and of markdown files differ *)

Lemma last_char_app : forall a b c,
  last_char b = Some c -> last_char (a ++ b) = Some c.
Proof.
  induction a as [| x a IH]; intros b c H; simpl.
  - exact H.
  - specialize (IH b c H). rewrite IH.
    destruct (a ++ b) eqn:E; [discriminate | reflexivity].
Qed.

Lemma last_char_join : forall a b c,
  last_char b = Some c -> last_char (OsPath.join a b) = Some c.
Proof.
  intros a b c H. unfold OsPath.join.
  destruct (PyStr.startswith b "/"); [exact H |].
  destruct (negb (PyStr.nonempty a) || PyStr.endswith a "/").
  - apply last_char_app, H.
  - apply last_char_app, last_char_app, H.
Qed.

Lemma last_char_differs : forall a b x y,
  last_char a = Some x -> last_char b = Some y -> x <> y ->
  String.eqb a b = false.
Proof.
  intros a b x y Ha Hb Hxy. apply String.eqb_neq. intros ->. congruence.
Qed.

Lemma md_path_last : forall output_dir name,
  last_char (OsPath.join output_dir (name ++ ".md")) = Some "d"%char.
Proof.
  intros. apply last_char_join, last_char_app. reflexivity.
Qed.

Lemma image_path_last : forall img_dir n idx,
  last_char (OsPath.join img_dir
               ("page" ++ PyStr.str_of_nat n ++ "_img"
                ++ PyStr.str_of_nat idx ++ ".png")) = Some "g"%char.
Proof.
  intros. apply last_char_join.
  apply (last_char_app "page"), last_char_app.
  apply (last_char_app "_img"), last_char_app. reflexivity.
Qed.

(** ** The loops of [Pdf.convert_to_markdown] *)

Lemma convert_text_choice : forall self page text,
  get_text page = inr text ->
  exists tr,
    (if Pdf.little_text text
     then if Py.truthy (Pdf.ocr_enabled self)
          then Pdf._extract_text_with_ocr self page
          else ret text
     else ret text)
    = (inr (page_text self page), tr)
    /\ only_logs tr = true.
Proof.
  intros self page text Htext.
  unfold page_text, needs_ocr. rewrite (native_text_of _ Htext).
  rewrite <- little_text_spec.
  destruct (Pdf.little_text text), (Py.truthy (Pdf.ocr_enabled self));
    simpl; try (eexists; split; reflexivity).
  apply ocr_call.
Qed.

Lemma write_paragraphs : forall out l,
  exists tr,
    for_each l
      (fun paragraph =>
         if PyStr.nonempty (PyStr.strip paragraph)
         then write out (PyStr.strip paragraph ++ PyStr.nlnl)
         else ret tt)
    = (inr tt, tr)
    /\ only_writes out tr = true
    /\ written out tr
       = cat (map (fun p => p ++ PyStr.nlnl)
                (filter PyStr.nonempty (map PyStr.strip l))).
Proof.
  intros out l; induction l as [| p l (tr & Hrun & Hw & Hdata)]; simpl.
  - eexists. repeat split.
  - rewrite Hrun. destruct (PyStr.nonempty (PyStr.strip p)); simpl.
    + eexists. split; [reflexivity |]. simpl. rewrite String.eqb_refl.
      split; [exact Hw |]. rewrite Hdata. reflexivity.
    + eexists. split; [reflexivity |]. auto.
Qed.

Lemma save_images_written : forall w out img_dir name page_num images idx tr,
  Pdf.save_images w out img_dir name page_num idx images = (inr tt, tr) ->
  last_char out = Some "d"%char ->
  never_opens out tr = true /\
  written out tr
  = cat (map (fun entry => image_ref name (page_num + 1) (fst entry))
           (enumerate_from (S idx) images)).
Proof.
  intros w out img_dir name page_num images.
  induction images as [| img images IH]; intros idx tr Hrun Hout.
  - inversion Hrun. auto.
  - cbn [Pdf.save_images] in Hrun. bind_inv_all.
    match goal with
    | H : Pdf.save_images _ _ _ _ _ _ _ = _ |- _ =>
        destruct (IH _ _ H Hout) as [Hopen Hdata]
    end.
    unfold open_w in *.
    match goal with
    | H : match open_for_write ?w ?p with _ => _ end = _ |- _ =>
        destruct (open_for_write w p); [discriminate |]; inversion H
    end.
    repeat match goal with
           | H : write _ _ = _ |- _ => inversion H; clear H
           | H : lift _ = _ |- _ => inversion H; clear H
           end.
    subst.
    rewrite !never_opens_app, !written_app, Hopen, Hdata.
    cbn [never_opens forallb written].
    repeat match goal with
           | |- context [String.eqb out out] => rewrite (String.eqb_refl out)
           | |- context [String.eqb ?p out] =>
               rewrite (@last_char_differs p out _ _
                          (image_path_last _ _ _) Hout) by discriminate
           end.
    split; [reflexivity |].
    rewrite !append_nil_r. cbn [enumerate_from map cat fold_right fst].
    unfold image_ref. rewrite !Nat.add_1_r. reflexivity.
Qed.

Lemma images_written : forall w self output_dir name out page_num page u tr,
  (if Py.truthy (Pdf.extract_images self)
   then bind (makedirs w (OsPath.join output_dir (name ++ "_images")))
          (fun _ =>
             bind (lift (get_images page))
               (fun image_list =>
                  Pdf.save_images w out
                    (OsPath.join output_dir (name ++ "_images")) name
                    page_num 0 image_list))
   else ret tt) = (inr u, tr) ->
  last_char out = Some "d"%char ->
  never_opens out tr = true /\
  written out tr = image_refs self name (page_num + 1) page.
Proof.
  intros w self output_dir name out page_num page u tr Hrun Hout.
  unfold image_refs. destruct (Py.truthy (Pdf.extract_images self)).
  - bind_inv_all. destruct u.
    match goal with
    | H : Pdf.save_images _ _ _ _ _ _ _ = _ |- _ =>
        destruct (save_images_written _ _ _ _ _ _ _ H Hout) as [Hopen Hdata]
    end.
    unfold makedirs in *.
    match goal with
    | H : match os_makedirs ?w ?p with _ => _ end = _ |- _ =>
        destruct (os_makedirs w p); [discriminate |]; inversion H
    end.
    match goal with
    | H : lift (get_images page) = _ |- _ =>
        assert (Himg : get_images page = inr a0)
          by (inversion H; reflexivity);
        inversion H
    end.
    subst. rewrite Himg, !never_opens_app, !written_app, Hopen, Hdata.
    split; reflexivity.
  - inversion Hrun. auto.
Qed.

(** The page loop writes one section per page, in page order. *)
Lemma convert_pages_written :
  forall w self output_dir name out pages page_num tr,
    Pdf.convert_pages w self output_dir name out page_num pages
    = (inr tt, tr) ->
    last_char out = Some "d"%char ->
    never_opens out tr = true /\
    written out tr
    = cat (map (page_section self name) (enumerate_from (S page_num) pages)).
Proof.
  intros w self output_dir name out pages.
  induction pages as [| page pages IH]; intros page_num tr Hrun Hout.
  - inversion Hrun. auto.
  - cbn [Pdf.convert_pages] in Hrun. bind_inv_all.
    match goal with
    | H : lift (get_text page) = (inr ?text, _) |- _ =>
        assert (Htext : get_text page = inr text)
          by (inversion H; reflexivity);
        inversion H; clear H
    end.
    match goal with
    | H : (if Pdf.little_text _ then _ else _) = _ |- _ =>
        destruct (convert_text_choice self page Htext)
          as (tc & Hchoice & Hlogs);
        rewrite Hchoice in H; inversion H; clear H
    end.
    match goal with
    | H : for_each (PyStr.split _ _) _ = _ |- _ =>
        destruct (write_paragraphs out
                    (PyStr.split
                       (PyStr.collapse_newlines (page_text self page))
                       PyStr.nlnl))
          as (tp & Hpar & Hpw & Hpdata);
        subst; rewrite Hpar in H; inversion H; clear H
    end.
    match goal with
    | H : (if Py.truthy _ then _ else _) = _ |- _ =>
        destruct (images_written _ _ _ _ _ _ _ H Hout) as [Hiopen Hidata]
    end.
    match goal with
    | H : Pdf.convert_pages _ _ _ _ _ _ _ = (inr ?u, _) |- _ =>
        destruct u; destruct (IH _ _ H Hout) as [Hopen Hdata]
    end.
    match goal with
    | H : write _ _ = _ |- _ => inversion H; clear H
    end.
    subst.
    destruct (only_logs_quiet out _ Hlogs) as [Hlopen Hldata].
    rewrite !never_opens_app, !written_app.
    rewrite Hopen, Hdata, Hiopen, Hidata, Hlopen, Hldata, Hpdata.
    rewrite (only_writes_never_opens _ _ Hpw).
    cbn [never_opens forallb written enumerate_from map cat fold_right
           page_section].
    rewrite String.eqb_refl. split; [reflexivity |].
    unfold paragraphs_of. rewrite Nat.add_1_r.
    rewrite !append_nil_r. cbn [append]. rewrite !append_assoc.
    reflexivity.
Qed.

(** C3: OCR is a fallback.  For a PDF that opens and whose pages give
    their native text, [extract_text] returns the page texts joined by
    blank lines, and the page loop of [convert_to_markdown] writes the
    paragraphs of the same page texts, where the text of a page is the OCR
    result when [ocr_enabled] is true and the native text is white space
    only or shorter than 50 characters, and the unchanged native text
    otherwise. *)
Theorem ocr_only_as_fallback :
  forall w self file_path doc,
    fitz_open w file_path = inr doc ->
    (forall page, In page (pdf_pages doc) ->
                  exists text, get_text page = inr text) ->
    result_of (Pdf.extract_text w self file_path)
    = inr (PyStr.join PyStr.nlnl (map (page_text self) (pdf_pages doc)))
    /\
    (forall output_dir tr,
        Pdf.convert_pages w self output_dir (Pdf.md_name file_path)
          (Pdf.md_path file_path output_dir) 0 (pdf_pages doc)
        = (inr tt, tr) ->
        written (Pdf.md_path file_path output_dir) tr
        = cat (map (page_section self (Pdf.md_name file_path))
                 (enumerate_from 1 (pdf_pages doc))))
    /\
    (forall page,
        page_text self page
        = if Py.truthy (Pdf.ocr_enabled self)
             && (whitespace_only (native_text page)
                 || (String.length (native_text page) <? 50))
          then ocr_result self page
          else native_text page).
Proof.
  intros w self file_path doc Hopen Hpages. split; [| split].
  - unfold Pdf.extract_text. rewrite Hopen.
    destruct (extract_text_pages_spec self file_path (pdf_pages doc) 0 []
                Hpages) as (tr & Hrun & _).
    change (lift (inr doc)) with (ret (A:=PdfDoc) doc). rewrite bind_ret_l.
    rewrite Hrun. reflexivity.
  - intros output_dir tr Hrun.
    eapply convert_pages_written; [exact Hrun |].
    apply md_path_last.
  - intros page. reflexivity.
Qed.

(** C3 on the sample report: page 1 keeps its native text, page 2 (blank)
    takes the OCR text. *)
Lemma ocr_only_as_fallback_witness :
  result_of (Pdf.extract_text Sample.docs_world Sample.pdf_processor
               "docs/report.pdf")
  = inr (PyStr.join PyStr.nlnl
           [Sample.long_text; "Scanned words" ++ PyStr.nl]).
Proof.
  destruct (ocr_only_as_fallback Sample.docs_world Sample.pdf_processor
              "docs/report.pdf" (doc:=Sample.report_pdf)) as [H _].
  - reflexivity.
  - intros page [<- | [<- | []]]; eexists; reflexivity.
  - exact H.
Defined.

(** ** C2: the markdown file of a PDF *)

Lemma only_logs_bind : forall {A B} (m : M A) (f : A -> M B),
  only_logs (trace_of m) = true ->
  (forall a, only_logs (trace_of (f a)) = true) ->
  only_logs (trace_of (bind m f)) = true.
Proof.
  intros A B [[e | a] t] f Hm Hf; simpl in *.
  - exact Hm.
  - specialize (Hf a). destruct (f a) as [r t']. simpl in *.
    rewrite only_logs_app, Hm, Hf. reflexivity.
Qed.

Lemma only_logs_try : forall {A} (m : M A) (h : exn -> M A),
  only_logs (trace_of m) = true ->
  (forall e, only_logs (trace_of (h e)) = true) ->
  only_logs (trace_of (try_except m h)) = true.
Proof.
  intros A [[e | a] t] h Hm Hh; simpl in *.
  - specialize (Hh e). destruct (h e) as [r t']. simpl in *.
    rewrite only_logs_app, Hm, Hh. reflexivity.
  - exact Hm.
Qed.

(** Solve goals [only_logs (trace_of m) = true] by the shape of [m]. *)
Ltac quiet :=
  repeat match goal with
         | |- only_logs (trace_of (bind _ _)) = true =>
             apply only_logs_bind; [| intros ? ]
         | |- only_logs (trace_of (try_except _ _)) = true =>
             apply only_logs_try; [| intros ? ]
         | |- only_logs (trace_of (if ?b then _ else _)) = true =>
             destruct b
         | |- only_logs (trace_of (lift _)) = true => reflexivity
         | |- only_logs (trace_of (ret _)) = true => reflexivity
         | |- only_logs (trace_of (logger_error _)) = true => reflexivity
         | |- only_logs (trace_of (logger_info _)) = true => reflexivity
         end.

Lemma extract_text_pages_quiet : forall self file_path pages page_num acc,
  only_logs (trace_of (Pdf.extract_text_pages self file_path page_num
                         pages acc)) = true.
Proof.
  intros self file_path pages; induction pages as [| page pages IH];
    intros page_num acc; cbn [Pdf.extract_text_pages].
  - reflexivity.
  - unfold Pdf._extract_text_with_ocr. quiet. apply IH.
Qed.

Lemma pdf_extract_text_quiet : forall w self file_path,
  only_logs (trace_of (Pdf.extract_text w self file_path)) = true.
Proof.
  intros. unfold Pdf.extract_text. quiet. apply extract_text_pages_quiet.
Qed.

Lemma pdf_extract_metadata_quiet : forall w self file_path,
  only_logs (trace_of (Pdf.extract_metadata w self file_path)) = true.
Proof.
  intros. unfold Pdf.extract_metadata. quiet. apply pdf_extract_text_quiet.
Qed.

Lemma blank_value_test : forall v,
  PyStr.nonempty v && PyStr.nonempty (PyStr.strip v)
  = negb (whitespace_only v).
Proof.
  intros v. rewrite strip_empty_iff_whitespace.
  destruct v; reflexivity.
Qed.

Lemma frontmatter_lines : forall out metadata,
  exists tr,
    for_each metadata
      (fun kv =>
         let (key, value) := kv : string * string in
         if PyStr.nonempty value && PyStr.nonempty (PyStr.strip value)
         then write out (key ++ ": " ++ value ++ PyStr.nl)
         else ret tt)
    = (inr tt, tr)
    /\ only_writes out tr = true
    /\ written out tr
       = cat (map (fun kv => fst kv ++ ": " ++ snd kv ++ PyStr.nl)
                (filter (fun kv => negb (whitespace_only (snd kv)))
                   metadata)).
Proof.
  intros out metadata.
  induction metadata as [| [key value] metadata (tr & Hrun & Hw & Hdata)];
    cbn [for_each filter snd].
  - eexists. repeat split.
  - rewrite Hrun, blank_value_test.
    destruct (negb (whitespace_only value)); simpl.
    + eexists. split; [reflexivity |]. simpl. rewrite String.eqb_refl.
      split; [exact Hw |]. rewrite Hdata, !append_assoc. reflexivity.
    + eexists. split; [reflexivity |]. auto.
Qed.

Lemma pdf_frontmatter_written : forall out metadata,
  exists tr,
    Pdf.write_frontmatter out metadata = (inr tt, tr)
    /\ never_opens out tr = true
    /\ written out tr = frontmatter metadata.
Proof.
  intros out metadata. unfold Pdf.write_frontmatter, frontmatter.
  destruct (frontmatter_lines out metadata) as (tr & Hrun & Hw & Hdata).
  rewrite (@bind_ok _ _ (write out ("---" ++ PyStr.nl)) _ tt
             [Write out ("---" ++ PyStr.nl)] eq_refl).
  rewrite (@bind_ok _ _ _ _ _ _ Hrun). cbn [fst snd write emit].
  eexists. split; [reflexivity |].
  rewrite !never_opens_app, !written_app, Hdata.
  rewrite (only_writes_never_opens _ _ Hw).
  cbn [never_opens forallb written]. rewrite String.eqb_refl.
  split; [reflexivity |]. rewrite !append_nil_r, !append_assoc. reflexivity.
Qed.

(** C2: when the body of [convert_to_markdown] runs through for a PDF,
    the call returns the markdown path and that file holds the YAML front
    matter of the metadata, then the title heading, then one "## Page N"
    section per page for N = 1..n in increasing order, each holding the
    non-empty paragraphs of the page text (and the image references when
    image extraction is on). *)
Theorem pdf_markdown_layout :
  forall w self file_path output_dir p,
    result_of (Pdf.convert_body w self file_path output_dir) = inr p ->
    exists doc metadata,
      fitz_open w file_path = inr doc /\
      result_of (Pdf.extract_metadata w self file_path) = inr metadata /\
      result_of (Pdf.convert_to_markdown w self file_path output_dir)
      = inr (Pdf.md_path file_path output_dir) /\
      file_content (Pdf.md_path file_path output_dir)
        (trace_of (Pdf.convert_to_markdown w self file_path output_dir))
      = Some (frontmatter metadata
              ++ title_heading metadata (Pdf.md_name file_path)
              ++ cat (map (page_section self (Pdf.md_name file_path))
                        (enumerate_from 1 (pdf_pages doc)))).
Proof.
  intros w self file_path output_dir p Hp.
  unfold Pdf.convert_to_markdown.
  destruct (Pdf.convert_body w self file_path output_dir)
    as [[e | p'] t] eqn:Hb; simpl in Hp; [discriminate |].
  destruct (pdf_body_returns _ _ _ _ Hb) as [-> _].
  unfold Pdf.convert_body in Hb. bind_inv_all.
  set (out := Pdf.md_path file_path output_dir) in *.
  assert (Hout : last_char out = Some "d"%char) by apply md_path_last.
  match goal with
  | H : lift (fitz_open w file_path) = (inr ?d, _) |- _ =>
      exists d; apply lift_inv in H; destruct H as [Hdoc ?]
  end.
  match goal with
  | H : Pdf.extract_metadata _ _ _ = (inr ?m, ?tm) |- _ =>
      exists m;
      assert (Hq : only_logs tm = true)
        by (change tm with (trace_of (inr (A:=exn) m, tm));
            rewrite <- H; apply pdf_extract_metadata_quiet);
      rewrite H
  end.
  match goal with
  | H : Pdf.write_frontmatter _ ?m = _ |- _ =>
      destruct (pdf_frontmatter_written out m) as (tf & Hf & Hfopen & Hfdata);
      rewrite Hf in H; inversion H; clear H
  end.
  match goal with
  | H : Pdf.convert_pages _ _ _ _ _ _ _ = (inr ?u, _) |- _ =>
      destruct u;
      destruct (convert_pages_written _ _ _ _ _ _ _ H Hout)
        as [Hpopen Hpdata]
  end.
  unfold open_w in *.
  match goal with
  | H : match open_for_write ?w ?p with _ => _ end = _ |- _ =>
      destruct (open_for_write w p); [discriminate |]; inversion H; clear H
  end.
  repeat match goal with
         | H : write _ _ = _ |- _ => inversion H; clear H
         | H : ret _ = _ |- _ => inversion H; clear H
         end.
  subst. destruct (only_logs_quiet out _ Hq) as [Hqopen Hqdata].
  split; [exact Hdoc |]. split; [reflexivity |]. split; [reflexivity |].
  unfold file_content. cbn [trace_of snd try_except app replay].
  rewrite String.eqb_refl.
  rewrite app_nil_r, replay_written.
  - rewrite !written_app. cbn [written]. rewrite String.eqb_refl.
    rewrite Hqdata, Hfdata, Hpdata.
    unfold title_heading. cbn [append]. reflexivity.
  - rewrite !never_opens_app, never_opens_write.
    rewrite Hqopen, Hfopen, Hpopen. reflexivity.
Qed.

(** With image extraction off, the conversion of a PDF that opens and
    whose pages give their text runs through as soon as the output file can
    be opened. *)
Lemma convert_pages_runs : forall w self output_dir name out pages page_num,
  Py.truthy (Pdf.extract_images self) = false ->
  (forall page, In page pages -> exists text, get_text page = inr text) ->
  exists tr,
    Pdf.convert_pages w self output_dir name out page_num pages
    = (inr tt, tr).
Proof.
  intros w self output_dir name out pages.
  induction pages as [| page pages IH]; intros page_num Himg Hpages.
  - eexists. reflexivity.
  - destruct (Hpages page (or_introl eq_refl)) as [text Htext].
    destruct (convert_text_choice self page Htext) as (tc & Hchoice & _).
    destruct (write_paragraphs out
                (PyStr.split (PyStr.collapse_newlines (page_text self page))
                   PyStr.nlnl)) as (tp & Hpar & _).
    destruct (IH (S page_num) Himg) as [tr Hrest].
    { intros p Hp. apply Hpages. right. exact Hp. }
    cbn [Pdf.convert_pages]. rewrite Himg, Htext.
    eexists.
    eapply bind_run; [reflexivity |].
    eapply bind_run; [reflexivity |].
    eapply bind_run; [exact Hchoice |].
    eapply bind_run; [exact Hpar |].
    eapply bind_run; [reflexivity |].
    exact Hrest.
Qed.

Lemma pdf_conversion_runs_through : forall w self file_path output_dir doc,
  fitz_open w file_path = inr doc ->
  open_for_write w (Pdf.md_path file_path output_dir) = None ->
  Py.truthy (Pdf.extract_images self) = false ->
  (forall page, In page (pdf_pages doc) ->
                exists text, get_text page = inr text) ->
  exists t,
    Pdf.convert_body w self file_path output_dir
    = (inr (Pdf.md_path file_path output_dir), t).
Proof.
  intros w self file_path output_dir doc Hdoc Hopen Himg Hpages.
  set (out := Pdf.md_path file_path output_dir) in *.
  assert (Hmd : exists metadata tm,
             Pdf.extract_metadata w self file_path = (inr metadata, tm)).
  { assert (Hret : exists a,
               result_of (Pdf.extract_metadata w self file_path) = inr a)
      by (apply try_except_total; intros e; simpl; eauto).
    destruct (Pdf.extract_metadata w self file_path) as [[e | metadata] tm].
    - destruct Hret as [a Ha]. discriminate Ha.
    - eauto. }
  destruct Hmd as (metadata & tm & Hmd).
  destruct (pdf_frontmatter_written out metadata) as (tf & Hf & _).
  destruct (convert_pages_runs w self output_dir (Pdf.md_name file_path) out
              (pdf_pages doc) 0 Himg Hpages) as [tp Hp].
  unfold Pdf.convert_body. fold out. eexists.
  eapply bind_run; [rewrite Hdoc; reflexivity |].
  eapply bind_run; [unfold open_w; rewrite Hopen; reflexivity |].
  eapply bind_run; [exact Hmd |].
  eapply bind_run; [exact Hf |].
  eapply bind_run; [reflexivity |].
  eapply bind_run; [exact Hp |].
  reflexivity.
Qed.

(** C2 on the sample report. *)
Lemma pdf_markdown_layout_witness :
  exists doc metadata,
    fitz_open Sample.docs_world "docs/report.pdf" = inr doc /\
    result_of (Pdf.extract_metadata Sample.docs_world Sample.pdf_processor
                 "docs/report.pdf") = inr metadata /\
    result_of (Pdf.convert_to_markdown Sample.docs_world
                 Sample.pdf_processor "docs/report.pdf" "out")
    = inr "out/report.md" /\
    file_content "out/report.md"
      (trace_of (Pdf.convert_to_markdown Sample.docs_world
                   Sample.pdf_processor "docs/report.pdf" "out"))
    = Some (frontmatter metadata
            ++ title_heading metadata "report"
            ++ cat (map (page_section Sample.pdf_processor "report")
                      (enumerate_from 1 (pdf_pages doc)))).
Proof.
  apply (pdf_markdown_layout Sample.docs_world Sample.pdf_processor
           "docs/report.pdf" "out" (p:="out/report.md")).
  reflexivity.
Defined.

(** ** Heading levels *)

Lemma all_chars_impl : forall (P Q : ascii -> bool) s,
  (forall c, P c = true -> Q c = true) ->
  all_chars P s = true -> all_chars Q s = true.
Proof.
  intros P Q s HPQ. unfold all_chars.
  induction s as [| c s IH]; simpl; [reflexivity |].
  intros H. apply andb_true_iff in H. destruct H as [Hc Hs].
  rewrite (HPQ c Hc), (IH Hs). reflexivity.
Qed.

Lemma skip_int_space_chars : forall P s,
  (forall c, PyStr.is_int_space c = true -> P c = true) ->
  all_chars P (PyStr.skip_int_space s) = true -> all_chars P s = true.
Proof.
  intros P s Hsp. unfold all_chars.
  induction s as [| c s IH]; simpl; [reflexivity |].
  destruct (PyStr.is_int_space c) eqn:Hc.
  - intros H. rewrite (Hsp c Hc), (IH H). reflexivity.
  - simpl. auto.
Qed.

Lemma scan_digits_chars : forall P s acc digits prev value n rest,
  (forall c, digit_or_underscore c = true -> P c = true) ->
  PyStr.scan_digits s acc digits prev = Some (value, n, rest) ->
  all_chars P rest = true ->
  all_chars P s = true.
Proof.
  intros P s; unfold all_chars.
  induction s as [| c s IH]; intros acc digits prev value n rest HP H Hrest.
  - reflexivity.
  - cbn [PyStr.scan_digits] in H. cbn [list_ascii_of_string forallb].
    destruct (PyStr.digit_val c) as [d |] eqn:Hd.
    + rewrite (HP c), (IH _ _ _ _ _ _ HP H Hrest); [reflexivity |].
      unfold digit_or_underscore. rewrite Hd. reflexivity.
    + destruct (Ascii.eqb c "_") eqn:Hu.
      * destruct prev; [discriminate |].
        rewrite (HP c), (IH _ _ _ _ _ _ HP H Hrest); [reflexivity |].
        unfold digit_or_underscore. rewrite Hd, Hu. reflexivity.
      * destruct prev; [discriminate |].
        inversion H; subst rest. exact Hrest.
Qed.

Lemma only_int_space : forall s,
  PyStr.skip_int_space s = EmptyString ->
  all_chars PyStr.is_int_space s = true.
Proof.
  unfold all_chars. induction s as [| c s IH]; simpl; [reflexivity |].
  destruct (PyStr.is_int_space c); [| discriminate].
  exact IH.
Qed.

(** A string that [int()] converts holds white space, digits, underscores
    and signs only. *)
Lemma py_int_chars : forall limit s z,
  PyStr.py_int limit s = PyStr.Int_ok z -> all_chars int_char s = true.
Proof.
  intros limit s z H. unfold PyStr.py_int in H.
  assert (Hspace : forall c, PyStr.is_int_space c = true -> int_char c = true)
    by (intros c Hc; unfold int_char; rewrite Hc; reflexivity).
  assert (Hdigit : forall c, digit_or_underscore c = true ->
                             int_char c = true)
    by (intros c Hc; unfold int_char; rewrite Hc, orb_true_r; reflexivity).
  apply skip_int_space_chars; [exact Hspace |].
  assert (Hscan : forall t,
             match t with
             | String c _ =>
                 if Ascii.eqb c "_" then PyStr.Int_invalid
                 else
                   match PyStr.scan_digits t 0 0 false with
                   | None => PyStr.Int_invalid
                   | Some (value, digits, rest) =>
                       if (640 <? digits) && (0 <? limit) && (limit <? digits)
                       then PyStr.Int_too_long digits
                       else if digits =? 0 then PyStr.Int_invalid
                       else match PyStr.skip_int_space rest with
                            | EmptyString => PyStr.Int_ok value
                            | _ => PyStr.Int_invalid
                            end
                   end
             | EmptyString => PyStr.Int_invalid
             end <> PyStr.Int_invalid ->
             (forall n, match t with
                        | String c _ =>
                            if Ascii.eqb c "_" then PyStr.Int_invalid
                            else
                              match PyStr.scan_digits t 0 0 false with
                              | None => PyStr.Int_invalid
                              | Some (value, digits, rest) =>
                                  if (640 <? digits) && (0 <? limit)
                                     && (limit <? digits)
                                  then PyStr.Int_too_long digits
                                  else if digits =? 0 then PyStr.Int_invalid
                                  else match PyStr.skip_int_space rest with
                                       | EmptyString => PyStr.Int_ok value
                                       | _ => PyStr.Int_invalid
                                       end
                              end
                        | EmptyString => PyStr.Int_invalid
                        end <> PyStr.Int_too_long n) ->
             all_chars int_char t = true).
  { intros [| c t] Hok Hlong; [reflexivity |].
    destruct (Ascii.eqb c "_"); [contradiction Hok; reflexivity |].
    destruct (PyStr.scan_digits (String c t) 0 0 false)
      as [[[value digits] rest] |] eqn:Hs;
      [| contradiction Hok; reflexivity].
    destruct ((640 <? digits) && (0 <? limit) && (limit <? digits));
      [contradiction (Hlong digits); reflexivity |].
    destruct (digits =? 0); [contradiction Hok; reflexivity |].
    destruct (PyStr.skip_int_space rest) eqn:Hrest;
      [| contradiction Hok; reflexivity].
    eapply scan_digits_chars; [exact Hdigit | exact Hs |].
    eapply all_chars_impl; [exact Hspace |].
    apply only_int_space. exact Hrest. }
  destruct (PyStr.skip_int_space s) as [| c r] eqn:Hskip; [discriminate H |].
  unfold all_chars. cbn [list_ascii_of_string forallb].
  destruct (Ascii.eqb c "+") eqn:Hplus.
  - unfold int_char at 1. rewrite Hplus, orb_true_r. cbn [orb andb].
    apply Hscan.
    + intros Hbad. destruct r as [| c' r']; [discriminate H |].
      rewrite Hbad in H. discriminate H.
    + intros n Hbad. destruct r as [| c' r']; [discriminate Hbad |].
      rewrite Hbad in H. discriminate H.
  - destruct (Ascii.eqb c "-") eqn:Hminus.
    + unfold int_char at 1. rewrite Hminus, orb_true_r. cbn [andb].
      apply Hscan.
      * intros Hbad. destruct r as [| c' r']; [discriminate H |].
        destruct (Ascii.eqb c' "_"); [discriminate H |].
        destruct (PyStr.scan_digits (String c' r') 0 0 false)
          as [[[value digits] rest] |]; [| discriminate H].
        destruct ((640 <? digits) && (0 <? limit) && (limit <? digits));
          [discriminate H |].
        destruct (digits =? 0); [discriminate H |].
        destruct (PyStr.skip_int_space rest); discriminate.
      * intros n Hbad. destruct r as [| c' r']; [discriminate Hbad |].
        destruct (Ascii.eqb c' "_"); [discriminate H |].
        destruct (PyStr.scan_digits (String c' r') 0 0 false)
          as [[[value digits] rest] |]; [| discriminate H].
        destruct ((640 <? digits) && (0 <? limit) && (limit <? digits));
          [discriminate H |].
        destruct (digits =? 0); [discriminate H |].
        destruct (PyStr.skip_int_space rest); discriminate.
    + change (all_chars int_char (String c r) = true). apply Hscan.
      * intros Hbad. rewrite Hbad in H. discriminate H.
      * intros n Hbad. rewrite Hbad in H. discriminate H.
Qed.

Lemma int_char_not_H : forall c,
  int_char c = true -> negb (Ascii.eqb c "H") = true.
Proof.
  intros c H. destruct (Ascii.eqb_spec c "H") as [-> |]; [| reflexivity].
  discriminate H.
Qed.

Lemma prefix_nil : forall s, prefix EmptyString s = true.
Proof. destruct s; reflexivity. Qed.

Lemma prefix_first : forall c p d s,
  Ascii.eqb c d = false -> prefix (String c p) (String d s) = false.
Proof.
  intros c p d s H. simpl. destruct (ascii_dec c d) as [-> |].
  - rewrite Ascii.eqb_refl in H. discriminate.
  - reflexivity.
Qed.

Lemma replace_without_first : forall c old new s,
  all_chars (fun x => negb (Ascii.eqb x c)) s = true ->
  PyStr.replace_go (String c old) new s 0 = s.
Proof.
  unfold all_chars. intros c old new s.
  induction s as [| d s IH]; [reflexivity |].
  cbn [list_ascii_of_string forallb PyStr.replace_go].
  intros H. apply andb_true_iff in H. destruct H as [Hd Hs].
  rewrite prefix_first.
  - rewrite (IH Hs). reflexivity.
  - rewrite Ascii.eqb_sym. destruct (Ascii.eqb d c); [discriminate | auto].
Qed.

Lemma prefix_drop : forall p s,
  prefix p s = true -> s = p ++ PyStr.drop (String.length p) s.
Proof.
  induction p as [| c p IH]; intros s H.
  - reflexivity.
  - destruct s as [| d s]; [discriminate |].
    simpl in H. destruct (ascii_dec c d) as [-> |]; [| discriminate].
    simpl. rewrite <- (IH s H). reflexivity.
Qed.

Lemma replace_heading_prefix : forall rest,
  PyStr.replace ("Heading" ++ rest) "Heading" EmptyString
  = PyStr.replace_go "Heading" EmptyString rest 0.
Proof. intros rest. cbn. rewrite prefix_nil. reflexivity. Qed.

(** When the rest of the style name after "Heading" is an integer literal,
    it is the level [convert_to_markdown] computes. *)
Lemma heading_level_is_number : forall w name level,
  PyStr.startswith name "Heading" = true ->
  PyStr.py_int (int_max_str_digits w) (PyStr.drop 7 name)
  = PyStr.Int_ok level ->
  Word.heading_level w name = inr level.
Proof.
  intros w name level Hpre Hnum.
  unfold Word.heading_level.
  rewrite (prefix_drop "Heading" name Hpre) at 1.
  rewrite replace_heading_prefix.
  change (String.length "Heading") with 7.
  rewrite replace_without_first.
  - rewrite Hnum. reflexivity.
  - eapply all_chars_impl; [apply int_char_not_H |].
    eapply py_int_chars. exact Hnum.
Qed.

(** The level can be an integer although the rest of the style name is
    none: every "Heading" is taken out of the name, not the first only. *)
Example heading_named_twice :
  forall w,
    PyStr.py_int (int_max_str_digits w) (PyStr.drop 7 "Heading 3 Heading")
    = PyStr.Int_invalid
    /\ Word.heading_level w "Heading 3 Heading" = inr 3%Z.
Proof. intros w. split; reflexivity. Qed.

Lemma repeat_hashes : forall n,
  string_of_list_ascii (repeat "#"%char n) = hashes n.
Proof.
  induction n as [| n IH]; [reflexivity |].
  cbn [repeat string_of_list_ascii hashes]. rewrite IH. reflexivity.
Qed.

(** The marks of a heading line are what [int()] and the repetition of
    "#" give, and where there are none, one of the two raises. *)
Lemma heading_marks_run : forall w name,
  match heading_marks w name with
  | inr marks =>
      exists level,
        Word.heading_level w name = inr level /\
        str_repeat w "#" level = inr marks
  | inl cls =>
      (exists e, Word.heading_level w name = inl e /\ exn_cls e = cls)
      \/ (exists level e,
             Word.heading_level w name = inr level /\
             str_repeat w "#" level = inl e /\ exn_cls e = cls)
  end.
Proof.
  intros w name. unfold heading_marks, Word.heading_level.
  destruct (PyStr.py_int (int_max_str_digits w)
              (PyStr.replace name "Heading" EmptyString))
    as [level | | n].
  - unfold str_repeat.
    destruct ((level <? - 2 ^ 63) || (2 ^ 63 <=? level))%Z eqn:Hindex.
    + right. do 2 eexists. rewrite Hindex. repeat split.
    + destruct (level <=? 0)%Z eqn:Hlow.
      { exists level. rewrite Hindex, Hlow. split; reflexivity. }
      destruct (enough_memory w level) eqn:Hmem.
      * exists level. rewrite Hindex, Hlow, Hmem, repeat_hashes.
        split; reflexivity.
      * right. do 2 eexists. rewrite Hindex, Hlow, Hmem. repeat split.
  - left. eexists. split; reflexivity.
  - left. eexists. split; reflexivity.
Qed.

(** ** C6: the markdown file of a Word document *)

Lemma avoids_app : forall path t1 t2,
  avoids path (t1 ++ t2) = avoids path t1 && avoids path t2.
Proof. intros. apply forallb_app. Qed.

Lemma avoids_quiet : forall path tr,
  avoids path tr = true ->
  never_opens path tr = true /\ written path tr = EmptyString.
Proof.
  intros path tr; induction tr as [| ev tr IH]; simpl; intros H.
  - auto.
  - apply andb_true_iff in H. destruct H as [Hev H].
    destruct (IH H) as [Hopen Hdata].
    destruct ev; simpl; auto.
    + rewrite Hev. auto.
    + destruct (String.eqb path0 path); [discriminate | auto].
Qed.

Lemma avoids_bind : forall {A B} path (m : M A) (f : A -> M B),
  avoids path (trace_of m) = true ->
  (forall a, avoids path (trace_of (f a)) = true) ->
  avoids path (trace_of (bind m f)) = true.
Proof.
  intros A B path [[e | a] t] f Hm Hf; simpl in *.
  - exact Hm.
  - specialize (Hf a). destruct (f a) as [r t']. simpl in *.
    rewrite avoids_app, Hm, Hf. reflexivity.
Qed.

Lemma avoids_try : forall {A} path (m : M A) (h : exn -> M A),
  avoids path (trace_of m) = true ->
  (forall e, avoids path (trace_of (h e)) = true) ->
  avoids path (trace_of (try_except m h)) = true.
Proof.
  intros A path [[e | a] t] h Hm Hh; simpl in *.
  - specialize (Hh e). destruct (h e) as [r t']. simpl in *.
    rewrite avoids_app, Hm, Hh. reflexivity.
  - exact Hm.
Qed.

Ltac avoiding :=
  repeat match goal with
         | |- avoids _ (trace_of (bind (lift (inr _)) _)) = true =>
             rewrite bind_lift_ok
         | |- avoids _ (trace_of (bind _ _)) = true =>
             apply avoids_bind; [| intros ? ]
         | |- avoids _ (trace_of (try_except _ _)) = true =>
             apply avoids_try; [| intros ? ]
         | |- avoids _ (trace_of (let (_, _) := ?x in _)) = true =>
             destruct x
         | |- avoids _ (trace_of (lift _)) = true => reflexivity
         | |- avoids _ (trace_of (ret _)) = true => reflexivity
         | |- avoids _ (trace_of (logger_error _)) = true => reflexivity
         end.

Lemma save_rel_images_avoids : forall w path rels images,
  (forall rel, In rel rels -> image_path w rel <> path) ->
  avoids path (trace_of (Word.save_rel_images w rels images)) = true.
Proof.
  intros w path rels; induction rels as [| rel rels IH]; intros images Hrels.
  - reflexivity.
  - cbn [Word.save_rel_images].
    assert (Hne : String.eqb (image_path w rel) path = false)
      by (apply String.eqb_neq, Hrels; left; reflexivity).
    assert (Hrest : forall r, In r rels -> image_path w r <> path)
      by (intros r Hr; apply Hrels; right; exact Hr).
    fold (image_path w rel).
    destruct (PyStr.contains (reltype rel) "image"); [| apply IH, Hrest].
    avoiding.
    + unfold open_w. destruct (open_for_write w (image_path w rel)).
      * reflexivity.
      * simpl. rewrite Hne. reflexivity.
    + simpl. rewrite Hne. reflexivity.
    + apply IH, Hrest.
Qed.

Lemma word_extract_metadata_avoids : forall w self file_path doc path,
  docx_Document w file_path = inr doc ->
  images_saved_elsewhere w self doc path ->
  avoids path (trace_of (Word.extract_metadata w self file_path)) = true.
Proof.
  intros w self file_path doc path Hdoc Himg.
  unfold Word.extract_metadata, Word.extract_text. rewrite Hdoc.
  avoiding.
  destruct (Word.include_images self) eqn:Hinc; [| reflexivity].
  apply save_rel_images_avoids. intros rel Hrel.
  apply (Himg Hinc rel Hrel).
Qed.

Lemma word_frontmatter_written : forall out metadata,
  exists tr,
    Word.write_frontmatter out metadata = (inr tt, tr)
    /\ never_opens out tr = true
    /\ written out tr = frontmatter metadata.
Proof.
  intros out metadata. unfold Word.write_frontmatter, frontmatter.
  destruct (frontmatter_lines out metadata) as (tr & Hrun & Hw & Hdata).
  rewrite (@bind_ok _ _ (write out ("---" ++ PyStr.nl)) _ tt
             [Write out ("---" ++ PyStr.nl)] eq_refl).
  rewrite (@bind_ok _ _ _ _ _ _ Hrun). cbn [fst snd write emit].
  eexists. split; [reflexivity |].
  rewrite !never_opens_app, !written_app, Hdata.
  rewrite (only_writes_never_opens _ _ Hw).
  cbn [never_opens forallb written]. rewrite String.eqb_refl.
  split; [reflexivity |]. rewrite !append_nil_r, !append_assoc. reflexivity.
Qed.

(** The two loops over the runs mark the runs. *)
Lemma apply_bold_marks : forall runs text,
  Word.apply_bold runs text = mark_runs "**" run_bold runs text.
Proof.
  unfold Word.apply_bold.
  induction runs as [| run runs IH]; intros text; [reflexivity |].
  cbn [fold_left mark_runs]. apply IH.
Qed.

Lemma apply_italic_marks : forall runs text,
  Word.apply_italic runs text = mark_runs "*" run_italic runs text.
Proof.
  unfold Word.apply_italic.
  induction runs as [| run runs IH]; intros text; [reflexivity |].
  cbn [fold_left mark_runs]. apply IH.
Qed.

(** Where no run is marked the text is left as it is. *)
Lemma mark_runs_plain : forall mark marked runs text,
  forallb (fun run => negb (marked run)) runs = true ->
  mark_runs mark marked runs text = text.
Proof.
  intros mark marked runs; induction runs as [| run runs IH]; intros text H.
  - reflexivity.
  - cbn [forallb] in H. apply andb_true_iff in H. destruct H as [Hrun H].
    cbn [mark_runs]. apply negb_true_iff in Hrun. rewrite Hrun.
    apply IH, H.
Qed.

(** A paragraph without bold and italic runs is written as its text. *)
Lemma body_text_plain : forall para,
  forallb (fun run => negb (run_bold run)) (para_runs para) = true ->
  forallb (fun run => negb (run_italic run)) (para_runs para) = true ->
  body_text para = para_text para.
Proof.
  intros para Hbold Hitalic. unfold body_text.
  rewrite (mark_runs_plain "**" run_bold _ _ Hbold).
  apply mark_runs_plain, Hitalic.
Qed.

(** The text of a marked run is marked wherever it occurs in the
    paragraph, and the marks of the bold runs are text for the italic
    runs. *)
Example body_text_marks_every_occurrence :
  body_text {| para_text := "a cat and a dog"; style_name := "Normal";
               para_runs := [ {| run_text := "a"; run_bold := true;
                                 run_italic := false |};
                              {| run_text := " cat and a dog";
                                 run_bold := false; run_italic := false |} ]
            |}
  = "**a** c**a**t **a**nd **a** dog"
  /\ body_text {| para_text := "so*"; style_name := "Normal";
                  para_runs := [ {| run_text := "so"; run_bold := true;
                                    run_italic := false |};
                                 {| run_text := "*"; run_bold := false;
                                    run_italic := true |} ] |}
     = "******so*********".
Proof. split; reflexivity. Qed.

(** The body of the paragraph loop: nothing for a paragraph without text,
    one write of the rendered paragraph, or the exception that stops the
    conversion. *)
Lemma convert_paragraph_run : forall w out para,
  if has_text para
  then match rendered_paragraph w para with
       | inr line =>
           Word.convert_paragraph w out para = (inr tt, [Write out line])
       | inl cls =>
           exists e,
             Word.convert_paragraph w out para = (inl e, []) /\
             exn_cls e = cls
       end
  else Word.convert_paragraph w out para = (inr tt, []).
Proof.
  intros w out para. unfold Word.convert_paragraph, has_text.
  rewrite strip_empty_iff_whitespace.
  destruct (whitespace_only (para_text para)); cbn [negb]; [reflexivity |].
  unfold rendered_paragraph, is_heading.
  destruct (PyStr.startswith (style_name para) "Heading").
  - pose proof (heading_marks_run w (style_name para)) as Hmarks.
    destruct (heading_marks w (style_name para)) as [cls | marks].
    + destruct Hmarks as [(e & Hlevel & Hcls) | (level & e & Hlevel & Hrep & Hcls)].
      * exists e. rewrite Hlevel. split; [reflexivity | exact Hcls].
      * exists e. rewrite Hlevel, bind_lift_ok, Hrep.
        split; [reflexivity | exact Hcls].
    + destruct Hmarks as (level & Hlevel & Hrep).
      rewrite Hlevel, bind_lift_ok, Hrep, bind_lift_ok. reflexivity.
  - rewrite apply_bold_marks, apply_italic_marks. reflexivity.
Qed.

(** The paragraph loop writes the paragraphs that have text, in order, up
    to the first that stops the conversion. *)
Lemma paragraphs_run : forall w out paras,
  exists r tr,
    for_each paras (Word.convert_paragraph w out) = (r, tr)
    /\ only_writes out tr = true
    /\ written out tr
       = fst (rendered_until (rendered_paragraph w) (filter has_text paras))
    /\ match snd (rendered_until (rendered_paragraph w)
                    (filter has_text paras)) with
       | None => r = inr tt
       | Some cls => exists e, r = inl e /\ exn_cls e = cls
       end.
Proof.
  intros w out paras; induction paras as [| para paras IH].
  - exists (inr tt), []. repeat split.
  - destruct IH as (r & tr & Hrun & Hw & Hdata & Hstop).
    cbn [for_each filter].
    pose proof (convert_paragraph_run w out para) as Hpara.
    destruct (has_text para).
    + cbn [rendered_until].
      destruct (rendered_paragraph w para) as [cls | line].
      * destruct Hpara as (e & Hpara & Hcls). rewrite Hpara.
        exists (inl e), []. repeat split. exists e. split; auto.
      * rewrite Hpara, Hrun.
        destruct (rendered_until (rendered_paragraph w)
                    (filter has_text paras)) as [more stop].
        exists r, (Write out line :: tr). cbn [fst snd] in *.
        split; [reflexivity |]. split.
        { cbn [only_writes forallb]. rewrite String.eqb_refl. exact Hw. }
        split; [| exact Hstop].
        cbn [written]. rewrite String.eqb_refl, Hdata. reflexivity.
    + rewrite Hpara, Hrun. exists r, tr. repeat split; assumption.
Qed.

Lemma table_rows_written : forall out rows,
  exists tr,
    for_each rows
      (fun row => write out ("| " ++ PyStr.join " | " (map PyStr.strip row)
                             ++ " |" ++ PyStr.nl))
    = (inr tt, tr)
    /\ only_writes out tr = true
    /\ written out tr
       = cat (map (fun row => table_line (map PyStr.strip row)) rows).
Proof.
  intros out rows; induction rows as [| row rows (tr & Hrun & Hw & Hdata)].
  - eexists. repeat split.
  - cbn [for_each]. rewrite Hrun. simpl.
    eexists. split; [reflexivity |]. simpl. rewrite String.eqb_refl.
    split; [exact Hw |]. rewrite Hdata. reflexivity.
Qed.

(** The body of the table loop: the rendered table, or the IndexError of
    a table without rows. *)
Lemma convert_table_run : forall out table,
  match table_rows table with
  | [] =>
      Word.convert_table out table
      = (inl (Exn IndexError "list index out of range"), [])
  | _ =>
      exists tr,
        Word.convert_table out table = (inr tt, tr)
        /\ only_writes out tr = true
        /\ written out tr = render_table table
  end.
Proof.
  intros out table. unfold Word.convert_table, render_table.
  destruct (table_rows table) as [| header rows]; [reflexivity |].
  destruct (table_rows_written out rows) as (tr' & Hrun' & Hw' & Hdata').
  unfold write at 1 2. unfold emit. cbn [bind]. rewrite Hrun'.
  cbn [bind write emit fst snd app].
  eexists. split; [reflexivity |]. split.
  - unfold only_writes in *. cbn [forallb]. rewrite !forallb_app.
    cbn [forallb]. rewrite !String.eqb_refl, Hw'. reflexivity.
  - cbn [written]. rewrite !String.eqb_refl, !written_app.
    cbn [written]. rewrite String.eqb_refl, Hdata'.
    unfold table_line. rewrite length_map, !append_nil_r, !append_assoc.
    reflexivity.
Qed.

(** The table loop writes the tables in order, up to the first without
    rows. *)
Lemma tables_run : forall out tbls,
  exists r tr,
    for_each tbls (Word.convert_table out) = (r, tr)
    /\ only_writes out tr = true
    /\ written out tr = fst (rendered_until rendered_table tbls)
    /\ match snd (rendered_until rendered_table tbls) with
       | None => r = inr tt
       | Some cls =>
           r = inl (Exn IndexError "list index out of range")
           /\ cls = IndexError
       end.
Proof.
  intros out tbls; induction tbls as [| table tbls IH].
  - exists (inr tt), []. repeat split.
  - destruct IH as (r & tr & Hrun & Hw & Hdata & Hstop).
    cbn [for_each rendered_until].
    pose proof (convert_table_run out table) as Htable.
    unfold rendered_table at 1 3.
    destruct (table_rows table) as [| header rows].
    + rewrite Htable. exists (inl (Exn IndexError "list index out of range")), [].
      repeat split.
    + destruct Htable as (tr1 & Hrun1 & Hw1 & Hdata1).
      rewrite Hrun1, Hrun. cbn [bind].
      destruct (rendered_until rendered_table tbls) as [more stop].
      exists r, (tr1 ++ tr)%list. cbn [fst snd] in *.
      split; [reflexivity |]. split.
      { unfold only_writes in *. rewrite forallb_app, Hw1, Hw. reflexivity. }
      split; [| exact Hstop].
      rewrite written_app, Hdata1, Hdata. reflexivity.
Qed.

Lemma word_extract_metadata_returns : forall w self file_path,
  exists metadata tr,
    Word.extract_metadata w self file_path = (inr metadata, tr).
Proof.
  intros w self file_path.
  assert (Hret : exists a,
             result_of (Word.extract_metadata w self file_path) = inr a)
    by (apply try_except_total; intros e; simpl; eauto).
  destruct (Word.extract_metadata w self file_path) as [[e | metadata] t].
  - destruct Hret as [a Ha]. discriminate Ha.
  - eauto.
Qed.

(** The two loops of [convert_to_markdown], one after the other. *)
Lemma word_loops_run : forall w out doc,
  exists r tr,
    (for_each (paragraphs doc) (Word.convert_paragraph w out) ;;
     for_each (tables doc) (Word.convert_table out))%py = (r, tr)
    /\ only_writes out tr = true
    /\ written out tr = fst (markdown_body w doc)
    /\ match snd (markdown_body w doc) with
       | None => r = inr tt
       | Some cls => exists e, r = inl e /\ exn_cls e = cls
       end.
Proof.
  intros w out doc. unfold markdown_body.
  destruct (paragraphs_run w out (paragraphs doc))
    as (rp & tp & Hp & Hpw & Hpdata & Hpstop).
  destruct (tables_run out (tables doc))
    as (rt & tt' & Ht & Htw & Htdata & Htstop).
  destruct (rendered_until (rendered_paragraph w)
              (filter has_text (paragraphs doc))) as [text [cls |]];
    cbn [fst snd] in *.
  - destruct Hpstop as (e & -> & Hcls). rewrite Hp.
    exists (inl e), tp. repeat split; [assumption .. |].
    exists e. split; auto.
  - subst rp. rewrite Hp. cbn [bind]. rewrite Ht.
    destruct (rendered_until rendered_table (tables doc)) as [rows stop].
    cbn [fst snd] in *.
    exists rt, (tp ++ tt')%list. split; [reflexivity |]. split.
    { unfold only_writes in *. rewrite forallb_app, Hpw, Htw. reflexivity. }
    split; [rewrite written_app, Hpdata, Htdata; reflexivity |].
    destruct stop as [cls |]; [| exact Htstop].
    destruct Htstop as [-> ->]. eexists. split; reflexivity.
Qed.

(** C6, counterexample: the second paragraph of the sample document has
    the style "Heading TOC".  The conversion stops there with the error of
    [int(' TOC')]: the markdown file holds the front matter and the first
    paragraph only, the third paragraph is never written, and no heading
    line of the stated form exists for the second. *)
Lemma word_heading_without_number_breaks_layout :
  result_of (Word.convert_to_markdown Sample.styled_world
               Sample.word_processor "styled.docx" "out")
  = inr ("Error: Could not convert document to Markdown ("
         ++ "invalid literal for int() with base 10: ' TOC'" ++ ")")
  /\ file_content "out/styled.md"
       (trace_of (Word.convert_to_markdown Sample.styled_world
                    Sample.word_processor "styled.docx" "out"))
     = Some ("---" ++ line_feed
             ++ "error: Could not extract metadata "
             ++ "(expected string or bytes-like object)" ++ line_feed
             ++ "---" ++ line_feed ++ line_feed
             ++ "## Overview" ++ line_feed ++ line_feed)
  /\ ~ word_layout_as_stated Sample.styled_world Sample.word_processor
         "styled.docx" "out".
Proof.
  split; [reflexivity |]. split; [reflexivity |].
  intros Hstated.
  destruct (Hstated Sample.styled_docx eq_refl)
    as (lines & before & after & Hlines & _).
  cbn in Hlines. inversion Hlines as [| p1 l1 ps ls _ Hrest]; subst.
  inversion Hrest as [| p2 l2 ps' ls' Hsecond _]; subst.
  unfold stated_rendering in Hsecond. cbn in Hsecond.
  destruct Hsecond as (level & Hlevel & _). discriminate Hlevel.
Qed.

(** C6, amended: for a Word document that opens, whose output file can be
    opened and whose images are not saved at the output path,
    [convert_to_markdown] writes the front matter and then every paragraph
    with non-whitespace text exactly once and in document order, up to the
    first that stops the conversion, and after the last paragraph the
    tables, up to the first without rows.  A paragraph whose style name
    starts with "Heading" is a heading line with one "#" for each level,
    the level being the integer the style name spells once every "Heading"
    is taken out of it; it stops the conversion when that is no integer or
    has too many digits (ValueError), is outside the 64-bit indices
    (OverflowError) or the marks do not fit in memory (MemoryError).  Every
    other paragraph is its text with the bold runs between "**" and the
    italic runs between "*", followed by a blank line.  When nothing stops
    the conversion the call returns the markdown path, else the error
    string of the exception. *)
Theorem word_markdown_layout :
  forall w self file_path output_dir doc,
    docx_Document w file_path = inr doc ->
    open_for_write w (Word.md_path file_path output_dir) = None ->
    images_saved_elsewhere w self doc (Word.md_path file_path output_dir) ->
    exists metadata,
      result_of (Word.extract_metadata w self file_path) = inr metadata /\
      file_content (Word.md_path file_path output_dir)
        (trace_of (Word.convert_to_markdown w self file_path output_dir))
      = Some (frontmatter metadata ++ fst (markdown_body w doc)) /\
      match snd (markdown_body w doc) with
      | None =>
          result_of (Word.convert_to_markdown w self file_path output_dir)
          = inr (Word.md_path file_path output_dir)
      | Some cls =>
          exists e,
            exn_cls e = cls /\
            result_of (Word.convert_to_markdown w self file_path output_dir)
            = inr ("Error: Could not convert document to Markdown ("
                   ++ exn_str e ++ ")")
      end.
Proof.
  intros w self file_path output_dir doc Hdoc Hopen Himg.
  set (out := Word.md_path file_path output_dir) in *.
  destruct (word_extract_metadata_returns w self file_path)
    as (metadata & tm & Hmd).
  assert (Hquiet : avoids out tm = true).
  { change tm with (trace_of (inr (A:=exn) metadata, tm)). rewrite <- Hmd.
    eapply word_extract_metadata_avoids; eassumption. }
  destruct (avoids_quiet _ _ Hquiet) as [Hmopen Hmdata].
  destruct (word_frontmatter_written out metadata)
    as (tf & Hf & Hfopen & Hfdata).
  destruct (word_loops_run w out doc) as (r & tl & Hl & Hlw & Hldata & Hstop).
  assert (Hbody : Word.convert_body w self file_path output_dir
                  = (match r with inl e => inl e | inr _ => inr out end,
                     [OpenW out] ++ tm ++ tf ++ tl)%list).
  { unfold Word.convert_body. fold out.
    rewrite Hdoc, bind_lift_ok.
    unfold open_w. rewrite Hopen. cbn [bind emit]. rewrite Hmd.
    cbn [bind]. rewrite Hf. cbn [bind].
    rewrite <- bind_assoc. cbv beta in Hl |- *. rewrite Hl.
    destruct r as [e | []]; cbn [bind for_each ret];
      rewrite ?app_nil_r; reflexivity. }
  exists metadata. rewrite Hmd. split; [reflexivity |].
  unfold Word.convert_to_markdown. rewrite Hbody.
  assert (Hcontent : forall tail,
             avoids out tail = true ->
             file_content out (([OpenW out] ++ tm ++ tf ++ tl) ++ tail)
             = Some (frontmatter metadata ++ fst (markdown_body w doc))).
  { intros tail Htail. destruct (avoids_quiet _ _ Htail) as [Hto Htd].
    unfold file_content. cbn [app replay].
    rewrite String.eqb_refl, replay_written.
    - rewrite !written_app, Hmdata, Hfdata, Hldata, Htd.
      rewrite !append_nil_r. reflexivity.
    - rewrite !never_opens_app, Hmopen, Hfopen, Hto.
      rewrite (only_writes_never_opens _ _ Hlw). reflexivity. }
  destruct (snd (markdown_body w doc)) as [cls |].
  - destruct Hstop as (e & -> & Hcls).
    cbn [try_except bind logger_error emit ret trace_of result_of fst snd].
    split; [apply Hcontent; reflexivity |].
    exists e. split; [exact Hcls | reflexivity].
  - subst r. cbn [try_except trace_of result_of fst snd].
    split; [| reflexivity].
    rewrite <- (app_nil_r ([OpenW out] ++ tm ++ tf ++ tl)%list).
    apply Hcontent. reflexivity.
Qed.

(** C6 on the sample memo: a heading of level 1, a paragraph of blanks
    that is skipped, a paragraph with a bold and an italic run, and a
    table. *)
Lemma word_markdown_layout_witness :
  exists metadata,
    result_of (Word.extract_metadata Sample.docs_world Sample.word_processor
                 "docs/memo.docx") = inr metadata /\
    file_content "out/memo.md"
      (trace_of (Word.convert_to_markdown Sample.docs_world
                   Sample.word_processor "docs/memo.docx" "out"))
    = Some (frontmatter metadata
            ++ ("# Intro" ++ line_feed ++ line_feed
                ++ "Hello **big*** world*" ++ line_feed ++ line_feed
                ++ "| a | b |" ++ line_feed
                ++ "| --- | --- |" ++ line_feed
                ++ "| 1 | 2 |" ++ line_feed
                ++ line_feed)) /\
    result_of (Word.convert_to_markdown Sample.docs_world
                 Sample.word_processor "docs/memo.docx" "out")
    = inr "out/memo.md".
Proof.
  apply (@word_markdown_layout Sample.docs_world Sample.word_processor
           "docs/memo.docx" "out" Sample.memo_docx).
  - reflexivity.
  - reflexivity.
  - intros Hinc. discriminate Hinc.
Defined.

(** ** C10: [_load_config] merges the defaults one level deep *)

(** *** Dictionaries and stores *)

Local Open Scope list_scope.

Lemma find_app : forall es more s,
  Store.find (es ++ more) s
  = match Store.find es s with
    | Some v => Some v
    | None => Store.find more s
    end.
Proof.
  induction es as [| [[k | r] v] es IH]; intros more s;
    cbn [app Store.find]; [reflexivity | | apply IH].
  destruct (String.eqb k s); [reflexivity | apply IH].
Qed.

Lemma set_missing : forall es s v,
  Store.find es s = None -> Store.set es s v = es ++ [(YStr s, v)].
Proof.
  induction es as [| [[k | r] x] es IH]; intros s v H;
    cbn [Store.set Store.find app] in *.
  - reflexivity.
  - destruct (String.eqb k s); [discriminate |].
    rewrite IH by exact H. reflexivity.
  - rewrite IH by exact H. reflexivity.
Qed.

Lemma new_entries_app : forall add1 es add2,
  new_entries es add1 -> new_entries (es ++ add1) add2 ->
  new_entries es (add1 ++ add2).
Proof.
  induction add1 as [| [[s | r] v] add1 IH]; intros es add2 H1 H2;
    cbn [app new_entries] in *.
  - rewrite app_nil_r in H2. exact H2.
  - destruct H1 as [Hs H1]. split; [exact Hs |].
    apply IH; [exact H1 |]. rewrite <- app_assoc. exact H2.
  - contradiction.
Qed.

Lemma has_find : forall es s,
  Store.has es s = false -> Store.find es s = None.
Proof.
  intros es s. unfold Store.has.
  destruct (Store.find es s); [discriminate | reflexivity].
Qed.

Lemma length_update : forall st a c,
  List.length (Store.update st a c) = List.length st.
Proof.
  induction st as [| c0 st IH]; intros [| a] c; cbn; auto.
Qed.

Lemma nth_error_update_same : forall st a c c0,
  nth_error st a = Some c0 -> nth_error (Store.update st a c) a = Some c.
Proof.
  induction st as [| c1 st IH]; intros [| a] c c0 H; cbn in *;
    try discriminate; [reflexivity | eapply IH; exact H].
Qed.

Lemma nth_error_update_other : forall st a c x,
  x <> a -> nth_error (Store.update st a c) x = nth_error st x.
Proof.
  induction st as [| c1 st IH]; intros [| a] c [| x] H; cbn;
    try reflexivity; [contradiction H; reflexivity |].
  apply IH. intros ->. apply H. reflexivity.
Qed.

Lemma update_update : forall st a c c',
  Store.update (Store.update st a c) a c' = Store.update st a c'.
Proof.
  induction st as [| c0 st IH]; intros [| a] c c'; cbn; try reflexivity.
  rewrite IH. reflexivity.
Qed.

Lemma update_same : forall st a c,
  nth_error st a = Some c -> Store.update st a c = st.
Proof.
  induction st as [| c0 st IH]; intros [| a] c H; cbn in *;
    try discriminate.
  - inversion H. reflexivity.
  - rewrite IH by exact H. reflexivity.
Qed.

(** *** Computations over the store *)

Lemma sbind_look : forall A B (f : store -> exn + A)
    (k : A -> Universal.SM store B) st,
  Universal.sbind (Universal.look f) k st
  = match f st with
    | inl e => ((inl e, st), [])
    | inr a => k a st
    end.
Proof.
  intros A B f k st. unfold Universal.sbind, Universal.look.
  destruct (f st) as [e | a]; [reflexivity |].
  destruct (k a st) as [[r st'] t]. reflexivity.
Qed.

Lemma sbind_assign : forall B (f : store -> exn + store)
    (k : unit -> Universal.SM store B) st,
  Universal.sbind (Universal.assign f) k st
  = match f st with
    | inl e => ((inl e, st), [])
    | inr st' => k tt st'
    end.
Proof.
  intros B f k st. unfold Universal.sbind, Universal.assign.
  destruct (f st) as [e | st']; [reflexivity |].
  destruct (k tt st') as [[r st''] t]. reflexivity.
Qed.

Lemma sbind_sret : forall S A B (a : A) (k : A -> Universal.SM S B) st,
  Universal.sbind (Universal.sret a) k st = k a st.
Proof.
  intros S A B a k st. unfold Universal.sbind, Universal.sret.
  destruct (k a st) as [[r st'] t]. reflexivity.
Qed.

Lemma sbind_run : forall S A B (m : Universal.SM S A)
    (k : A -> Universal.SM S B) st a st1,
  m st = ((inr a, st1), []) -> Universal.sbind m k st = k a st1.
Proof.
  intros S A B m k st a st1 H. unfold Universal.sbind. rewrite H.
  destruct (k a st1) as [[r st'] t]. reflexivity.
Qed.

Lemma sbind_raise : forall S A B (m : Universal.SM S A)
    (k : A -> Universal.SM S B) st e st1 t,
  m st = ((inl e, st1), t) -> Universal.sbind m k st = ((inl e, st1), t).
Proof.
  intros S A B m k st e st1 t H. unfold Universal.sbind. rewrite H.
  reflexivity.
Qed.

(** *** The inner loop *)

(** The inner loop gives the dictionary at [b], the value of the root
    under [key], what it lacks of the sub-keys, after its own entries. *)
Lemma merge_subkeys_run : forall key b sub st a es_a es_b,
  nth_error st a = Some (CDict es_a) ->
  Store.find es_a key = Some (RAddr b) ->
  nth_error st b = Some (CDict es_b) ->
  exists added,
    Universal.merge_subkeys (RAddr a) key sub st
    = ((inr tt, Store.update st b (CDict (es_b ++ added))), [])
    /\ new_entries es_b added
    /\ forall s,
         Store.find (es_b ++ added) s
         = match Store.find es_b s with
           | Some v => Some v
           | None => assoc sub s
           end.
Proof.
  intros key b sub; induction sub as [| [subkey subvalue] sub IH];
    intros st a es_a es_b Ha Hkey Hb.
  - exists []. rewrite app_nil_r. cbn [Universal.merge_subkeys].
    rewrite (update_same _ _ Hb). split; [reflexivity |].
    split; [exact I |].
    intros s. cbn [assoc]. destruct (Store.find es_b s); reflexivity.
  - cbn [Universal.merge_subkeys].
    rewrite sbind_look. cbn [Store.getitem]. rewrite Ha, Hkey.
    rewrite sbind_look. cbn [Store.str_in]. rewrite Hb.
    destruct (Store.has es_b subkey) eqn:Hhas; cbn [negb].
    + rewrite sbind_sret.
      destruct (IH st a es_a es_b Ha Hkey Hb)
        as (added & Hrun & Hnew & Hfind).
      exists added. split; [exact Hrun |]. split; [exact Hnew |].
      intros s. rewrite Hfind. cbn [assoc].
      destruct (Store.find es_b s) eqn:Hs; [reflexivity |].
      destruct (String.eqb_spec subkey s) as [<- | _]; [| reflexivity].
      unfold Store.has in Hhas. rewrite Hs in Hhas. discriminate Hhas.
    + apply has_find in Hhas.
      rewrite (@sbind_run _ _ _ _ _ st tt
                 (Store.update st b
                    (CDict (es_b ++ [(YStr subkey, subvalue)])))).
      2:{ rewrite sbind_look. cbn [Store.getitem]. rewrite Ha, Hkey.
          unfold Universal.assign. cbn [Store.setitem]. rewrite Hb.
          rewrite (set_missing _ _ subvalue Hhas). reflexivity. }
      set (es_b1 := es_b ++ [(YStr subkey, subvalue)]).
      set (st1 := Store.update st b (CDict es_b1)).
      assert (Hb1 : nth_error st1 b = Some (CDict es_b1))
        by (eapply nth_error_update_same; exact Hb).
      assert (Ha1 : exists es_a1,
                 nth_error st1 a = Some (CDict es_a1) /\
                 Store.find es_a1 key = Some (RAddr b)).
      { destruct (Nat.eq_dec a b) as [-> | Hneq].
        - exists es_b1. split; [exact Hb1 |].
          rewrite Ha in Hb. inversion Hb; subst es_b.
          unfold es_b1. rewrite find_app, Hkey. reflexivity.
        - exists es_a. split; [| exact Hkey].
          unfold st1. rewrite nth_error_update_other by exact Hneq.
          exact Ha. }
      destruct Ha1 as (es_a1 & Ha1 & Hkey1).
      destruct (IH st1 a es_a1 es_b1 Ha1 Hkey1 Hb1)
        as (added & Hrun & Hnew & Hfind).
      exists ((YStr subkey, subvalue) :: added).
      split; [| split].
      * rewrite Hrun. unfold st1. rewrite update_update.
        unfold es_b1. rewrite <- app_assoc. reflexivity.
      * cbn [new_entries]. split; [exact Hhas | exact Hnew].
      * intros s.
        change (es_b ++ (YStr subkey, subvalue) :: added)
          with (es_b ++ [(YStr subkey, subvalue)] ++ added).
        rewrite app_assoc. fold es_b1. rewrite Hfind.
        unfold es_b1. rewrite find_app. cbn [assoc Store.find].
        destruct (Store.find es_b s); [reflexivity |].
        destruct (String.eqb subkey s); reflexivity.
Qed.

(** *** One default *)

Ltac look_step := rewrite sbind_look; cbv beta.

Lemma low_items : forall st value,
  (forall x, x < 7 -> nth_error st x = nth_error Universal.default_store x) ->
  (forall d, value = RAddr d -> d < 7) ->
  Store.items st value = sub_items value.
Proof.
  intros st value Hlow Hd. destruct value; try reflexivity.
  unfold sub_items, Store.items. rewrite (Hlow a (Hd a eq_refl)).
  reflexivity.
Qed.

Lemma not_dict_no_items : forall st v,
  Store.is_dict st v = false -> Store.items st v = [].
Proof.
  intros st v. unfold Store.is_dict, Store.items.
  destruct v; try reflexivity.
  destruct (nth_error st a) as [[| | |] |]; try reflexivity; discriminate.
Qed.

(** An object that a step leaves alone. *)
Lemma unchanged_object : forall (st1 : store) x c
    (inner : string -> option ref_val),
  nth_error st1 x = Some c ->
  (forall es s, c = CDict es -> inner s = None) ->
  match c with
  | CDict es =>
      exists added,
        nth_error st1 x = Some (CDict (es ++ added)) /\
        new_entries es added /\
        forall s,
          Store.find (es ++ added) s
          = match Store.find es s with
            | Some v => Some v
            | None => inner s
            end
  | _ => nth_error st1 x = Some c
  end.
Proof.
  intros st1 x c inner Hx Hinner. destruct c; try exact Hx.
  exists []. rewrite app_nil_r. split; [exact Hx |].
  split; [exact I |].
  intros s. rewrite (Hinner entries s eq_refl).
  destruct (Store.find entries s); reflexivity.
Qed.

(** One turn of the loop over the defaults: a key that the root
    dictionary lacks is given to it, with the default as its value; under
    a key it has, the dictionary that is its value gets what it lacks of
    the default dictionary; nothing else changes. *)
Lemma merge_step_run : forall key value rest st a es_a,
  nth_error st a = Some (CDict es_a) ->
  7 <= a ->
  (forall b, Store.find es_a key = Some (RAddr b) -> 7 <= b) ->
  (forall x, x < 7 -> nth_error st x = nth_error Universal.default_store x) ->
  (forall d, value = RAddr d -> d < 7) ->
  exists st1,
    Universal.merge_defaults (RAddr a) ((key, value) :: rest) st
    = Universal.merge_defaults (RAddr a) rest st1
    /\ List.length st1 = List.length st
    /\ (forall x, x < 7 -> nth_error st1 x = nth_error st x)
    /\ forall x c,
         nth_error st x = Some c ->
         match c with
         | CDict es =>
             exists added,
               nth_error st1 x = Some (CDict (es ++ added)) /\
               new_entries es added /\
               forall s,
                 Store.find (es ++ added) s
                 = match Store.find es s with
                   | Some v => Some v
                   | None =>
                       match Store.find es_a key with
                       | None =>
                           if (x =? a) && String.eqb key s
                           then Some value else None
                       | Some (RAddr b) =>
                           if b =? x then assoc (sub_items value) s
                           else None
                       | Some _ => None
                       end
                   end
         | _ => nth_error st1 x = Some c
         end.
Proof.
  intros key value rest st a es_a Ha Hage Hvals Hlow Hdef.
  pose proof (@low_items st value Hlow Hdef) as Hitems.
  cbn [Universal.merge_defaults].
  destruct (Store.find es_a key) as [cur |] eqn:Hkey.
  - assert (Hpresent : Store.has es_a key = true)
      by (unfold Store.has; rewrite Hkey; reflexivity).
    destruct (Store.is_dict st value) eqn:Hvalue.
    + destruct (Store.is_dict st cur) eqn:Hcur.
      * destruct cur as [| | | | | | | b]; try discriminate Hcur.
        cbn [Store.is_dict] in Hcur.
        destruct (nth_error st b) as [[| | | es_b] |] eqn:Hb;
          try discriminate Hcur.
        destruct (@merge_subkeys_run key b (sub_items value) st a es_a es_b
                    Ha Hkey Hb) as (added & Hrun & Hnew & Hfind).
        exists (Store.update st b (CDict (es_b ++ added))).
        split.
        { look_step. cbn [Store.str_in].
          rewrite Ha, Hpresent. cbn [negb].
          erewrite sbind_run; [reflexivity |]. look_step. rewrite Hvalue.
          look_step. cbn [Store.getitem]. rewrite Ha, Hkey.
          look_step. cbn [Store.is_dict]. rewrite Hb.
          look_step. rewrite Hitems. exact Hrun. }
        split; [apply length_update |].
        assert (Hb7 : 7 <= b) by (apply Hvals; reflexivity).
        split.
        { intros x Hx. apply nth_error_update_other. lia. }
        intros x c Hx. destruct (Nat.eq_dec x b) as [-> | Hneq].
        -- rewrite Hb in Hx. inversion Hx; subst c.
           exists added. split; [eapply nth_error_update_same; exact Hb |].
           split; [exact Hnew |].
           intros s. rewrite Hfind, Nat.eqb_refl. reflexivity.
        -- apply (@unchanged_object _ x c
                    (fun s => if b =? x then assoc (sub_items value) s
                              else None)).
           ++ rewrite (nth_error_update_other _ _ Hneq). exact Hx.
           ++ intros es s _. destruct (Nat.eqb_spec b x) as [<- |];
                [contradiction Hneq |]; reflexivity.
      * exists st. split.
        { look_step. cbn [Store.str_in].
          rewrite Ha, Hpresent. cbn [negb].
          erewrite sbind_run; [reflexivity |]. look_step. rewrite Hvalue.
          look_step. cbn [Store.getitem]. rewrite Ha, Hkey.
          look_step. rewrite Hcur. reflexivity. }
        split; [reflexivity |]. split; [reflexivity |].
        intros x c Hx.
        apply (@unchanged_object _ x c
                 (fun s => match cur with
                           | RAddr b =>
                               if b =? x then assoc (sub_items value) s
                               else None
                           | _ => None
                           end)); [exact Hx |].
        intros es s ->. destruct cur; try reflexivity.
        destruct (Nat.eqb_spec a0 x) as [-> |]; [| reflexivity].
        cbn [Store.is_dict] in Hcur. rewrite Hx in Hcur.
        discriminate Hcur.
    + exists st. split.
      { look_step. cbn [Store.str_in].
        rewrite Ha, Hpresent. cbn [negb].
          erewrite sbind_run; [reflexivity |]. look_step. rewrite Hvalue.
        reflexivity. }
      split; [reflexivity |]. split; [reflexivity |].
      assert (Hnone : sub_items value = [])
        by (rewrite <- Hitems; apply not_dict_no_items, Hvalue).
      intros x c Hx.
      apply (@unchanged_object _ x c
               (fun s => match cur with
                         | RAddr b =>
                             if b =? x then assoc (sub_items value) s
                             else None
                         | _ => None
                         end)); [exact Hx |].
      intros es s _. rewrite Hnone. destruct cur; try reflexivity.
      destruct (a0 =? x); reflexivity.
  - assert (Habsent : Store.has es_a key = false)
      by (unfold Store.has; rewrite Hkey; reflexivity).
    exists (Store.update st a (CDict (es_a ++ [(YStr key, value)]))).
    split.
    { look_step. cbn [Store.str_in].
      rewrite Ha, Habsent. cbn [negb].
          erewrite sbind_run; [reflexivity |].
      unfold Universal.assign. cbn [Store.setitem]. rewrite Ha.
      rewrite (set_missing _ _ value Hkey). reflexivity. }
    split; [apply length_update |].
    split.
    { intros x Hx. apply nth_error_update_other. lia. }
    intros x c Hx. destruct (Nat.eq_dec x a) as [-> | Hneq].
    + rewrite Ha in Hx. inversion Hx; subst c.
      exists [(YStr key, value)].
      split; [eapply nth_error_update_same; exact Ha |].
      split; [cbn [new_entries]; auto |].
      intros s. rewrite find_app, Nat.eqb_refl. cbn [Store.find andb].
      destruct (Store.find es_a s); [reflexivity |].
      destruct (String.eqb key s); reflexivity.
    + apply (@unchanged_object _ x c
               (fun s => if (x =? a) && String.eqb key s
                         then Some value else None)).
      * rewrite (nth_error_update_other _ _ Hneq). exact Hx.
      * intros es s _. destruct (Nat.eqb_spec x a) as [-> |];
          [contradiction Hneq |]; reflexivity.
Qed.

(** *** All the defaults *)

Lemma assoc_app : forall l1 l2 s,
  assoc (l1 ++ l2) s
  = match assoc l1 s with
    | Some v => Some v
    | None => assoc l2 s
    end.
Proof.
  induction l1 as [| [k v] l1 IH]; intros l2 s; cbn [app assoc];
    [reflexivity |].
  destruct (String.eqb k s); [reflexivity | apply IH].
Qed.

Lemma assoc_none : forall l s, ~ In s (map fst l) -> assoc l s = None.
Proof.
  induction l as [| [k v] l IH]; intros s H; cbn [assoc]; [reflexivity |].
  destruct (String.eqb_spec k s) as [-> | _].
  - contradiction H. left. reflexivity.
  - apply IH. intros Hin. apply H. right. exact Hin.
Qed.

Lemma assoc_in : forall l s v, assoc l s = Some v -> In (s, v) l.
Proof.
  induction l as [| [k x] l IH]; intros s v H; cbn [assoc] in H;
    [discriminate |].
  destruct (String.eqb_spec k s) as [-> | _].
  - inversion H. left. reflexivity.
  - right. apply IH, H.
Qed.

Lemma supplied_ext : forall defaults a es1 es x s,
  (forall k, In k (map fst defaults) -> Store.find es1 k = Store.find es k) ->
  supplied defaults a es1 x s = supplied defaults a es x s.
Proof.
  intros defaults a es1 es x s H. unfold supplied, merged_into.
  rewrite (@filter_ext_in _
             (fun entry => match Store.find es1 (fst entry) with
                           | Some (RAddr b') => b' =? x
                           | _ => false
                           end)
             (fun entry => match Store.find es (fst entry) with
                           | Some (RAddr b') => b' =? x
                           | _ => false
                           end)); [reflexivity |].
  intros [k v] Hin. cbn [fst]. rewrite H; [reflexivity |].
  apply (in_map fst) in Hin. exact Hin.
Qed.

(** What the defaults supply, one default after the other. *)
Lemma supplied_cons : forall key value rest a es_a x s,
  (x = a -> Store.find es_a s = None) ->
  (assoc (sub_items value) s <> None -> assoc rest s = None) ->
  supplied ((key, value) :: rest) a es_a x s
  = match
      match Store.find es_a key with
      | None => if (x =? a) && String.eqb key s then Some value else None
      | Some (RAddr b) => if b =? x then assoc (sub_items value) s else None
      | Some _ => None
      end
    with
    | Some v => Some v
    | None => supplied rest a es_a x s
    end.
Proof.
  intros key value rest a es_a x s Hroot Hsep.
  unfold supplied, merged_into. cbn [filter fst snd assoc].
  assert (Hkey : forall v, Store.find es_a key = Some v ->
                           (if x =? a
                            then if String.eqb key s then Some value
                                 else assoc rest s
                            else None)
                           = (if x =? a then assoc rest s else None)).
  { intros v Hv. destruct (Nat.eqb_spec x a) as [Hx |]; [| reflexivity].
    destruct (String.eqb_spec key s) as [-> |]; [| reflexivity].
    rewrite (Hroot Hx) in Hv. discriminate Hv. }
  destruct (Store.find es_a key) as [cur |] eqn:Hcur.
  - rewrite (Hkey cur eq_refl).
    destruct cur as [| | | | | | | b]; try reflexivity.
    destruct (b =? x); [| reflexivity].
    cbn [flat_map snd]. rewrite assoc_app.
    destruct (assoc (sub_items value) s) as [v |] eqn:Hsub;
      [| reflexivity].
    rewrite Hsep by discriminate.
    destruct (x =? a); reflexivity.
  - destruct (x =? a); cbn [andb]; [| reflexivity].
    destruct (String.eqb key s); reflexivity.
Qed.

(** The loop over the defaults: every dictionary of the store gets,
    after its own entries, what the defaults supply for the keys it did
    not have; the objects of the defaults and every object that is not a
    dictionary stay as they are. *)
Lemma merge_defaults_run : forall defaults st a es_a,
  nth_error st a = Some (CDict es_a) ->
  7 <= a ->
  (forall key b, In key (map fst defaults) ->
                 Store.find es_a key = Some (RAddr b) -> 7 <= b) ->
  (forall x, x < 7 -> nth_error st x = nth_error Universal.default_store x) ->
  (forall key value d, In (key, value) defaults -> value = RAddr d -> d < 7) ->
  NoDup (map fst defaults) ->
  (forall key value s,
      In (key, value) defaults -> assoc (sub_items value) s <> None ->
      ~ In s (map fst defaults)) ->
  exists st',
    Universal.merge_defaults (RAddr a) defaults st = ((inr tt, st'), [])
    /\ List.length st' = List.length st
    /\ (forall x, x < 7 -> nth_error st' x = nth_error st x)
    /\ forall x c,
         nth_error st x = Some c ->
         match c with
         | CDict es =>
             exists added,
               nth_error st' x = Some (CDict (es ++ added)) /\
               new_entries es added /\
               forall s,
                 Store.find (es ++ added) s
                 = match Store.find es s with
                   | Some v => Some v
                   | None => supplied defaults a es_a x s
                   end
         | _ => nth_error st' x = Some c
         end.
Proof.
  induction defaults as [| [key value] rest IH];
    intros st a es_a Ha Hage Hvals Hlow Hdef Hnodup Hsep.
  - exists st. split; [reflexivity |]. split; [reflexivity |].
    split; [reflexivity |]. intros x c Hx.
    apply (@unchanged_object st x c (fun s => supplied [] a es_a x s));
      [exact Hx |].
    intros es s _. unfold supplied. cbn. destruct (x =? a); reflexivity.
  - destruct (@merge_step_run key value rest st a es_a Ha Hage
                (fun b => Hvals key b (or_introl eq_refl)) Hlow
                (fun d => Hdef key value d (or_introl eq_refl)))
      as (st1 & Hrun1 & Hlen1 & Hlow1 & Hpt1).
    destruct (Hpt1 a _ Ha) as (add_a & Ha1 & _ & Hfind_a1).
    inversion Hnodup as [| k ks Hfresh Hnodup']; subst.
    assert (Hstable : forall k,
               In k (map fst rest) ->
               Store.find (es_a ++ add_a) k = Store.find es_a k).
    { intros k Hk. rewrite Hfind_a1.
      destruct (Store.find es_a k) eqn:Hfk; [reflexivity |].
      rewrite Nat.eqb_refl. cbn [andb].
      destruct (Store.find es_a key) as [cur |] eqn:Hkey.
      - destruct cur as [| | | | | | | b]; try reflexivity.
        destruct (b =? a); [| reflexivity].
        destruct (assoc (sub_items value) k) eqn:Hsub; [| reflexivity].
        exfalso.
        apply (Hsep key value k (or_introl eq_refl));
          [rewrite Hsub; discriminate | right; exact Hk].
      - destruct (String.eqb_spec key k) as [-> |]; [| reflexivity].
        contradiction. }
    destruct (IH st1 a (es_a ++ add_a) Ha1 Hage) as (st' & Hrun & Hlen & Hlow' & Hpt).
    { intros k b Hk Hb. rewrite (Hstable k Hk) in Hb.
      apply (Hvals k b); [right; exact Hk | exact Hb]. }
    { intros x Hx. rewrite (Hlow1 x Hx). apply Hlow, Hx. }
    { intros k v d Hin. apply (Hdef k v d). right. exact Hin. }
    { exact Hnodup'. }
    { intros k v s Hin Hsub Hs.
      apply (Hsep k v s); [right; exact Hin | exact Hsub | right; exact Hs]. }
    exists st'. split; [rewrite Hrun1; exact Hrun |].
    split; [rewrite Hlen; exact Hlen1 |].
    split; [intros x Hx; rewrite (Hlow' x Hx); apply Hlow1, Hx |].
    intros x c Hx. specialize (Hpt1 x c Hx).
    destruct c as [items | items | items | es];
      try (apply (Hpt x _ Hpt1)).
    destruct Hpt1 as (add1 & Hx1 & Hnew1 & Hfind1).
    destruct (Hpt x _ Hx1) as (add2 & Hx' & Hnew2 & Hfind2).
    exists (add1 ++ add2). split; [rewrite app_assoc; exact Hx' |].
    split; [apply new_entries_app; assumption |].
    rewrite app_assoc. intros s. rewrite Hfind2, Hfind1.
    destruct (Store.find es s) eqn:Hs; [reflexivity |].
    rewrite (@supplied_ext rest a (es_a ++ add_a) es_a x s Hstable).
    rewrite (@supplied_cons key value rest a es_a x s); [reflexivity | |].
    + intros ->. rewrite Ha in Hx. inversion Hx; subst es. exact Hs.
    + intros Hsub. apply assoc_none. intros Hin.
      apply (Hsep key value s (or_introl eq_refl) Hsub). right. exact Hin.
Qed.

(** *** The defaults and the loaded document *)

Lemma default_items_eq :
  default_items
  = [ ("log_level", RStr "INFO"); ("max_workers", RInt 4);
      ("processors", RAddr 2); ("output_dir", RStr "input/markdown");
      ("backup_dir", RStr "input/originals"); ("file_extensions", RAddr 5) ].
Proof. reflexivity. Qed.

(** The objects of the defaults are those that evaluating the literal
    [default_config] builds. *)
Lemma default_objects :
  Store.alloc Universal.default_config []
  = (Universal.default_store, Universal.default_root).
Proof. reflexivity. Qed.

Lemma default_items_nodup : NoDup (map fst default_items).
Proof.
  rewrite default_items_eq. cbn [map fst].
  repeat constructor; cbn [In]; intuition discriminate.
Qed.

Lemma default_items_low : forall key value d,
  In (key, value) default_items -> value = RAddr d -> d < 7.
Proof.
  intros key value d Hin ->. rewrite default_items_eq in Hin.
  cbn [In] in Hin.
  repeat (destruct Hin as [Hin | Hin]; [inversion Hin; subst; lia |]).
  contradiction.
Qed.

(** No sub-key of a default dictionary is a top-level default key. *)
Lemma default_items_apart : forall key value s,
  In (key, value) default_items ->
  assoc (sub_items value) s <> None ->
  ~ In s (map fst default_items).
Proof.
  intros key value s Hin Hsub.
  assert (Hs : s = "word" \/ s = "pdf").
  { rewrite default_items_eq in Hin. cbn [In] in Hin.
    destruct Hin as [Hin | [Hin | [Hin | [Hin | [Hin | [Hin | []]]]]]];
      inversion Hin; subst; clear Hin;
      try (exfalso; apply Hsub; reflexivity).
    - change (sub_items (RAddr 2))
        with [("word", RAddr 0); ("pdf", RAddr 1)] in Hsub.
      cbn [assoc] in Hsub.
      destruct (String.eqb_spec "word" s) as [Heq |]; [left; auto |].
      destruct (String.eqb_spec "pdf" s) as [Heq |]; [right; auto |].
      exfalso. apply Hsub. reflexivity.
    - change (sub_items (RAddr 5))
        with [("word", RAddr 3); ("pdf", RAddr 4)] in Hsub.
      cbn [assoc] in Hsub.
      destruct (String.eqb_spec "word" s) as [Heq |]; [left; auto |].
      destruct (String.eqb_spec "pdf" s) as [Heq |]; [right; auto |].
      exfalso. apply Hsub. reflexivity. }
  rewrite default_items_eq. cbn [map fst In].
  destruct Hs as [-> | ->]; intuition discriminate.
Qed.

Lemma loaded_low : forall doc x,
  x < 7 ->
  nth_error (loaded_store doc) x = nth_error Universal.default_store x.
Proof.
  intros doc x Hx. unfold loaded_store. apply nth_error_app1. exact Hx.
Qed.

Lemma loaded_defaults : forall doc,
  Store.items (loaded_store doc) Universal.default_root = default_items.
Proof. reflexivity. Qed.

Lemma find_relocated : forall n es s,
  Store.find (map (fun kv : ykey * ref_val =>
                     (fst kv, Store.relocate n (snd kv))) es) s
  = option_map (Store.relocate n) (Store.find es s).
Proof.
  intros n es s; induction es as [| [[k | r] v] es IH];
    cbn [map Store.find fst snd]; [reflexivity | | exact IH].
  destruct (String.eqb k s); [reflexivity | exact IH].
Qed.

(** The containers of a loaded document hold containers of the document
    only. *)
Lemma loaded_values : forall doc x es key b,
  nth_error (loaded_store doc) x = Some (CDict es) ->
  7 <= x ->
  Store.find es key = Some (RAddr b) ->
  7 <= b.
Proof.
  intros doc x es key b Hx Hge Hfind. unfold loaded_store in Hx.
  rewrite nth_error_app2 in Hx by exact Hge.
  rewrite nth_error_map in Hx.
  destruct (nth_error (objects doc) (x - List.length Universal.default_store))
    as [[| | | es0] |]; try discriminate Hx.
  cbn [option_map Store.relocate_container] in Hx. inversion Hx; subst es.
  rewrite find_relocated in Hfind.
  destruct (Store.find es0 key) as [[| | | | | | | b0] |];
    try discriminate Hfind.
  cbn in Hfind. inversion Hfind. lia.
Qed.

Lemma loaded_root_address : forall doc a,
  loaded_root doc = RAddr a -> 7 <= a.
Proof.
  intros doc a H. unfold loaded_root in H.
  destruct (root doc); try discriminate H.
  cbn in H. inversion H. lia.
Qed.

Lemma dict_at_nth : forall st a es,
  dict_at st (RAddr a) = Some es -> nth_error st a = Some (CDict es).
Proof.
  intros st a es H. cbn [dict_at] in H.
  destruct (nth_error st a) as [[| | | es0] |]; try discriminate H.
  inversion H. reflexivity.
Qed.

(** The [try] block of [_load_config] on a file that loads. *)
Lemma load_block : forall w path doc,
  yaml_safe_load w path = inr doc ->
  Universal.sbind (Universal.load w path)
    (fun config =>
       Universal.sbind
         (Universal.look
            (fun st => inr (Store.items st Universal.default_root)))
         (fun defaults =>
            Universal.sbind (Universal.merge_defaults config defaults)
              (fun _ => Universal.sret config)))
    Universal.default_store
  = Universal.sbind
      (Universal.merge_defaults (loaded_root doc) default_items)
      (fun _ => Universal.sret (loaded_root doc)) (loaded_store doc).
Proof.
  intros w path doc Hload.
  erewrite sbind_run.
  2:{ unfold Universal.load. rewrite Hload. reflexivity. }
  look_step. reflexivity.
Qed.

(** When the file holds a dictionary, [_load_config] returns it with the
    defaults merged in, and logs nothing. *)
Lemma load_config_dictionary : forall w path doc a es_a,
  PyStr.nonempty path = true ->
  os_path_exists w path = true ->
  yaml_safe_load w path = inr doc ->
  loaded_root doc = RAddr a ->
  dict_at (loaded_store doc) (RAddr a) = Some es_a ->
  exists st,
    Universal._load_config w (Some path) = (inr (st, RAddr a), [])
    /\ List.length st = List.length (loaded_store doc)
    /\ (forall x, x < 7 ->
                  nth_error st x = nth_error Universal.default_store x)
    /\ forall x c,
         nth_error (loaded_store doc) x = Some c ->
         match c with
         | CDict es =>
             exists added,
               nth_error st x = Some (CDict (es ++ added)) /\
               new_entries es added /\
               forall s,
                 Store.find (es ++ added) s
                 = match Store.find es s with
                   | Some v => Some v
                   | None => supplied default_items a es_a x s
                   end
         | _ => nth_error st x = Some c
         end.
Proof.
  intros w path doc a es_a Hpath Hexists Hload Hroot Hdict.
  apply dict_at_nth in Hdict.
  pose proof (loaded_root_address doc Hroot) as Hage.
  destruct (@merge_defaults_run default_items (loaded_store doc) a es_a
              Hdict Hage)
    as (st & Hrun & Hlen & Hlow & Hpt).
  { intros key b _ Hb. eapply loaded_values; eassumption. }
  { intros x Hx. apply loaded_low, Hx. }
  { exact default_items_low. }
  { exact default_items_nodup. }
  { exact default_items_apart. }
  exists st. split.
  - unfold Universal._load_config.
    destruct path as [| c path]; [discriminate Hpath |].
    rewrite Hexists. cbn [negb].
    unfold Universal.with_store, Universal.stry_except.
    rewrite (load_block w (String c path) Hload), Hroot.
    erewrite sbind_run by exact Hrun. reflexivity.
  - split; [exact Hlen |]. split; [| exact Hpt].
    intros x Hx. rewrite (Hlow x Hx). apply loaded_low, Hx.
Qed.

(** *** A file that holds no dictionary *)

Lemma str_in_error : forall st s v e,
  Store.str_in st s v = inl e -> exn_cls e = TypeError.
Proof.
  intros st s v e H. destruct v; cbn in H; try discriminate H;
    try (inversion H; reflexivity).
  destruct (nth_error st a) as [[| | |] |]; inversion H; reflexivity.
Qed.

Lemma getitem_no_dict : forall st v s,
  Store.is_dict st v = false ->
  exists e, Store.getitem st v s = inl e /\ exn_cls e = TypeError.
Proof.
  intros st v s H. destruct v; cbn in *;
    try (eexists; split; reflexivity).
  destruct (nth_error st a) as [[| | |] |]; try discriminate H;
    eexists; split; reflexivity.
Qed.

Lemma setitem_no_dict : forall st v s x,
  Store.is_dict st v = false ->
  exists e, Store.setitem st v s x = inl e /\ exn_cls e = TypeError.
Proof.
  intros st v s x H. destruct v; cbn in *;
    try (eexists; split; reflexivity).
  destruct (nth_error st a) as [[| | |] |]; try discriminate H;
    eexists; split; reflexivity.
Qed.

(** On a value that is no dictionary a turn of the loop raises a
    TypeError, or passes on because the key is found in the value and its
    default is no dictionary; the store stays as it is. *)
Lemma no_dict_step : forall st config key value rest,
  Store.is_dict st config = false ->
  (exists e,
      Universal.merge_defaults config ((key, value) :: rest) st
      = ((inl e, st), []) /\ exn_cls e = TypeError)
  \/ (Store.is_dict st value = false /\
      Universal.merge_defaults config ((key, value) :: rest) st
      = Universal.merge_defaults config rest st).
Proof.
  intros st config key value rest Hconfig.
  cbn [Universal.merge_defaults]. look_step.
  destruct (Store.str_in st key config) as [e | present] eqn:Hin.
  { left. exists e. split; [reflexivity |].
    eapply str_in_error. exact Hin. }
  destruct present; cbn [negb].
  - destruct (Store.is_dict st value) eqn:Hvalue.
    + left. destruct (getitem_no_dict st config key Hconfig)
        as (e & Hget & Hcls).
      exists e. split; [| exact Hcls].
      erewrite sbind_raise; [reflexivity |].
      look_step. rewrite Hvalue. look_step. rewrite Hget. reflexivity.
    + right. split; [reflexivity |].
      erewrite sbind_run; [reflexivity |].
      look_step. rewrite Hvalue. reflexivity.
  - left. destruct (setitem_no_dict st config key value Hconfig)
      as (e & Hset & Hcls).
    exists e. split; [| exact Hcls].
    erewrite sbind_raise; [reflexivity |].
    unfold Universal.assign. rewrite Hset. reflexivity.
Qed.

(** The loop over the defaults raises a TypeError on a value that is no
    dictionary, at the latest at "processors", and changes nothing. *)
Lemma merge_defaults_type_error : forall doc config,
  Store.is_dict (loaded_store doc) config = false ->
  exists e,
    Universal.merge_defaults config default_items (loaded_store doc)
    = ((inl e, loaded_store doc), []) /\
    exn_cls e = TypeError.
Proof.
  intros doc config Hconfig. rewrite default_items_eq.
  destruct (@no_dict_step (loaded_store doc) config "log_level" (RStr "INFO")
              [ ("max_workers", RInt 4); ("processors", RAddr 2);
                ("output_dir", RStr "input/markdown");
                ("backup_dir", RStr "input/originals");
                ("file_extensions", RAddr 5) ] Hconfig)
    as [He | [_ ->]]; [exact He |].
  destruct (@no_dict_step (loaded_store doc) config "max_workers" (RInt 4)
              [ ("processors", RAddr 2);
                ("output_dir", RStr "input/markdown");
                ("backup_dir", RStr "input/originals");
                ("file_extensions", RAddr 5) ] Hconfig)
    as [He | [_ ->]]; [exact He |].
  destruct (@no_dict_step (loaded_store doc) config "processors" (RAddr 2)
              [ ("output_dir", RStr "input/markdown");
                ("backup_dir", RStr "input/originals");
                ("file_extensions", RAddr 5) ] Hconfig)
    as [He | [Hvalue _]]; [exact He |].
  discriminate Hvalue.
Qed.

Lemma load_config_no_dictionary : forall w path doc,
  PyStr.nonempty path = true ->
  os_path_exists w path = true ->
  yaml_safe_load w path = inr doc ->
  Store.is_dict (loaded_store doc) (loaded_root doc) = false ->
  exists e,
    exn_cls e = TypeError /\
    Universal._load_config w (Some path)
    = (inr (loaded_store doc, Universal.default_root), [config_error e]).
Proof.
  intros w path doc Hpath Hexists Hload Hroot.
  destruct (merge_defaults_type_error doc _ Hroot) as (e & Hrun & Hcls).
  exists e. split; [exact Hcls |].
  unfold Universal._load_config.
  destruct path as [| c path]; [discriminate Hpath |].
  rewrite Hexists. cbn [negb].
  unfold Universal.with_store, Universal.stry_except.
  rewrite (load_block w (String c path) Hload).
  erewrite sbind_raise by exact Hrun. reflexivity.
Qed.

Lemma is_dict_at : forall st v,
  Store.is_dict st v = true <-> exists a es, v = RAddr a /\ dict_at st (RAddr a) = Some es.
Proof.
  intros st v. split.
  - intros H. destruct v; try discriminate H. exists a.
    cbn in *. destruct (nth_error st a) as [[| | | es] |];
      try discriminate H.
    exists es. split; reflexivity.
  - intros (a & es & -> & H). cbn in *.
    destruct (nth_error st a) as [[| | | es0] |]; try discriminate H.
    reflexivity.
Qed.

(** *** The cases of [_load_config] *)

Lemma load_config_no_file : forall w config_path,
  match config_path with
  | None => True
  | Some path =>
      PyStr.nonempty path && os_path_exists w path = false
  end ->
  Universal._load_config w config_path
  = (inr (Universal.default_store, Universal.default_root), []).
Proof.
  intros w [[| c path] |] H; try reflexivity.
  cbn [PyStr.nonempty andb] in H. unfold Universal._load_config.
  rewrite H. reflexivity.
Qed.

Lemma load_config_load_error : forall w path e,
  PyStr.nonempty path = true ->
  os_path_exists w path = true ->
  yaml_safe_load w path = inl e ->
  Universal._load_config w (Some path)
  = (inr (Universal.default_store, Universal.default_root),
     [config_error e]).
Proof.
  intros w path e Hpath Hexists Hload.
  unfold Universal._load_config.
  destruct path as [| c path]; [discriminate Hpath |].
  rewrite Hexists. cbn [negb].
  unfold Universal.with_store, Universal.stry_except.
  erewrite sbind_raise.
  2:{ unfold Universal.load. rewrite Hload. reflexivity. }
  reflexivity.
Qed.

Lemma default_has_top_level_keys : forall more,
  has_top_level_keys (Universal.default_store ++ more)
    Universal.default_root.
Proof.
  intros more. eexists. split; [reflexivity |].
  intros key Hkey. cbn [top_level_keys In] in Hkey.
  repeat (destruct Hkey as [<- | Hkey]; [reflexivity |]).
  contradiction.
Qed.

Lemma firstn_low : forall (st : store),
  7 <= List.length st ->
  (forall x, x < 7 -> nth_error st x = nth_error Universal.default_store x) ->
  defaults_intact st.
Proof.
  intros st Hlen Hlow. unfold defaults_intact.
  apply nth_error_ext. intros n. rewrite nth_error_firstn.
  change (List.length Universal.default_store) with 7.
  destruct (Nat.ltb_spec n 7) as [Hn | Hn].
  - apply Hlow, Hn.
  - symmetry. apply nth_error_None. exact Hn.
Qed.

Lemma loaded_store_length : forall doc, 7 <= List.length (loaded_store doc).
Proof.
  intros doc. unfold loaded_store. rewrite length_app.
  change (List.length Universal.default_store) with 7. lia.
Qed.

(** What [_load_config] returns for a file that holds a dictionary, in
    the words of the statements. *)
Lemma load_config_merged : forall w path doc a es_a,
  PyStr.nonempty path = true ->
  os_path_exists w path = true ->
  yaml_safe_load w path = inr doc ->
  loaded_root doc = RAddr a ->
  dict_at (loaded_store doc) (RAddr a) = Some es_a ->
  exists st,
    Universal._load_config w (Some path) = (inr (st, RAddr a), [])
    /\ has_top_level_keys st (RAddr a)
    /\ defaults_intact st
    /\ merged_one_level doc a es_a st.
Proof.
  intros w path doc a es_a Hpath Hexists Hload Hroot Hdict.
  destruct (load_config_dictionary w path Hpath Hexists Hload Hroot Hdict)
    as (st & Hrun & Hlen & Hlow & Hpt).
  exists st. split; [exact Hrun |].
  assert (Hkeeps : keeps_objects (loaded_store doc) st).
  { split; [exact Hlen |]. intros x c Hx. specialize (Hpt x c Hx).
    destruct c; try exact Hpt.
    destruct Hpt as (added & Hx' & Hnew & _). exists added. auto. }
  split; [| split; [| split; [exact Hkeeps |]]].
  - destruct (Hpt a _ (dict_at_nth _ _ Hdict))
      as (added & Ha & _ & Hfind).
    exists (es_a ++ added). split; [cbn [dict_at]; rewrite Ha; reflexivity |].
    intros key Hkey. unfold Store.has. rewrite Hfind.
    destruct (Store.find es_a key); [reflexivity |].
    unfold supplied. rewrite Nat.eqb_refl.
    cbn [top_level_keys In] in Hkey.
    repeat (destruct Hkey as [<- | Hkey]; [reflexivity |]).
    contradiction.
  - apply firstn_low; [| exact Hlow].
    rewrite Hlen. apply loaded_store_length.
  - intros x es Hx. apply dict_at_nth in Hx.
    destruct (Hpt x _ Hx) as (added & Hx' & _ & Hfind).
    change (List.length Universal.default_store) with 7.
    destruct (Nat.leb_spec 7 x) as [Hge | Hlt].
    + exists (es ++ added). split; [cbn [dict_at]; rewrite Hx'; reflexivity |].
      exact Hfind.
    + exists es. split.
      * cbn [dict_at]. rewrite (Hlow x Hlt), <- (loaded_low doc Hlt), Hx.
        reflexivity.
      * intros s. destruct (Store.find es s); reflexivity.
Qed.

Lemma loaded_dictionary_some : forall w path doc a es_a,
  PyStr.nonempty path = true ->
  os_path_exists w path = true ->
  yaml_safe_load w path = inr doc ->
  loaded_root doc = RAddr a ->
  dict_at (loaded_store doc) (RAddr a) = Some es_a ->
  loaded_dictionary w (Some path) = Some (doc, a, es_a).
Proof.
  intros w path doc a es_a Hpath Hexists Hload Hroot Hdict.
  unfold loaded_dictionary.
  rewrite Hpath, Hexists, Hload, Hroot, Hdict. reflexivity.
Qed.

Lemma loaded_dictionary_none : forall w path doc,
  yaml_safe_load w path = inr doc ->
  Store.is_dict (loaded_store doc) (loaded_root doc) = false ->
  loaded_dictionary w (Some path) = None.
Proof.
  intros w path doc Hload Hroot. unfold loaded_dictionary.
  destruct (PyStr.nonempty path && os_path_exists w path); [| reflexivity].
  rewrite Hload.
  destruct (loaded_root doc) as [| | | | | | | a] eqn:Ha; try reflexivity.
  destruct (dict_at (loaded_store doc) (RAddr a)) as [es |] eqn:Hdict;
    [| reflexivity].
  assert (Htrue : Store.is_dict (loaded_store doc) (RAddr a) = true)
    by (apply is_dict_at; eauto).
  rewrite Htrue in Hroot. discriminate Hroot.
Qed.

(** C10, counterexample: with the partial [config.yaml] of the sample
    world, the list loaded under "file_extensions" is kept instead of a
    dictionary with the sub-keys "word" and "pdf", and the dictionary loaded
    under "processors" / "pdf" does not get the missing "enabled". *)
Lemma load_config_leaves_gaps :
  exists st result,
    result_of (Universal._load_config Sample.config_world
                 (Some "config.yaml")) = inr (st, result) /\
    Store.getitem st result "file_extensions" = inr (RAddr 8) /\
    nth_error st 8 = Some (CList [RStr ".pdf"]) /\
    Store.getitem st result "processors" = inr (RAddr 9) /\
    Store.getitem st (RAddr 9) "pdf" = inr (RAddr 10) /\
    Store.str_in st "enabled" (RAddr 10) = inr false /\
    ~ merged_as_stated st result.
Proof.
  do 2 eexists. repeat (split; [reflexivity |]).
  unfold merged_as_stated. vm_compute. discriminate.
Qed.

(** C10, amended: for every configuration path (missing, unreadable, not
    a dictionary or partial), [_load_config] returns a dictionary that has
    every top-level default key, and the objects of the defaults are as
    the literal built them.  It is the default configuration unless the
    file holds a dictionary; then it is that dictionary itself, and every
    object of the file is kept: a value that is not a dictionary stays as
    it is, also where the default is a dictionary, and a dictionary keeps
    its entries.  The root dictionary gets the default of every top-level
    key it lacks; a dictionary that is its value under the key of a
    default dictionary gets every sub-key it lacks with the value that
    default has for it (the first such default, if it is the value under
    several keys); no dictionary gets anything else, so a dictionary one
    level further down is not filled in. *)
Theorem load_config_merges_one_level :
  forall w config_path,
    exists st result,
      result_of (Universal._load_config w config_path) = inr (st, result) /\
      has_top_level_keys st result /\
      defaults_intact st /\
      match loaded_dictionary w config_path with
      | Some (doc, a, root_entries) =>
          result = RAddr a /\ merged_one_level doc a root_entries st
      | None => result = Universal.default_root
      end.
Proof.
  intros w config_path.
  assert (Hdefault :
            forall more t,
              Universal._load_config w config_path
              = (inr ((Universal.default_store ++ more)%list,
                      Universal.default_root), t) ->
              loaded_dictionary w config_path = None ->
              exists st result,
                result_of (Universal._load_config w config_path)
                = inr (st, result) /\
                has_top_level_keys st result /\
                defaults_intact st /\
                match loaded_dictionary w config_path with
                | Some (doc, a, root_entries) =>
                    result = RAddr a /\
                    merged_one_level doc a root_entries st
                | None => result = Universal.default_root
                end).
  { intros more t Hrun Hnone. rewrite Hrun, Hnone.
    exists (Universal.default_store ++ more)%list, Universal.default_root.
    split; [reflexivity |].
    split; [apply default_has_top_level_keys |].
    split; reflexivity. }
  destruct config_path as [path |].
  2:{ apply (Hdefault [] []); reflexivity. }
  destruct (PyStr.nonempty path && os_path_exists w path) eqn:Hfile.
  2:{ apply (Hdefault [] []).
      - apply load_config_no_file. exact Hfile.
      - unfold loaded_dictionary. rewrite Hfile. reflexivity. }
  apply andb_true_iff in Hfile. destruct Hfile as [Hpath Hexists].
  destruct (yaml_safe_load w path) as [e | doc] eqn:Hload.
  { apply (Hdefault [] [config_error e]).
    - apply load_config_load_error; assumption.
    - unfold loaded_dictionary. rewrite Hpath, Hexists, Hload. reflexivity. }
  destruct (Store.is_dict (loaded_store doc) (loaded_root doc)) eqn:Hroot.
  - apply is_dict_at in Hroot. destruct Hroot as (a & es_a & Hroot & Hdict).
    destruct (load_config_merged w path Hpath Hexists Hload Hroot Hdict)
      as (st & Hrun & Hkeys & Hintact & Hmerged).
    rewrite (loaded_dictionary_some w path Hpath Hexists Hload Hroot Hdict).
    exists st, (RAddr a). rewrite Hrun. auto.
  - destruct (load_config_no_dictionary w path Hpath Hexists Hload Hroot)
      as (e & _ & Hrun).
    apply (Hdefault
             (map (Store.relocate_container
                     (List.length Universal.default_store)) (objects doc))
             [config_error e]).
    + exact Hrun.
    + eapply loaded_dictionary_none; eassumption.
Qed.

(** C10 on the partial [config.yaml]: the dictionary of the file is
    returned with the four missing top-level keys; its "processors"
    dictionary gets the missing "word" with the default dictionary of the
    Word processor and keeps its "pdf"; the list under "file_extensions"
    and the dictionary under "processors" / "pdf" are kept as they
    are. *)
Lemma load_config_merges_one_level_witness :
  exists st root processors,
    result_of (Universal._load_config Sample.config_world
                 (Some "config.yaml")) = inr (st, RAddr 7) /\
    dict_at st (RAddr 7) = Some root /\
    Store.find root "file_extensions" = Some (RAddr 8) /\
    Store.find root "processors" = Some (RAddr 9) /\
    Store.find root "log_level" = Some (RStr "INFO") /\
    Store.find root "max_workers" = Some (RInt 4) /\
    Store.find root "output_dir" = Some (RStr "input/markdown") /\
    Store.find root "backup_dir" = Some (RStr "input/originals") /\
    nth_error st 8 = Some (CList [RStr ".pdf"]) /\
    dict_at st (RAddr 9) = Some processors /\
    Store.find processors "pdf" = Some (RAddr 10) /\
    Store.find processors "word" = Some (RAddr 0) /\
    nth_error st 10 = Some (CDict [(YStr "ocr_enabled", RBool false)]).
Proof.
  destruct (load_config_merges_one_level Sample.config_world
              (Some "config.yaml"))
    as (st & result & Hrun & _ & _ & Hloaded).
  change (loaded_dictionary Sample.config_world (Some "config.yaml"))
    with (Some (Sample.partial_config, 7,
                [ (YStr "file_extensions", RAddr 8);
                  (YStr "processors", RAddr 9) ])) in Hloaded.
  destruct Hloaded as [-> [[_ Hkept] Hfilled]].
  destruct (Hfilled 7 _ eq_refl) as (root & Hroot & Hfind_root).
  destruct (Hfilled 9 _ eq_refl) as (processors & Hproc & Hfind_proc).
  exists st, root, processors.
  split; [exact Hrun |]. split; [exact Hroot |].
  repeat (split; [rewrite Hfind_root; reflexivity |]).
  split; [exact (Hkept 8 _ eq_refl) |].
  split; [exact Hproc |].
  repeat (split; [rewrite Hfind_proc; reflexivity |]).
  destruct (Hkept 10 _ eq_refl) as (added & Hpdf & Hnew).
  destruct (Hfilled 10 _ eq_refl) as (pdf & Hpdf' & Hfind_pdf).
  cbn [dict_at] in Hpdf'. rewrite Hpdf in Hpdf'. inversion Hpdf'; subst pdf.
  rewrite Hpdf. f_equal. f_equal.
  destruct added as [| [[s | r] v] added]; [reflexivity | |];
    cbn [new_entries] in Hnew; [| contradiction].
  destruct Hnew as [Hs _]. specialize (Hfind_pdf s).
  change (Store.find [(YStr "ocr_enabled", RBool false)] s = None) in Hs.
  assert (Hnew : Store.find ([(YStr "ocr_enabled", RBool false)]
                             ++ (YStr s, v) :: added) s = Some v).
  { rewrite find_app, Hs. cbn [Store.find]. rewrite String.eqb_refl.
    reflexivity. }
  assert (Hnone : Store.find ([(YStr "ocr_enabled", RBool false)]
                              ++ (YStr s, v) :: added) s = None).
  { etransitivity; [exact Hfind_pdf |].
    change (match Store.find [(YStr "ocr_enabled", RBool false)] s with
            | Some v0 => Some v0
            | None => None
            end = None).
    rewrite Hs. reflexivity. }
  rewrite Hnew in Hnone. discriminate Hnone.
Defined.

(** *** What the merge means for one key *)

Lemma in_assoc : forall l k v,
  NoDup (map fst l) -> In (k, v) l -> assoc l k = Some v.
Proof.
  induction l as [| [k0 v0] l IH]; intros k v Hnodup Hin; [contradiction |].
  cbn [assoc]. inversion Hnodup as [| x xs Hfresh Hrest]; subst.
  destruct Hin as [Heq | Hin].
  - inversion Heq; subst. rewrite String.eqb_refl. reflexivity.
  - destruct (String.eqb_spec k0 k) as [-> |]; [| apply IH; assumption].
    contradiction Hfresh. apply (in_map fst) in Hin. exact Hin.
Qed.

(** A top-level key that the file does not set gets its default. *)
Lemma merged_fills_top_level : forall doc a root_entries st key value,
  merged_one_level doc a root_entries st ->
  dict_at (loaded_store doc) (RAddr a) = Some root_entries ->
  List.length Universal.default_store <= a ->
  In (key, value) default_items ->
  Store.find root_entries key = None ->
  exists es,
    dict_at st (RAddr a) = Some es /\ Store.find es key = Some value.
Proof.
  intros doc a root_entries st key value [_ Hfilled] Hroot Hage Hin Hnone.
  destruct (Hfilled a _ Hroot) as (es & Hes & Hfind).
  exists es. split; [exact Hes |].
  rewrite Hfind, Hnone.
  apply Nat.leb_le in Hage. rewrite Hage.
  unfold supplied. rewrite Nat.eqb_refl.
  rewrite (@in_assoc default_items key value default_items_nodup Hin).
  reflexivity.
Qed.

(** A sub-key that a loaded dictionary lacks gets the value the default
    dictionary has for it, where that dictionary is the value of the root
    under the key of this default only. *)
Lemma merged_fills_sub_keys :
  forall doc a root_entries st key value b es_b subkey subvalue,
    merged_one_level doc a root_entries st ->
    List.length Universal.default_store <= b ->
    In (key, value) default_items ->
    merged_into root_entries b default_items = [(key, value)] ->
    dict_at (loaded_store doc) (RAddr b) = Some es_b ->
    assoc (sub_items value) subkey = Some subvalue ->
    Store.find es_b subkey = None ->
    exists es,
      dict_at st (RAddr b) = Some es /\
      Store.find es subkey = Some subvalue.
Proof.
  intros doc a root_entries st key value b es_b subkey subvalue
         [_ Hfilled] Hage Hin Hone Hb Hsub Hnone.
  destruct (Hfilled b _ Hb) as (es & Hes & Hfind).
  exists es. split; [exact Hes |].
  rewrite Hfind, Hnone.
  apply Nat.leb_le in Hage. rewrite Hage.
  unfold supplied. rewrite Hone. cbn [flat_map snd]. rewrite app_nil_r.
  assert (Htop : assoc default_items subkey = None).
  { apply assoc_none. apply (@default_items_apart key value subkey Hin).
    rewrite Hsub. discriminate. }
  rewrite Htop, Hsub. destruct (b =? a); reflexivity.
Qed.

(** The [config.yaml] that uses one mapping in two places: the mapping
    gets the defaults of "processors", also as the value of "word" in
    "file_extensions", where the default list of extensions does not go. *)
Example shared_mapping_gets_processor_defaults :
  exists st root shared extensions,
    Universal._load_config Sample.shared_world (Some "config.yaml")
    = (inr (st, RAddr 7), []) /\
    dict_at st (RAddr 7) = Some root /\
    Store.find root "processors" = Some (RAddr 8) /\
    Store.find root "file_extensions" = Some (RAddr 9) /\
    dict_at st (RAddr 8) = Some shared /\
    shared = [(YStr "word", RAddr 0); (YStr "pdf", RAddr 1)] /\
    dict_at st (RAddr 9) = Some extensions /\
    extensions = [(YStr "word", RAddr 8); (YStr "pdf", RAddr 4)].
Proof. do 4 eexists. repeat split. Qed.

Local Open Scope string_scope.
Local Open Scope nat_scope.

(** ** C4: [process_directory] runs [process_file] on a thread pool *)

Lemma pool_step_invariant : forall w self files p q,
  Universal.pool_step w self p q ->
  pool_invariant w self files p -> pool_invariant w self files q.
Proof.
  intros w self files p q Hstep [Hperm Hbound].
  destruct Hstep as [f pend fl res Hfree | f pend fl1 fl2 res];
    unfold pool_invariant in *; simpl in *.
  - split.
    + rewrite map_app. simpl. rewrite <- app_assoc. simpl. exact Hperm.
    + rewrite length_app. simpl. lia.
  - split.
    + rewrite !map_app in *. simpl in *.
      rewrite <- !app_assoc in *. simpl in *.
      eapply Permutation_trans; [| exact Hperm].
      apply Permutation_app_head. apply Permutation_middle.
    + rewrite length_app in *. simpl in Hbound. lia.
Qed.

Lemma pool_steps_invariant : forall w self files p q,
  Universal.pool_steps w self p q ->
  pool_invariant w self files p -> pool_invariant w self files q.
Proof.
  intros w self files p q Hsteps. induction Hsteps as [p | p q r Hstep _ IH].
  - auto.
  - intros Hp. apply IH. eapply pool_step_invariant; eassumption.
Qed.

Lemma submit_all_invariant : forall w self files,
  pool_invariant w self files (Universal.submit_all files).
Proof.
  intros w self files. split; simpl.
  - apply Permutation_refl.
  - lia.
Qed.

(** The schedule that finishes every call before it starts the next. *)
Lemma run_in_order_steps : forall w self files res,
  0 < Universal.max_workers self ->
  Universal.pool_steps w self
    {| Universal.pending := files; Universal.in_flight := [];
       Universal.results := res |}
    {| Universal.pending := []; Universal.in_flight := [];
       Universal.results := Universal.run_in_order w self files res |}.
Proof.
  intros w self files; induction files as [| f files IH]; intros res Hmax.
  - apply Universal.steps_refl.
  - eapply Universal.steps_next.
    { apply Universal.step_start. simpl. exact Hmax. }
    eapply Universal.steps_next.
    { apply (Universal.step_complete w self f files [] [] res). }
    simpl. apply IH. exact Hmax.
Qed.

Lemma in_order_returns : forall w self input_dir files,
  result_of (Universal.find_files w self input_dir) = inr files ->
  0 < Universal.max_workers self ->
  Universal.process_directory_returns w self input_dir
    (Universal.run_in_order w self files []).
Proof.
  intros w self input_dir files Hfiles Hmax.
  exists files. eexists. split; [exact Hfiles |]. split; [exact Hmax |].
  split; [apply run_in_order_steps; exact Hmax |].
  split; [split; reflexivity | reflexivity].
Qed.

(** C4, counterexample: with the default four workers and two files, the
    pool reaches a state in which both calls of [process_file] are in
    flight. *)
Lemma process_directory_runs_two_at_once :
  ~ one_at_a_time Sample.docs_world Sample.universal_processor
      ["docs/report.pdf"; "docs/memo.docx"].
Proof.
  intros Hseq.
  specialize (Hseq {| Universal.pending := [];
                      Universal.in_flight :=
                        ["docs/report.pdf"; "docs/memo.docx"];
                      Universal.results := [] |}).
  simpl in Hseq.
  assert (Hle : 2 <= 1); [| lia].
  apply Hseq.
  eapply Universal.steps_next.
  { apply Universal.step_start. simpl. lia. }
  eapply Universal.steps_next.
  { apply (Universal.step_start Sample.docs_world
             Sample.universal_processor "docs/memo.docx" []
             ["docs/report.pdf"] []).
    simpl. lia. }
  apply Universal.steps_refl.
Qed.

(** The order of the results is the order of completion: with two files
    and two free workers both orders can be returned. *)
Lemma completion_order_is_free : forall w self a b,
  2 <= Universal.max_workers self ->
  Universal.pool_steps w self (Universal.submit_all [a; b])
    {| Universal.pending := []; Universal.in_flight := [];
       Universal.results := [outcome w self a; outcome w self b] |}
  /\
  Universal.pool_steps w self (Universal.submit_all [a; b])
    {| Universal.pending := []; Universal.in_flight := [];
       Universal.results := [outcome w self b; outcome w self a] |}.
Proof.
  intros w self a b Hmax. split.
  - apply (run_in_order_steps w self [a; b] []). lia.
  - eapply Universal.steps_next.
    { apply Universal.step_start. simpl. lia. }
    eapply Universal.steps_next.
    { apply (Universal.step_start w self b [] [a] []). simpl. lia. }
    eapply Universal.steps_next.
    { apply (Universal.step_complete w self b [] [a] [] []). }
    eapply Universal.steps_next.
    { apply (Universal.step_complete w self a [] [] [] _). }
    apply Universal.steps_refl.
Qed.

(** C4, amended: [UniversalDocumentProcessor.process_directory] runs
    [process_file] for the compatible files on a thread pool, with up to
    [max_workers] calls in flight at once and no other coordination; the
    list it returns holds the result of every compatible file exactly once,
    in completion order, which is a permutation of the submission order. *)
Theorem process_directory_uses_a_pool :
  forall w self input_dir res,
    Universal.process_directory_returns w self input_dir res ->
    exists files,
      result_of (Universal.find_files w self input_dir) = inr files /\
      Permutation res (map (outcome w self) files) /\
      (forall p,
          Universal.pool_steps w self (Universal.submit_all files) p ->
          List.length (Universal.in_flight p) <= Universal.max_workers self).
Proof.
  intros w self input_dir res (files & final & Hfiles & _ & Hrun & Hdone & Hres).
  exists files. split; [exact Hfiles |]. split.
  - destruct (pool_steps_invariant (files:=files) Hrun
                (submit_all_invariant w self files)) as [Hperm _].
    destruct Hdone as [Hpend Hfl]. rewrite Hpend, Hfl, Hres in Hperm.
    simpl in Hperm. rewrite app_nil_r in Hperm. exact Hperm.
  - intros p Hp.
    apply (pool_steps_invariant (files:=files) Hp
             (submit_all_invariant w self files)).
Qed.

(** C4 on the sample directory, for the run that takes the files in
    order. *)
Lemma process_directory_uses_a_pool_witness :
  exists files,
    result_of (Universal.find_files Sample.docs_world
                 Sample.universal_processor "docs") = inr files /\
    Permutation
      (Universal.run_in_order Sample.docs_world Sample.universal_processor
         ["docs/report.pdf"; "docs/memo.docx"; "docs/OLD.PDF"] [])
      (map (outcome Sample.docs_world Sample.universal_processor) files) /\
    (forall p,
        Universal.pool_steps Sample.docs_world Sample.universal_processor
          (Universal.submit_all files) p ->
        List.length (Universal.in_flight p) <= 4).
Proof.
  apply (@process_directory_uses_a_pool Sample.docs_world
           Sample.universal_processor "docs").
  apply in_order_returns.
  - reflexivity.
  - simpl. lia.
Defined.

(** * Further properties of the processors *)

(** ** [PDFDocumentProcessor.extract_text] and [extract_metadata] *)

Lemma bind_run_fail : forall {A B} (m : M A) (f : A -> M B) a e t1 t2,
  m = (inr a, t1) -> f a = (inl e, t2) ->
  bind m f = (inl e, (t1 ++ t2)%list).
Proof. intros A B m f a e t1 t2 -> Hf. simpl. rewrite Hf. reflexivity. Qed.

(** The page loop of [extract_text] stops at the first page whose text
    cannot be read. *)
Lemma extract_text_pages_outcome : forall self file_path pages page_num acc,
  result_of (Pdf.extract_text_pages self file_path page_num pages acc)
  = match first_failure pages with
    | Some e => inl e
    | None => inr (acc ++ map (page_text self) pages)%list
    end.
Proof.
  intros self file_path pages.
  induction pages as [| page pages IH]; intros page_num acc.
  - simpl. rewrite app_nil_r. reflexivity.
  - cbn [Pdf.extract_text_pages first_failure map].
    destruct (get_text page) as [e | text] eqn:Htext; [reflexivity |].
    rewrite bind_lift_ok.
    assert (Hchoice : exists tr,
               (if Py.truthy (Pdf.ocr_enabled self) && Pdf.little_text text
                then bind (logger_info
                             ("Using OCR for page "
                              ++ PyStr.str_of_nat (page_num + 1)
                              ++ " in " ++ file_path))
                       (fun _ => Pdf._extract_text_with_ocr self page)
                else ret text)
               = (inr (page_text self page), tr)).
    { unfold page_text, needs_ocr. rewrite (native_text_of _ Htext).
      rewrite <- little_text_spec.
      destruct (Py.truthy (Pdf.ocr_enabled self) && Pdf.little_text text).
      - destruct (ocr_call self page) as (tr & Hocr & _).
        eexists. eapply bind_run; [reflexivity | exact Hocr].
      - eexists. reflexivity. }
    destruct Hchoice as [tr Hchoice].
    specialize (IH (S page_num) (acc ++ [page_text self page])%list).
    rewrite <- app_assoc in IH. simpl in IH.
    destruct (Pdf.extract_text_pages self file_path (S page_num) pages
                (acc ++ [page_text self page])%list) as [r t] eqn:Hrest.
    simpl in IH. subst r.
    destruct (first_failure pages) as [e |].
    + rewrite (bind_run_fail _ Hchoice Hrest). reflexivity.
    + rewrite (bind_run _ Hchoice Hrest). reflexivity.
Qed.

Lemma pdf_extract_text_result : forall w self file_path,
  result_of (Pdf.extract_text w self file_path)
  = inr (extracted_text w self file_path).
Proof.
  intros w self file_path. unfold Pdf.extract_text, extracted_text.
  destruct (fitz_open w file_path) as [e | doc]; [reflexivity |].
  rewrite bind_lift_ok.
  pose proof (extract_text_pages_outcome self file_path (pdf_pages doc) 0 [])
    as Hpages.
  destruct (Pdf.extract_text_pages self file_path 0 (pdf_pages doc) [])
    as [r t]. simpl in Hpages. subst r.
  destruct (first_failure (pdf_pages doc)); reflexivity.
Qed.

(** X1: [PDFDocumentProcessor.extract_text] never raises.  It returns the
    page texts joined by blank lines when the document opens and every page
    gives its text; when the open fails or a page cannot be read, it drops
    the text read so far, logs the error and returns the string
    "Error: Could not extract text from document (...)" for the first
    failure.  It only logs: no file is opened or written. *)
Theorem pdf_extract_text_total :
  forall w self file_path,
    result_of (Pdf.extract_text w self file_path)
    = inr (extracted_text w self file_path)
    /\ only_logs (trace_of (Pdf.extract_text w self file_path)) = true
    /\ (forall e,
           text_failure w file_path = Some e ->
           extracted_text w self file_path = extract_text_error e /\
           In (Log "ERROR" ("Error extracting text from PDF: " ++ exn_str e))
             (trace_of (Pdf.extract_text w self file_path))).
Proof.
  intros w self file_path.
  split; [apply pdf_extract_text_result |].
  split; [apply pdf_extract_text_quiet |].
  intros e Hfail. unfold Pdf.extract_text, extracted_text.
  unfold text_failure in Hfail.
  destruct (fitz_open w file_path) as [e' | doc].
  - inversion Hfail; subst. split; [reflexivity |].
    simpl. left. reflexivity.
  - rewrite Hfail. split; [reflexivity |].
    rewrite bind_lift_ok.
    pose proof (extract_text_pages_outcome self file_path (pdf_pages doc)
                  0 []) as Hpages.
    destruct (Pdf.extract_text_pages self file_path 0 (pdf_pages doc) [])
      as [r t]. simpl in Hpages. subst r. rewrite Hfail. simpl.
    apply in_or_app. right. left. reflexivity.
Qed.

(** X1 on a document whose second page cannot be read. *)
Lemma pdf_extract_text_total_witness :
  extracted_text Sample.damaged_world Sample.pdf_processor "damaged.pdf"
  = "Error: Could not extract text from document (damaged page)" /\
  In (Log "ERROR" "Error extracting text from PDF: damaged page")
    (trace_of (Pdf.extract_text Sample.damaged_world Sample.pdf_processor
                 "damaged.pdf")).
Proof.
  destruct (pdf_extract_text_total Sample.damaged_world Sample.pdf_processor
              "damaged.pdf") as (_ & _ & Hlog).
  apply (Hlog (Exn RuntimeError "damaged page")). reflexivity.
Defined.

Lemma sdict_get_set_same : forall d k v,
  sdict_get (sdict_set d k v) k = Some v.
Proof.
  induction d as [| [k' v'] d IH]; intros k v; simpl.
  - rewrite String.eqb_refl. reflexivity.
  - destruct (String.eqb k' k) eqn:Hk; simpl; rewrite Hk; auto.
Qed.

Lemma sdict_get_set_other : forall d k k' v,
  k <> k' -> sdict_get (sdict_set d k v) k' = sdict_get d k'.
Proof.
  induction d as [| [k0 v0] d IH]; intros k k' v Hneq; simpl.
  - apply String.eqb_neq in Hneq. rewrite Hneq. reflexivity.
  - destruct (String.eqb k0 k) eqn:Hk; simpl.
    + apply String.eqb_eq in Hk. subst k0.
      apply String.eqb_neq in Hneq. rewrite Hneq. reflexivity.
    + destruct (String.eqb k0 k'); auto.
Qed.

Lemma sdict_get_copy_other : forall src key name d k,
  name <> k -> sdict_get (copy_if_set src key name d) k = sdict_get d k.
Proof.
  intros src key name d k Hneq. unfold copy_if_set.
  destruct (sdict_get src key) as [v |]; [| reflexivity].
  destruct (PyStr.nonempty v); [| reflexivity].
  apply sdict_get_set_other, Hneq.
Qed.

(** X2: [PDFDocumentProcessor.extract_metadata] never raises.  When the
    document opens and its size can be read, the dictionary has no "error"
    key and gives the page count, the file size and the number of words of
    whatever [extract_text] returned (its error string included); when the
    open or the size fails, the dictionary is the one-key error
    dictionary. *)
Theorem pdf_extract_metadata_shape :
  forall w self file_path,
    match fitz_open w file_path, os_path_getsize w file_path with
    | inr doc, inr size =>
        exists metadata,
          result_of (Pdf.extract_metadata w self file_path) = inr metadata /\
          sdict_get metadata "page_count"
          = Some (PyStr.str_of_nat (List.length (pdf_pages doc))) /\
          sdict_get metadata "file_size" = Some (PyStr.str_of_nat size) /\
          sdict_get metadata "word_count"
          = Some (PyStr.str_of_nat
                    (List.length
                       (PyStr.findall_words
                          (extracted_text w self file_path)))) /\
          sdict_get metadata "error" = None
    | inl e, _ | inr _, inl e =>
        result_of (Pdf.extract_metadata w self file_path)
        = inr [("error", metadata_error e)]
    end.
Proof.
  intros w self file_path.
  pose proof (pdf_extract_text_result w self file_path) as Htext.
  unfold Pdf.extract_metadata.
  destruct (fitz_open w file_path) as [e | doc] eqn:Hopen; [reflexivity |].
  rewrite bind_lift_ok.
  destruct (os_path_getsize w file_path) as [e | size]; [reflexivity |].
  rewrite bind_lift_ok.
  destruct (Pdf.extract_text w self file_path) as [r t]. simpl in Htext.
  subst r. cbn [bind try_except lift Py.re_findall_words ret result_of fst].
  eexists. split; [reflexivity |].
  rewrite sdict_get_set_same.
  rewrite !(sdict_get_set_other _ _ (k:="word_count")) by discriminate.
  rewrite !(sdict_get_set_other _ _ (k:="file_size") (k':="page_count"))
    by discriminate.
  rewrite !sdict_get_set_same.
  rewrite !(sdict_get_set_other _ _ (k:="file_size") (k':="error"))
    by discriminate.
  rewrite !(sdict_get_set_other _ _ (k:="page_count") (k':="error"))
    by discriminate.
  repeat split.
  destruct (pdf_metadata doc) as [[| entry meta] |]; try reflexivity.
  rewrite !sdict_get_copy_other by discriminate. reflexivity.
Qed.

Example damaged_pdf_word_count :
  result_of (Pdf.extract_metadata Sample.damaged_world Sample.pdf_processor
               "damaged.pdf")
  = inr [("page_count", "3"); ("file_size", "100"); ("word_count", "9")].
Proof. reflexivity. Qed.

(** ** A page that cannot be read leaves a partial markdown file *)

Lemma convert_pages_stop :
  forall w self output_dir name out good bad rest e page_num,
    Py.truthy (Pdf.extract_images self) = false ->
    (forall page, In page good -> exists text, get_text page = inr text) ->
    get_text bad = inl e ->
    exists tr,
      Pdf.convert_pages w self output_dir name out page_num
        (good ++ bad :: rest)
      = (inl e, tr)
      /\ never_opens out tr = true
      /\ written out tr
         = cat (map (page_section self name)
                  (enumerate_from (S page_num) good))
           ++ "## Page "
           ++ PyStr.str_of_nat (page_num + List.length good + 1)
           ++ PyStr.nlnl.
Proof.
  intros w self output_dir name out good bad rest e.
  induction good as [| page good IH]; intros page_num Himg Hgood Hbad.
  - cbn [app Pdf.convert_pages]. rewrite Hbad.
    eexists. split; [| split].
    + eapply bind_run_fail; reflexivity.
    + reflexivity.
    + cbn [written app]. rewrite String.eqb_refl.
      cbn [List.length enumerate_from map cat fold_right].
      rewrite Nat.add_0_r, append_nil_r. reflexivity.
  - destruct (Hgood page (or_introl eq_refl)) as [text Htext].
    destruct (convert_text_choice self page Htext) as (tc & Hchoice & Hlogs).
    destruct (write_paragraphs out
                (PyStr.split (PyStr.collapse_newlines (page_text self page))
                   PyStr.nlnl)) as (tp & Hpar & Hpw & Hpdata).
    destruct (IH (S page_num) Himg) as (tr & Hrest & Hopen & Hdata);
      [intros p Hp; apply Hgood; right; exact Hp | exact Hbad |].
    destruct (only_logs_quiet out _ Hlogs) as [Hlopen Hldata].
    cbn [app Pdf.convert_pages]. rewrite Himg, Htext.
    eexists. split; [| split].
    + eapply bind_run_fail; [reflexivity |].
      eapply bind_run_fail; [reflexivity |].
      eapply bind_run_fail; [exact Hchoice |].
      eapply bind_run_fail; [exact Hpar |].
      eapply bind_run_fail; [reflexivity |].
      exact Hrest.
    + rewrite !never_opens_app, Hlopen, Hopen.
      rewrite (only_writes_never_opens _ _ Hpw). reflexivity.
    + rewrite !written_app, Hldata, Hpdata, Hdata.
      cbn [written enumerate_from map cat fold_right page_section
             List.length].
      rewrite String.eqb_refl.
      unfold image_refs, paragraphs_of. rewrite Himg.
      rewrite Nat.add_1_r, !append_nil_r. cbn [append].
      rewrite !append_assoc.
      replace (page_num + S (List.length good))
        with (S page_num + List.length good) by lia.
      reflexivity.
Qed.

Lemma pdf_extract_metadata_returns : forall w self file_path,
  exists metadata tm,
    Pdf.extract_metadata w self file_path = (inr metadata, tm)
    /\ only_logs tm = true.
Proof.
  intros w self file_path.
  pose proof (pdf_extract_metadata_quiet w self file_path) as Hq.
  assert (Hret : exists a,
             result_of (Pdf.extract_metadata w self file_path) = inr a)
    by (apply try_except_total; intros e; simpl; eauto).
  destruct (Pdf.extract_metadata w self file_path) as [[e | metadata] tm].
  - destruct Hret as [a Ha]. discriminate Ha.
  - eauto.
Qed.

(** X3: with image extraction off, when a PDF opens, its output file opens
    and the pages before page k give their text but page k cannot be read,
    [convert_to_markdown] returns the error string of that page and leaves
    a partial markdown file behind: front matter, title, the sections of
    the pages before k and the heading of page k. *)
Theorem pdf_unreadable_page_leaves_partial_file :
  forall w self file_path output_dir doc good bad rest e,
    fitz_open w file_path = inr doc ->
    pdf_pages doc = (good ++ bad :: rest)%list ->
    (forall page, In page good -> exists text, get_text page = inr text) ->
    get_text bad = inl e ->
    open_for_write w (Pdf.md_path file_path output_dir) = None ->
    Py.truthy (Pdf.extract_images self) = false ->
    exists metadata,
      result_of (Pdf.extract_metadata w self file_path) = inr metadata /\
      result_of (Pdf.convert_to_markdown w self file_path output_dir)
      = inr ("Error: Could not convert document to Markdown ("
             ++ exn_str e ++ ")") /\
      file_content (Pdf.md_path file_path output_dir)
        (trace_of (Pdf.convert_to_markdown w self file_path output_dir))
      = Some (frontmatter metadata
              ++ title_heading metadata (Pdf.md_name file_path)
              ++ cat (map (page_section self (Pdf.md_name file_path))
                        (enumerate_from 1 good))
              ++ "## Page " ++ PyStr.str_of_nat (List.length good + 1)
              ++ PyStr.nlnl).
Proof.
  intros w self file_path output_dir doc good bad rest e
         Hdoc Hpages Hgood Hbad Hopen Himg.
  set (out := Pdf.md_path file_path output_dir) in *.
  destruct (pdf_extract_metadata_returns w self file_path)
    as (metadata & tm & Hmd & Hq).
  destruct (only_logs_quiet out _ Hq) as [Hqopen Hqdata].
  destruct (pdf_frontmatter_written out metadata)
    as (tf & Hf & Hfopen & Hfdata).
  destruct (convert_pages_stop w self output_dir (Pdf.md_name file_path) out
              good bad rest 0 Himg Hgood Hbad)
    as (tp & Hp & Hpopen & Hpdata).
  assert (Hbody : exists title,
             Pdf.convert_body w self file_path output_dir
             = (inl e,
                [] ++ [OpenW out] ++ tm ++ tf ++ [Write out title] ++ tp)%list
             /\ title = title_heading metadata (Pdf.md_name file_path)).
  { unfold Pdf.convert_body. fold out. rewrite Hdoc.
    eexists. split.
    - eapply bind_run_fail; [reflexivity |].
      eapply bind_run_fail; [unfold open_w; rewrite Hopen; reflexivity |].
      eapply bind_run_fail; [exact Hmd |].
      eapply bind_run_fail; [exact Hf |].
      eapply bind_run_fail; [reflexivity |].
      rewrite Hpages. eapply bind_fail. exact Hp.
    - reflexivity. }
  destruct Hbody as (title & Hbody & Htitle).
  exists metadata. rewrite Hmd. split; [reflexivity |].
  unfold Pdf.convert_to_markdown. rewrite Hbody.
  split; [reflexivity |].
  unfold file_content. cbn [trace_of snd try_except app replay bind
                              logger_error emit ret].
  rewrite String.eqb_refl, replay_written.
  - rewrite !written_app. cbn [written]. rewrite String.eqb_refl.
    rewrite Hqdata, Hfdata, Hpdata.
    rewrite Htitle, !append_nil_r. cbn [append]. reflexivity.
  - rewrite !never_opens_app, never_opens_write.
    rewrite Hqopen, Hfopen, Hpopen. reflexivity.
Qed.

(** X3 on the damaged sample: the file ends with the heading of page 2. *)
Lemma pdf_unreadable_page_leaves_partial_file_witness :
  exists metadata,
    result_of (Pdf.extract_metadata Sample.damaged_world
                 Sample.pdf_processor "damaged.pdf") = inr metadata /\
    result_of (Pdf.convert_to_markdown Sample.damaged_world
                 Sample.pdf_processor "damaged.pdf" "out")
    = inr "Error: Could not convert document to Markdown (damaged page)" /\
    file_content "out/damaged.md"
      (trace_of (Pdf.convert_to_markdown Sample.damaged_world
                   Sample.pdf_processor "damaged.pdf" "out"))
    = Some (frontmatter metadata
            ++ title_heading metadata "damaged"
            ++ cat (map (page_section Sample.pdf_processor "damaged")
                      (enumerate_from 1 [Sample.text_page]))
            ++ "## Page 2" ++ PyStr.nlnl).
Proof.
  apply (@pdf_unreadable_page_leaves_partial_file Sample.damaged_world
           Sample.pdf_processor "damaged.pdf" "out" Sample.damaged_pdf
           [Sample.text_page] Sample.damaged_page [Sample.text_page]
           (Exn RuntimeError "damaged page")).
  - reflexivity.
  - reflexivity.
  - intros page [<- | []]. eexists. reflexivity.
  - reflexivity.
  - reflexivity.
  - reflexivity.
Defined.

(** ** What the dictionary of [process_file] says *)

Lemma makedirs_value_dir : forall w v dir t,
  Universal.makedirs_value w v = (inr dir, t) -> v = VStr dir.
Proof.
  intros w v dir t H. destruct v; try discriminate H.
  unfold Universal.makedirs_value, makedirs in H.
  destruct (os_makedirs w s); inversion H. reflexivity.
Qed.

Lemma process_file_result :
  forall w self file_path,
    exists r,
      result_of (Universal.process_file w self file_path) = inr r /\
      Universal.file r = file_path /\
      if Universal.success r
      then reports_conversion w self file_path r
      else reports_failure r.
Proof.
  intros w self file_path.
  assert (Hok : forall s dir t proc p t2 t3,
             Py.getitem (Universal.config self) "output_dir"
             = inr (VStr dir) ->
             Universal._get_processor_for_file self file_path
             = (inr (Some (t, proc)), t2) ->
             Universal.convert_with w proc file_path dir = (inr p, t3) ->
             PyStr.startswith p "Error" = false ->
             Universal.success s = true ->
             Universal.file s = file_path ->
             Universal.output_path s = Some p ->
             Universal.processor_type s = Some t ->
             Universal.duration s = Some (elapsed w file_path) ->
             Universal.file s = file_path /\
             (if Universal.success s
              then reports_conversion w self file_path s
              else reports_failure s)).
  { intros s dir t proc p t2 t3 Hdir Hfound Hconv Hp Hs Hf Ho Ht Hd.
    rewrite Hs. split; [exact Hf |].
    exists dir, t, proc, p. rewrite Hfound, Hconv.
    repeat split; assumption. }
  assert (Hfail : forall s,
             Universal.success s = false ->
             Universal.file s = file_path ->
             Universal.output_path s = None ->
             Universal.duration s = None ->
             (exists msg, Universal.error s = Some msg) ->
             Universal.file s = file_path /\
             (if Universal.success s
              then reports_conversion w self file_path s
              else reports_failure s)).
  { intros s Hs Hf Ho Hd He. rewrite Hs. repeat split; assumption. }
  unfold Universal.process_file, Universal.returning, Universal.stry_except,
    Universal.process_file_body, Universal.sbind, Universal.call,
    Universal.modify, Universal.sret.
  unfold lift. cbn [fst snd].
  destruct (Py.getitem (Universal.config self) "output_dir") as [e | v]
    eqn:Hdir; cbn [fst snd].
  { eexists; split; [reflexivity |]; apply Hfail; simpl; eauto. }
  destruct (Universal.makedirs_value w v) as [[e | dir] t1] eqn:Hmk;
    cbn [fst snd].
  { eexists; split; [reflexivity |]; apply Hfail; simpl; eauto. }
  apply makedirs_value_dir in Hmk. subst v.
  destruct (Universal._get_processor_for_file self file_path)
    as [[e | [[t proc] |]] t2] eqn:Hfound; cbn [fst snd].
  { eexists; split; [reflexivity |]; apply Hfail; simpl; eauto. }
  2: { eexists; split; [reflexivity |]; apply Hfail; simpl; eauto. }
  destruct (Universal.convert_with w proc file_path dir) as [[e | p] t3]
    eqn:Hconv; cbn [fst snd].
  { eexists; split; [reflexivity |]; apply Hfail; simpl; eauto. }
  destruct (PyStr.startswith p "Error") eqn:Hp; cbn [negb fst snd].
  { eexists; split; [reflexivity |]; apply Hfail; simpl; eauto. }
  destruct (Py.get (Universal.config self) "backup_dir") as [e | c];
    cbn [fst snd].
  { eexists; split; [reflexivity |].
    eapply (Hok _ _ _ _ _ _ _ eq_refl eq_refl Hconv Hp); reflexivity. }
  destruct (Py.truthy c); cbn [fst snd].
  2: { eexists; split; [reflexivity |].
       eapply (Hok _ _ _ _ _ _ _ eq_refl eq_refl Hconv Hp); reflexivity. }
  destruct (Py.getitem (Universal.config self) "backup_dir") as [e | b];
    cbn [fst snd].
  { eexists; split; [reflexivity |].
    eapply (Hok _ _ _ _ _ _ _ eq_refl eq_refl Hconv Hp); reflexivity. }
  destruct (Universal.makedirs_value w b) as [[e | bdir] t4]; cbn [fst snd].
  { eexists; split; [reflexivity |].
    eapply (Hok _ _ _ _ _ _ _ eq_refl eq_refl Hconv Hp); reflexivity. }
  destruct (shutil_copy2 w file_path
              (OsPath.join bdir (OsPath.basename file_path))) as [e |];
    cbn [fst snd raise emit].
  { eexists; split; [reflexivity |].
    eapply (Hok _ _ _ _ _ _ _ eq_refl eq_refl Hconv Hp); reflexivity. }
  eexists; split; [reflexivity |].
  eapply (Hok _ _ _ _ _ _ _ eq_refl eq_refl Hconv Hp); reflexivity.
Qed.

(** X4: [process_file] returns a dictionary for the file it was given.
    When success is false the dictionary has no output path, no duration
    and an error message; when success is true it holds the path returned
    by the processor the dispatcher chose, which does not start with
    "Error", the key of that processor and the time taken. *)
Theorem process_file_outcome :
  forall w self file_path,
    exists r,
      result_of (Universal.process_file w self file_path) = inr r /\
      Universal.file r = file_path /\
      if Universal.success r
      then reports_conversion w self file_path r
      else reports_failure r.
Proof. exact process_file_result. Qed.

Lemma getitem_get : forall v s x,
  Py.getitem v s = inr x -> Py.get v s = inr x.
Proof.
  intros v s x H. destruct v; try discriminate H. simpl in *.
  destruct (Py.dict_get entries (KStr s)); [exact H | discriminate H].
Qed.

(** X5: when the conversion of a file succeeds but the copy of the original
    to the backup directory raises, [process_file] still returns: the
    dictionary keeps success true and the output path, and also holds the
    message of the exception under ["error"], which is logged. *)
Theorem failed_backup_keeps_success :
  forall w self file_path dir t proc p bdir e,
    Py.getitem (Universal.config self) "output_dir" = inr (VStr dir) ->
    os_makedirs w dir = None ->
    result_of (Universal._get_processor_for_file self file_path)
    = inr (Some (t, proc)) ->
    result_of (Universal.convert_with w proc file_path dir) = inr p ->
    PyStr.startswith p "Error" = false ->
    Py.getitem (Universal.config self) "backup_dir" = inr (VStr bdir) ->
    PyStr.nonempty bdir = true ->
    os_makedirs w bdir = None ->
    shutil_copy2 w file_path (OsPath.join bdir (OsPath.basename file_path))
    = Some e ->
    exists r,
      result_of (Universal.process_file w self file_path) = inr r /\
      Universal.success r = true /\
      Universal.output_path r = Some p /\
      Universal.error r = Some (exn_str e) /\
      In (Log "ERROR"
            ("Exception processing " ++ file_path ++ ": " ++ exn_str e))
         (trace_of (Universal.process_file w self file_path)).
Proof.
  intros w self file_path dir t proc p bdir e
         Hdir Hmk Hfound Hconv Hp Hbdir Hne Hbmk Hcopy.
  unfold Universal.process_file, Universal.returning, Universal.stry_except,
    Universal.process_file_body, Universal.sbind, Universal.call,
    Universal.modify, Universal.sret.
  rewrite (getitem_get _ _ Hbdir), Hdir, Hbdir.
  destruct (Universal._get_processor_for_file self file_path)
    as [found t2]. simpl in Hfound. subst found.
  unfold lift, Universal.makedirs_value, makedirs.
  cbn [fst snd bind emit ret]. rewrite Hmk.
  cbn [fst snd bind emit ret].
  destruct (Universal.convert_with w proc file_path dir) as [out t3].
  simpl in Hconv. subst out.
  cbn [fst snd]. rewrite Hp.
  cbn [negb fst snd Py.truthy]. rewrite Hne. cbn [fst snd]. rewrite Hbmk.
  cbn [fst snd bind emit ret]. rewrite Hcopy.
  unfold logger_info, logger_error, emit, raise, trace_of, result_of.
  cbn [fst snd].
  eexists. split; [reflexivity |].
  repeat split.
  rewrite !in_app_iff. cbn [In]. auto 10.
Qed.

(** X5 on [docs/report.pdf] where the backup directory cannot be written. *)
Lemma failed_backup_keeps_success_witness :
  exists r,
    result_of (Universal.process_file Sample.no_backup_world
                 Sample.universal_processor "docs/report.pdf") = inr r /\
    Universal.success r = true /\
    Universal.output_path r = Some "input/markdown/report.md" /\
    Universal.error r
    = Some "[Errno 13] Permission denied: 'input/originals/report.pdf'" /\
    In (Log "ERROR"
          ("Exception processing docs/report.pdf: "
           ++ "[Errno 13] Permission denied: 'input/originals/report.pdf'"))
       (trace_of (Universal.process_file Sample.no_backup_world
                    Sample.universal_processor "docs/report.pdf")).
Proof.
  apply (@failed_backup_keeps_success Sample.no_backup_world
           Sample.universal_processor "docs/report.pdf" "input/markdown"
           (KStr "pdf") (Universal.PdfProc Sample.pdf_processor)
           "input/markdown/report.md" "input/originals"
           (Exn OSError
              "[Errno 13] Permission denied: 'input/originals/report.pdf'"));
    vm_compute; reflexivity.
Defined.

(** ** The results of a directory and their report *)

Lemma outcome_is_result : forall w self file_path,
  result_of (Universal.process_file w self file_path)
  = inr (outcome w self file_path)
  /\ Universal.file (outcome w self file_path) = file_path
  /\ well_reported w self (outcome w self file_path).
Proof.
  intros w self file_path.
  destruct (process_file_result w self file_path) as (r & Hr & Hfile & Hrep).
  unfold outcome, Universal.collect. rewrite Hr.
  split; [reflexivity |]. split; [exact Hfile |].
  unfold well_reported. rewrite Hfile. exact Hrep.
Qed.

Lemma pool_results : forall w self input_dir res,
  Universal.process_directory_returns w self input_dir res ->
  exists files,
    result_of (Universal.find_files w self input_dir) = inr files /\
    Permutation res (map (outcome w self) files).
Proof.
  intros w self input_dir res
         (files & final & Hfiles & _ & Hrun & Hdone & Hres).
  exists files. split; [exact Hfiles |].
  destruct (pool_steps_invariant (files:=files) Hrun
              (submit_all_invariant w self files)) as [Hperm _].
  destruct Hdone as [Hpend Hfl]. rewrite Hpend, Hfl, Hres in Hperm.
  simpl in Hperm. rewrite app_nil_r in Hperm. exact Hperm.
Qed.

Lemma directory_results : forall w self input_dir res,
  Universal.process_directory_returns w self input_dir res ->
  exists files,
    result_of (Universal.find_files w self input_dir) = inr files /\
    Permutation (map Universal.file res) files /\
    Forall (well_reported w self) res.
Proof.
  intros w self input_dir res Hret.
  destruct (pool_results Hret) as (files & Hfiles & Hperm).
  exists files. split; [exact Hfiles |]. split.
  - eapply Permutation_trans; [apply Permutation_map, Hperm |].
    rewrite map_map.
    erewrite map_ext; [rewrite map_id; apply Permutation_refl |].
    intros f. apply outcome_is_result.
  - apply Forall_forall. intros r Hr.
    apply (Permutation_in _ Hperm) in Hr. apply in_map_iff in Hr.
    destruct Hr as (f & <- & _). apply outcome_is_result.
Qed.

(** X6: whatever the schedule of the pool, the list that
    [process_directory] returns holds one dictionary for each file found,
    under that file's path, and each dictionary reports what happened to
    its file: a conversion by the processor the dispatcher chose, or a
    failure with its message.  The handler for a failed future is never
    used. *)
Theorem process_directory_reports_each_file :
  forall w self input_dir res,
    Universal.process_directory_returns w self input_dir res ->
    exists files,
      result_of (Universal.find_files w self input_dir) = inr files /\
      Permutation (map Universal.file res) files /\
      Forall (well_reported w self) res /\
      Forall (fun file_path =>
                result_of (Universal.process_file w self file_path)
                = inr (outcome w self file_path)) files.
Proof.
  intros w self input_dir res Hret.
  destruct (directory_results Hret) as (files & Hfiles & Hperm & Hall).
  exists files. repeat split; try assumption.
  apply Forall_forall. intros f _. apply outcome_is_result.
Qed.

(** X6 on the sample directory, for the run that takes the files in
    order. *)
Lemma process_directory_reports_each_file_witness :
  exists files,
    result_of (Universal.find_files Sample.docs_world
                 Sample.universal_processor "docs") = inr files /\
    Permutation
      (map Universal.file
         (Universal.run_in_order Sample.docs_world Sample.universal_processor
            ["docs/report.pdf"; "docs/memo.docx"; "docs/OLD.PDF"] []))
      files /\
    Forall (well_reported Sample.docs_world Sample.universal_processor)
      (Universal.run_in_order Sample.docs_world Sample.universal_processor
         ["docs/report.pdf"; "docs/memo.docx"; "docs/OLD.PDF"] []) /\
    Forall (fun file_path =>
              result_of (Universal.process_file Sample.docs_world
                           Sample.universal_processor file_path)
              = inr (outcome Sample.docs_world Sample.universal_processor
                       file_path)) files.
Proof.
  apply (@process_directory_reports_each_file Sample.docs_world
           Sample.universal_processor "docs").
  apply in_order_returns.
  - reflexivity.
  - simpl. lia.
Defined.

Lemma success_lines_run : forall w entries report,
  Forall (fun entry : nat * Universal.Result =>
            Universal.output_path (snd entry) <> None) entries ->
  exists lines,
    Universal.success_lines w entries report
    = (inr (report ++ lines)%list, [])
    /\ List.length lines = List.length entries.
Proof.
  intros w entries; induction entries as [| [idx r] entries IH];
    intros report Hall.
  - exists []. simpl. rewrite app_nil_r. split; reflexivity.
  - inversion Hall as [| ? ? Hout Hrest]; subst. simpl in Hout.
    cbn [Universal.success_lines Universal.success_line].
    unfold Universal.basename_of_output.
    destruct (Universal.output_path r) as [p |]; [| contradiction].
    rewrite bind_lift_ok, bind_ret_l.
    match goal with
    | |- context [Universal.success_lines w entries ?rep] =>
        destruct (IH rep Hrest) as (lines & Hrun & Hlen)
    end.
    rewrite Hrun. eexists (_ :: lines). rewrite <- app_assoc.
    split; [reflexivity |]. simpl. rewrite Hlen. reflexivity.
Qed.

Lemma enumerate_from_length : forall A (l : list A) start,
  List.length (enumerate_from start l) = List.length l.
Proof.
  intros A l; induction l as [| x l IH]; intros start; simpl;
    [| rewrite IH]; reflexivity.
Qed.

Lemma enumerate_from_snd : forall A (l : list A) start,
  map snd (enumerate_from start l) = l.
Proof.
  intros A l; induction l as [| x l IH]; intros start; simpl;
    [| rewrite IH]; reflexivity.
Qed.

Lemma filter_split_length : forall A (f : A -> bool) l,
  List.length (filter f l) + List.length (filter (fun x => negb (f x)) l)
  = List.length l.
Proof.
  intros A f l; induction l as [| x l IH]; simpl; [reflexivity |].
  destruct (f x); simpl; lia.
Qed.

Lemma generate_report_run : forall w results,
  Forall (fun r => Universal.success r = true ->
                   Universal.output_path r <> None) results ->
  exists report,
    Universal.generate_report w results = (inr report, []) /\
    report_for (List.length results)
      (List.length (filter Universal.success results))
      (List.length (filter (fun r => negb (Universal.success r)) results))
      report.
Proof.
  intros w results Hall. unfold Universal.generate_report.
  set (successful := filter Universal.success results).
  set (failed := filter (fun r => negb (Universal.success r)) results).
  assert (Hs : Forall (fun entry : nat * Universal.Result =>
                         Universal.output_path (snd entry) <> None)
                 (enumerate_from 0 successful)).
  { apply Forall_forall. intros [idx r] Hin. simpl.
    assert (Hr : In r successful).
    { rewrite <- (enumerate_from_snd successful 0).
      apply (in_map snd) in Hin. exact Hin. }
    apply filter_In in Hr. destruct Hr as [Hr Hsucc].
    rewrite Forall_forall in Hall. apply (Hall r Hr Hsucc). }
  assert (Hsec : exists lines,
             match successful with
             | _ :: _ =>
                 Universal.success_lines w (enumerate_from 0 successful)
                   (["# Document Processing Report";
                     counts_line (List.length results)
                       (List.length successful) (List.length failed)]
                    ++ [(PyStr.nl ++ "## Successfully Processed Files")%string])
             | [] =>
                 ret ["# Document Processing Report";
                      counts_line (List.length results)
                        (List.length successful) (List.length failed)]
             end
             = (inr ("# Document Processing Report"
                     :: counts_line (List.length results)
                          (List.length successful) (List.length failed)
                     :: lines), [])
             /\ List.length lines = section_lines (List.length successful)).
  { destruct successful as [| r0 rest] eqn:Hsucc.
    - exists []. split; reflexivity.
    - destruct (success_lines_run w
                  (["# Document Processing Report";
                    counts_line (List.length results)
                      (List.length (r0 :: rest)) (List.length failed)]
                   ++ [(PyStr.nl ++ "## Successfully Processed Files")%string])
                  Hs) as (lines & Hrun & Hlen).
      rewrite Hrun. eexists (_ :: lines). split; [reflexivity |].
      simpl. rewrite Hlen, enumerate_from_length. reflexivity. }
  destruct Hsec as (lines & Hrun & Hlen).
  unfold counts_line in Hrun. rewrite Hrun. cbn [bind ret app].
  eexists. split; [reflexivity |].
  destruct failed as [| r0 rest] eqn:Hfailed.
  - exists lines. split; [reflexivity |]. rewrite Hlen. simpl. lia.
  - eexists (lines ++ _ :: map (Universal.failure_line)
                            (enumerate_from 0 (r0 :: rest)))%list.
    split; [reflexivity |].
    rewrite length_app. cbn [List.length]. rewrite length_map.
    rewrite enumerate_from_length, Hlen. reflexivity.
Qed.

Lemma well_reported_output : forall w self r,
  well_reported w self r ->
  Universal.success r = true -> Universal.output_path r <> None.
Proof.
  intros w self r Hr Hs. unfold well_reported in Hr. rewrite Hs in Hr.
  destruct Hr as (dir & t & proc & p & _ & _ & _ & _ & Hout & _).
  rewrite Hout. discriminate.
Qed.

(** X7: [generate_report] on the list that [process_directory] returns
    never raises and leaves no trace; the report starts with the title and
    the counts, the successful and the failed files add up to the files
    found, and each section that has entries takes a heading and one line
    per entry. *)
Theorem report_of_directory :
  forall w self input_dir res,
    Universal.process_directory_returns w self input_dir res ->
    exists files report s f,
      result_of (Universal.find_files w self input_dir) = inr files /\
      Universal.generate_report w res = (inr report, []) /\
      s = List.length (filter Universal.success res) /\
      s + f = List.length files /\
      report_for (List.length files) s f report.
Proof.
  intros w self input_dir res Hret.
  destruct (directory_results Hret) as (files & Hfiles & Hperm & Hall).
  destruct (generate_report_run w (results:=res)) as (report & Hrun & Hrep).
  { eapply Forall_impl; [| exact Hall].
    intros r Hr. exact (@well_reported_output w self r Hr). }
  assert (Hlen : List.length res = List.length files).
  { rewrite <- (length_map Universal.file res).
    apply Permutation_length, Hperm. }
  exists files, report. do 2 eexists.
  split; [exact Hfiles |]. split; [exact Hrun |].
  split; [reflexivity |]. split.
  - rewrite <- Hlen. apply filter_split_length.
  - rewrite <- Hlen. exact Hrep.
Qed.

(** X7 on the sample directory, for the run that takes the files in
    order: two files are converted and [docs/OLD.PDF] fails. *)
Lemma report_of_directory_witness :
  exists files report s f,
    result_of (Universal.find_files Sample.docs_world
                 Sample.universal_processor "docs") = inr files /\
    Universal.generate_report Sample.docs_world
      (Universal.run_in_order Sample.docs_world Sample.universal_processor
         ["docs/report.pdf"; "docs/memo.docx"; "docs/OLD.PDF"] [])
    = (inr report, []) /\
    s = List.length
          (filter Universal.success
             (Universal.run_in_order Sample.docs_world
                Sample.universal_processor
                ["docs/report.pdf"; "docs/memo.docx"; "docs/OLD.PDF"] [])) /\
    s + f = List.length files /\
    report_for (List.length files) s f report.
Proof.
  apply (@report_of_directory Sample.docs_world
           Sample.universal_processor "docs").
  apply in_order_returns.
  - reflexivity.
  - simpl. lia.
Defined.

(** ** The dispatcher and the files of a directory *)

Lemma searchable_in : forall ext v,
  searchable v = true -> exists b, Py.str_in ext v = inr b.
Proof.
  intros ext v Hv. destruct v; try discriminate Hv; simpl; eauto.
Qed.

Lemma match_extension_spec : forall self ext items,
  forallb (fun entry => searchable (snd entry)) items = true ->
  exists found,
    Universal.match_extension self ext items = (inr found, []) /\
    (forall t proc,
        found = Some (t, proc) ->
        lists_extension items ext t /\
        Universal.find_processor t (Universal.processors self) = Some proc) /\
    (found = None ->
     forall t, lists_extension items ext t ->
               Universal.find_processor t (Universal.processors self)
               = None).
Proof.
  intros self ext items; induction items as [| [t0 exts] items IH];
    intros Hall.
  - exists None. split; [reflexivity |]. split.
    + intros t proc H. discriminate H.
    + intros _ t (e & [] & _).
  - simpl in Hall. apply andb_true_iff in Hall. destruct Hall as [Hs Hall].
    destruct (searchable_in ext _ Hs) as [known Hknown].
    destruct (IH Hall) as (found & Hrun & Hsound & Hcomplete).
    cbn [Universal.match_extension]. rewrite Hknown, bind_lift_ok.
    destruct (if known
              then Universal.find_processor t0 (Universal.processors self)
              else None) as [proc0 |] eqn:Hhere.
    + exists (Some (t0, proc0)). split; [reflexivity |]. split.
      * intros t proc H. inversion H; subst t proc.
        destruct known; [| discriminate Hhere]. split; [| exact Hhere].
        exists exts. split; [left; reflexivity | exact Hknown].
      * intros H. discriminate H.
    + exists found. split; [exact Hrun |]. split.
      * intros t proc H. destruct (Hsound t proc H) as [(e & Hin & He) Hp].
        split; [| exact Hp]. exists e. split; [right; exact Hin | exact He].
      * intros Hnone t (e & [Heq | Hin] & He).
        -- inversion Heq; subst t0 exts. rewrite He in Hknown.
           inversion Hknown; subst known. exact Hhere.
        -- apply (Hcomplete Hnone). exists e. split; assumption.
Qed.

Lemma dispatcher_runs : forall self items file_path,
  extensions_configured self items ->
  exists found,
    Universal._get_processor_for_file self file_path = (inr found, []) /\
    (forall t proc,
        found = Some (t, proc) ->
        lists_extension items (extension file_path) t /\
        Universal.find_processor t (Universal.processors self) = Some proc) /\
    (found = None ->
     forall t, lists_extension items (extension file_path) t ->
               Universal.find_processor t (Universal.processors self)
               = None).
Proof.
  intros self items file_path [Hcfg Hall].
  unfold Universal._get_processor_for_file. rewrite Hcfg, bind_lift_ok.
  apply match_extension_spec. exact Hall.
Qed.

(** X8: when the configuration maps every processor type to a list (or
    another value that [in] can search), [_get_processor_for_file] never
    raises and logs nothing.  It returns a type and its processor only when
    that type lists the lower-cased extension of the path and has a
    processor; it returns [None] only when no type that lists the extension
    has a processor. *)
Theorem dispatcher_sound_and_complete :
  forall self items file_path,
    extensions_configured self items ->
    exists found,
      Universal._get_processor_for_file self file_path = (inr found, []) /\
      (forall t proc,
          found = Some (t, proc) ->
          lists_extension items (extension file_path) t /\
          Universal.find_processor t (Universal.processors self)
          = Some proc) /\
      (found = None ->
       forall t, lists_extension items (extension file_path) t ->
                 Universal.find_processor t (Universal.processors self)
                 = None).
Proof. exact dispatcher_runs. Qed.

(** X8 on the default configuration: an upper-case [.PDF] goes to the PDF
    processor. *)
Lemma dispatcher_sound_and_complete_witness :
  exists found,
    Universal._get_processor_for_file Sample.universal_processor
      "docs/OLD.PDF" = (inr found, []) /\
    (forall t proc,
        found = Some (t, proc) ->
        lists_extension
          [ (KStr "word", VList [VStr ".docx"; VStr ".doc"]);
            (KStr "pdf", VList [VStr ".pdf"]) ]
          (extension "docs/OLD.PDF") t /\
        Universal.find_processor t
          (Universal.processors Sample.universal_processor) = Some proc) /\
    (found = None ->
     forall t,
       lists_extension
         [ (KStr "word", VList [VStr ".docx"; VStr ".doc"]);
           (KStr "pdf", VList [VStr ".pdf"]) ]
         (extension "docs/OLD.PDF") t ->
       Universal.find_processor t
         (Universal.processors Sample.universal_processor) = None).
Proof.
  apply (@dispatcher_sound_and_complete Sample.universal_processor).
  split; reflexivity.
Defined.

Lemma compatible_files_spec : forall self items root files acc,
  extensions_configured self items ->
  Universal.compatible_files self root files acc
  = (inr (acc ++ filter (compatible self) (map (OsPath.join root) files))%list,
     []).
Proof.
  intros self items root files; induction files as [| f files IH];
    intros acc Hcfg.
  - simpl. rewrite app_nil_r. reflexivity.
  - cbn [Universal.compatible_files map filter].
    destruct (dispatcher_runs (OsPath.join root f) Hcfg)
      as (found & Hrun & _).
    unfold compatible at 1. rewrite Hrun. cbn [result_of fst bind].
    rewrite (IH _ Hcfg).
    destruct found as [[t proc] |]; [destruct (Py.key_truthy t) |];
      cbn [app]; rewrite <- ?app_assoc; reflexivity.
Qed.

Lemma compatible_walk_spec : forall self items walk acc,
  extensions_configured self items ->
  Universal.compatible_walk self walk acc
  = (inr (acc ++ filter (compatible self) (walk_paths walk))%list, []).
Proof.
  intros self items walk; induction walk as [| [root files] walk IH];
    intros acc Hcfg.
  - simpl. rewrite app_nil_r. reflexivity.
  - cbn [Universal.compatible_walk walk_paths flat_map fst snd].
    rewrite (compatible_files_spec root files acc Hcfg). cbn [bind].
    fold (walk_paths walk). rewrite (IH _ Hcfg).
    rewrite filter_app, app_assoc. reflexivity.
Qed.

(** X9: with such a configuration, the files [process_directory] submits to
    the pool are exactly the paths of the walk for which the dispatcher
    finds a processor under a key that is true, in walk order; finding them
    logs their number and nothing else. *)
Theorem find_files_selects_compatible :
  forall w self items input_dir,
    extensions_configured self items ->
    Universal.find_files w self input_dir
    = (inr (filter (compatible self) (walk_paths (os_walk w input_dir))),
       [Log "INFO"
          ("Found "
           ++ PyStr.str_of_nat
                (List.length
                   (filter (compatible self)
                      (walk_paths (os_walk w input_dir))))
           ++ " files to process")]).
Proof.
  intros w self items input_dir Hcfg. unfold Universal.find_files.
  rewrite (compatible_walk_spec (os_walk w input_dir) [] Hcfg).
  reflexivity.
Qed.

(** X9 on the sample directory: the text file is left out. *)
Lemma find_files_selects_compatible_witness :
  Universal.find_files Sample.docs_world Sample.universal_processor "docs"
  = (inr (filter (compatible Sample.universal_processor)
            (walk_paths (os_walk Sample.docs_world "docs"))),
     [Log "INFO"
        ("Found "
         ++ PyStr.str_of_nat
              (List.length
                 (filter (compatible Sample.universal_processor)
                    (walk_paths (os_walk Sample.docs_world "docs"))))
         ++ " files to process")]).
Proof.
  apply (@find_files_selects_compatible Sample.docs_world
           Sample.universal_processor
           [ (KStr "word", VList [VStr ".docx"; VStr ".doc"]);
             (KStr "pdf", VList [VStr ".pdf"]) ]
           "docs").
  split; reflexivity.
Defined.

Example sample_files_found :
  filter (compatible Sample.universal_processor)
    (walk_paths (os_walk Sample.docs_world "docs"))
  = ["docs/report.pdf"; "docs/memo.docx"; "docs/OLD.PDF"].
Proof. reflexivity. Qed.

(** ** [_load_config] keeps what the file sets *)

(** X10: when the configuration file exists and holds a mapping,
    [_load_config] returns that dictionary itself, logs nothing, and no
    default replaces a setting of the file: every object of the file that
    is not a dictionary is unchanged, also where the default is a
    dictionary; every dictionary of the file keeps its entries, in their
    order, and what it gets comes after them, under keys it did not have;
    the objects of the defaults are not changed. *)
Theorem load_config_keeps_settings :
  forall w path doc,
    PyStr.nonempty path = true ->
    os_path_exists w path = true ->
    yaml_safe_load w path = inr doc ->
    Store.is_dict (loaded_store doc) (loaded_root doc) = true ->
    exists st,
      Universal._load_config w (Some path) = (inr (st, loaded_root doc), [])
      /\ keeps_settings doc st.
Proof.
  intros w path doc Hpath Hexists Hload Hroot.
  apply is_dict_at in Hroot. destruct Hroot as (a & es_a & Hroot & Hdict).
  destruct (load_config_merged w path Hpath Hexists Hload Hroot Hdict)
    as (st & Hrun & _ & Hintact & Hkeeps & _).
  exists st. rewrite Hroot. split; [exact Hrun |].
  split; assumption.
Qed.

(** X10 on the partial [config.yaml]: the list under "file_extensions" and
    the "ocr_enabled: false" of the PDF processor are kept. *)
Lemma load_config_keeps_settings_witness :
  exists st,
    Universal._load_config Sample.config_world (Some "config.yaml")
    = (inr (st, RAddr 7), []) /\
    keeps_settings Sample.partial_config st.
Proof.
  apply (@load_config_keeps_settings Sample.config_world "config.yaml"
           Sample.partial_config); reflexivity.
Defined.

(** X11: [_load_config] never raises.  Without a path, with the empty path
    or with a path that does not exist it returns the default configuration
    and logs nothing.  When the file cannot be loaded, or holds anything
    but a mapping (an empty file loads as [None]), it logs one error and
    returns the default configuration; the error of a file that is not a
    mapping is a TypeError.  Only a mapping gives another dictionary, the
    one of the file, and then nothing is logged. *)
Theorem load_config_falls_back :
  forall w config_path,
    match config_path with
    | None =>
        Universal._load_config w config_path
        = (inr (Store.alloc Universal.default_config []), [])
    | Some path =>
        if negb (PyStr.nonempty path) || negb (os_path_exists w path)
        then Universal._load_config w config_path
             = (inr (Store.alloc Universal.default_config []), [])
        else match yaml_safe_load w path with
             | inl e =>
                 Universal._load_config w config_path
                 = (inr (Store.alloc Universal.default_config []),
                    [config_error e])
             | inr doc =>
                 if Store.is_dict (loaded_store doc) (loaded_root doc)
                 then exists st,
                        Universal._load_config w config_path
                        = (inr (st, loaded_root doc), [])
                 else exists e,
                        exn_cls e = TypeError /\
                        Universal._load_config w config_path
                        = (inr (loaded_store doc,
                                snd (Store.alloc Universal.default_config [])),
                           [config_error e])
             end
    end.
Proof.
  intros w [path |]; [| reflexivity].
  rewrite default_objects. cbn [snd].
  destruct (PyStr.nonempty path) eqn:Hpath; cbn [negb orb].
  2:{ apply load_config_no_file. rewrite Hpath. reflexivity. }
  destruct (os_path_exists w path) eqn:Hexists; cbn [negb].
  2:{ apply load_config_no_file. rewrite Hpath, Hexists. reflexivity. }
  destruct (yaml_safe_load w path) as [e | doc] eqn:Hload.
  { apply load_config_load_error; assumption. }
  destruct (Store.is_dict (loaded_store doc) (loaded_root doc)) eqn:Hroot.
  - apply is_dict_at in Hroot. destruct Hroot as (a & es_a & Hroot & Hdict).
    destruct (load_config_merged w path Hpath Hexists Hload Hroot Hdict)
      as (st & Hrun & _).
    exists st. rewrite Hroot. exact Hrun.
  - apply load_config_no_dictionary; assumption.
Qed.

(** ** A heading style without a number stops the conversion *)

Lemma for_each_app : forall A (l1 l2 : list A) (body : A -> M unit),
  for_each (l1 ++ l2) body
  = bind (for_each l1 body) (fun _ => for_each l2 body).
Proof.
  intros A l1 l2 body; induction l1 as [| x l1 IH]; cbn [app for_each].
  - rewrite bind_ret_l. reflexivity.
  - rewrite bind_assoc. apply bind_ext. intros _. exact IH.
Qed.

(** Paragraphs that all render are written, and the loop goes on. *)
Lemma paragraphs_written : forall w out paras text,
  rendered_until (rendered_paragraph w) (filter has_text paras)
  = (text, None) ->
  exists tr,
    for_each paras (Word.convert_paragraph w out) = (inr tt, tr)
    /\ only_writes out tr = true
    /\ written out tr = text.
Proof.
  intros w out paras text Hrender.
  destruct (paragraphs_run w out paras) as (r & tr & Hrun & Hw & Hdata & Hstop).
  rewrite Hrender in Hdata, Hstop. cbn [fst snd] in Hdata, Hstop. subst r.
  exists tr. auto.
Qed.

Lemma paragraphs_stop : forall w out good bad rest e text,
  rendered_until (rendered_paragraph w) (filter has_text good)
  = (text, None) ->
  has_text bad = true ->
  is_heading bad = true ->
  Word.heading_level w (style_name bad) = inl e ->
  exists tr,
    for_each (good ++ bad :: rest) (Word.convert_paragraph w out)
    = (inl e, tr)
    /\ only_writes out tr = true
    /\ written out tr = text.
Proof.
  intros w out good bad rest e text Hgood Htext Hhead Hlevel.
  destruct (@paragraphs_written w out good text Hgood)
    as (tr & Hrun & Hw & Hdata).
  exists (tr ++ [])%list. rewrite app_nil_r at 2 3.
  split; [| split; assumption].
  rewrite for_each_app. eapply bind_run_fail; [exact Hrun |].
  cbn [for_each]. apply bind_fail.
  unfold Word.convert_paragraph.
  unfold has_text in Htext. rewrite strip_empty_iff_whitespace.
  rewrite negb_involutive.
  apply negb_true_iff in Htext. rewrite Htext.
  unfold is_heading in Hhead. rewrite Hhead, Hlevel. reflexivity.
Qed.

(** X12: a paragraph with text whose style name starts with "Heading" but
    leaves no integer once "Heading" is removed stops the conversion of a
    Word document whose paragraphs before that one render:
    [convert_to_markdown] returns the error string of the failed [int()],
    and the markdown file is left with the front matter and the paragraphs
    before that one. *)
Theorem word_unnumbered_heading_stops_conversion :
  forall w self file_path output_dir doc good bad rest e text,
    docx_Document w file_path = inr doc ->
    open_for_write w (Word.md_path file_path output_dir) = None ->
    images_saved_elsewhere w self doc (Word.md_path file_path output_dir) ->
    paragraphs doc = (good ++ bad :: rest)%list ->
    rendered_until (rendered_paragraph w) (filter has_text good)
    = (text, None) ->
    has_text bad = true ->
    is_heading bad = true ->
    Word.heading_level w (style_name bad) = inl e ->
    exists metadata,
      result_of (Word.extract_metadata w self file_path) = inr metadata /\
      result_of (Word.convert_to_markdown w self file_path output_dir)
      = inr ("Error: Could not convert document to Markdown ("
             ++ exn_str e ++ ")") /\
      exn_cls e = ValueError /\
      file_content (Word.md_path file_path output_dir)
        (trace_of (Word.convert_to_markdown w self file_path output_dir))
      = Some (frontmatter metadata ++ text).
Proof.
  intros w self file_path output_dir doc good bad rest e text
         Hdoc Hopen Himg Hparas Hgood Htext Hhead Hlevel.
  set (out := Word.md_path file_path output_dir) in *.
  destruct (word_extract_metadata_returns w self file_path)
    as (metadata & tm & Hmd).
  assert (Hquiet : avoids out tm = true).
  { change tm with (trace_of (inr (A:=exn) metadata, tm)). rewrite <- Hmd.
    eapply word_extract_metadata_avoids; eassumption. }
  destruct (avoids_quiet _ _ Hquiet) as [Hmopen Hmdata].
  destruct (word_frontmatter_written out metadata)
    as (tf & Hf & Hfopen & Hfdata).
  destruct (@paragraphs_stop w out good bad rest e text
              Hgood Htext Hhead Hlevel)
    as (tp & Hp & Hpw & Hpdata).
  assert (Hbody : Word.convert_body w self file_path output_dir
                  = (inl e, [] ++ [OpenW out] ++ tm ++ tf ++ tp)%list).
  { unfold Word.convert_body. fold out.
    eapply bind_run_fail; [rewrite Hdoc; reflexivity |].
    eapply bind_run_fail; [unfold open_w; rewrite Hopen; reflexivity |].
    eapply bind_run_fail; [exact Hmd |].
    eapply bind_run_fail; [exact Hf |].
    rewrite Hparas. apply bind_fail. exact Hp. }
  exists metadata. rewrite Hmd. split; [reflexivity |].
  unfold Word.convert_to_markdown. rewrite Hbody.
  split; [reflexivity |]. split.
  { unfold Word.heading_level in Hlevel.
    destruct (PyStr.py_int _ _); inversion Hlevel; reflexivity. }
  unfold file_content. cbn [trace_of snd try_except app replay bind
                              logger_error emit ret].
  rewrite String.eqb_refl, replay_written.
  - rewrite !written_app, Hmdata, Hfdata, Hpdata. cbn [written].
    rewrite !append_nil_r. cbn [append]. reflexivity.
  - rewrite !never_opens_app, Hmopen, Hfopen.
    rewrite (only_writes_never_opens _ _ Hpw). reflexivity.
Qed.

(** X12 on a document with the style "Heading TOC". *)
Lemma word_unnumbered_heading_stops_conversion_witness :
  exists metadata,
    result_of (Word.extract_metadata Sample.styled_world
                 Sample.word_processor "styled.docx") = inr metadata /\
    result_of (Word.convert_to_markdown Sample.styled_world
                 Sample.word_processor "styled.docx" "out")
    = inr ("Error: Could not convert document to Markdown ("
           ++ "invalid literal for int() with base 10: ' TOC'" ++ ")") /\
    exn_cls (Exn ValueError
               "invalid literal for int() with base 10: ' TOC'")
    = ValueError /\
    file_content "out/styled.md"
      (trace_of (Word.convert_to_markdown Sample.styled_world
                   Sample.word_processor "styled.docx" "out"))
    = Some (frontmatter metadata
            ++ ("## Overview" ++ line_feed ++ line_feed)).
Proof.
  apply (@word_unnumbered_heading_stops_conversion Sample.styled_world
           Sample.word_processor "styled.docx" "out" Sample.styled_docx
           [ {| para_text := "Overview"; style_name := "Heading 2";
                para_runs := [] |} ]
           {| para_text := "Contents"; style_name := "Heading TOC";
              para_runs := [] |}
           [ {| para_text := "Never written"; style_name := "Normal";
                para_runs := [] |} ]
           (Exn ValueError
              "invalid literal for int() with base 10: ' TOC'")
           ("## Overview" ++ line_feed ++ line_feed));
    reflexivity || (intros Hinc; discriminate Hinc).
Defined.

(** A level outside the 64-bit indices stops the conversion with an
    OverflowError, before any later paragraph is looked at. *)
Example heading_level_out_of_range :
  forall w,
    rendered_paragraph w
      {| para_text := "Deep"; style_name := "Heading 9223372036854775808";
         para_runs := [] |}
    = inl OverflowError
    /\ rendered_paragraph w
         {| para_text := "Flat"; style_name := "Heading -3";
            para_runs := [] |}
       = inr (" Flat" ++ line_feed ++ line_feed).
Proof. intros w. split; reflexivity. Qed.

(** ** Files of the same name share one markdown file *)

Lemma basename_go_slash : forall a b cur,
  OsPath.basename_go (a ++ String "/" b) cur
  = OsPath.basename_go b EmptyString.
Proof.
  induction a as [| c a IH]; intros b cur; cbn [append OsPath.basename_go].
  - reflexivity.
  - destruct (Ascii.eqb c "/"); apply IH.
Qed.

Lemma basename_join : forall root file,
  OsPath.basename (OsPath.join root file) = OsPath.basename file.
Proof.
  intros root file. unfold OsPath.join, OsPath.basename.
  destruct (PyStr.startswith file "/"); [reflexivity |].
  destruct root as [| c root]; [reflexivity |]. cbn [PyStr.nonempty negb orb].
  destruct (PyStr.endswith (String c root) "/") eqn:Hend.
  - apply endswith_iff in Hend. destruct Hend as [stem ->].
    rewrite append_assoc. apply basename_go_slash.
  - apply (basename_go_slash (String c root)).
Qed.

Lemma replay_defined : forall path tr c acc,
  replay path tr None = Some c -> replay path tr acc = Some c.
Proof.
  intros path tr; induction tr as [| ev tr IH]; intros c acc H;
    cbn [replay] in *.
  - discriminate H.
  - destruct ev; try (apply IH; exact H).
    + destruct (String.eqb path0 path); [exact H | apply IH; exact H].
    + destruct (String.eqb path0 path); apply IH; exact H.
Qed.

Lemma kept_result_overwrites : forall body run output_path what before p,
  path_or_error body run output_path what ->
  result_of run = inr p ->
  not_error p = true ->
  p = output_path /\
  file_content p (before ++ trace_of run) = file_content p (trace_of run).
Proof.
  intros body run output_path what before p
         [(t & c & Hb & Hr & Hc) | (e & t & msg & Hb & Hr & Hmsg & _)]
         Hres Hkept.
  - rewrite Hr in Hres. simpl in Hres. inversion Hres; subst p.
    split; [reflexivity |]. rewrite Hr. cbn [trace_of snd].
    unfold file_content in *. rewrite replay_app, Hc.
    apply replay_defined. exact Hc.
  - rewrite Hr in Hres. inversion Hres; subst p.
    unfold not_error in Hkept. rewrite Hmsg in Hkept. discriminate Hkept.
Qed.

(** X13: the markdown path of a file depends on its name only, not on its
    directory, and is the same for both processors.  So when a conversion
    returns a path, whatever an earlier conversion of a file of the same
    name in another directory wrote there is gone: the file holds what the
    later conversion wrote. *)
Theorem same_name_overwrites :
  forall w pdf word root1 root2 file output_dir,
    Pdf.md_path (OsPath.join root1 file) output_dir
    = Pdf.md_path (OsPath.join root2 file) output_dir /\
    Word.md_path (OsPath.join root1 file) output_dir
    = Pdf.md_path (OsPath.join root2 file) output_dir /\
    (forall before p,
        result_of (Pdf.convert_to_markdown w pdf (OsPath.join root2 file)
                     output_dir) = inr p ->
        not_error p = true ->
        p = Pdf.md_path (OsPath.join root1 file) output_dir /\
        file_content p
          (before
           ++ trace_of (Pdf.convert_to_markdown w pdf
                          (OsPath.join root2 file) output_dir))
        = file_content p
            (trace_of (Pdf.convert_to_markdown w pdf
                         (OsPath.join root2 file) output_dir))) /\
    (forall before p,
        result_of (Word.convert_to_markdown w word (OsPath.join root2 file)
                     output_dir) = inr p ->
        not_error p = true ->
        p = Word.md_path (OsPath.join root1 file) output_dir /\
        file_content p
          (before
           ++ trace_of (Word.convert_to_markdown w word
                          (OsPath.join root2 file) output_dir))
        = file_content p
            (trace_of (Word.convert_to_markdown w word
                         (OsPath.join root2 file) output_dir))).
Proof.
  intros w pdf word root1 root2 file output_dir.
  assert (Hpdf : Pdf.md_path (OsPath.join root1 file) output_dir
                 = Pdf.md_path (OsPath.join root2 file) output_dir).
  { unfold Pdf.md_path, Pdf.md_name. rewrite !basename_join. reflexivity. }
  split; [exact Hpdf |]. split; [exact Hpdf |]. split.
  - intros before p Hres Hkept. rewrite Hpdf.
    eapply kept_result_overwrites; [| exact Hres | exact Hkept].
    apply catch_log_return. intros q t. apply pdf_body_returns.
  - intros before p Hres Hkept.
    change (Word.md_path (OsPath.join root1 file) output_dir)
      with (Pdf.md_path (OsPath.join root1 file) output_dir).
    rewrite Hpdf.
    change (Pdf.md_path (OsPath.join root2 file) output_dir)
      with (Word.md_path (OsPath.join root2 file) output_dir).
    eapply kept_result_overwrites; [| exact Hres | exact Hkept].
    apply catch_log_return. intros q t. apply word_body_returns.
Qed.

(** X13 on two directories that each hold a [report.pdf]: after both
    conversions [out/report.md] holds the second report only. *)
Lemma same_name_overwrites_witness :
  file_content "out/report.md"
    (trace_of (Pdf.convert_to_markdown Sample.twin_world
                 Sample.pdf_processor "a/report.pdf" "out")
     ++ trace_of (Pdf.convert_to_markdown Sample.twin_world
                    Sample.pdf_processor "b/report.pdf" "out"))
  = file_content "out/report.md"
      (trace_of (Pdf.convert_to_markdown Sample.twin_world
                   Sample.pdf_processor "b/report.pdf" "out")).
Proof.
  destruct (same_name_overwrites Sample.twin_world Sample.pdf_processor
              Sample.word_processor "a" "b" "report.pdf" "out")
    as (_ & _ & Hpdf & _).
  apply (Hpdf (trace_of (Pdf.convert_to_markdown Sample.twin_world
                           Sample.pdf_processor "a/report.pdf" "out"))
           "out/report.md"); reflexivity.
Defined.

(** ** An output directory named like an error *)

Lemma all_chars_rev_acc : forall P s acc,
  all_chars P (PyStr.rev_acc s acc) = all_chars P s && all_chars P acc.
Proof.
  unfold all_chars. intros P s; induction s as [| c s IH]; intros acc.
  - reflexivity.
  - cbn [PyStr.rev_acc list_ascii_of_string forallb]. rewrite IH.
    cbn [list_ascii_of_string forallb].
    destruct (P c), (forallb P (list_ascii_of_string s)); reflexivity.
Qed.

Lemma basename_go_no_slash : forall p cur,
  all_chars (fun c => negb (Ascii.eqb c "/")) cur = true ->
  all_chars (fun c => negb (Ascii.eqb c "/")) (OsPath.basename_go p cur)
  = true.
Proof.
  induction p as [| c p IH]; intros cur Hcur; cbn [OsPath.basename_go].
  - unfold PyStr.rev. rewrite all_chars_rev_acc, Hcur. reflexivity.
  - destruct (Ascii.eqb c "/") eqn:Hc; apply IH.
    + reflexivity.
    + unfold all_chars in *. cbn [list_ascii_of_string forallb].
      rewrite Hc, Hcur. reflexivity.
Qed.

Lemma all_chars_app : forall P a b,
  all_chars P (a ++ b) = all_chars P a && all_chars P b.
Proof.
  unfold all_chars. intros P a b; induction a as [| c a IH].
  - reflexivity.
  - cbn [append list_ascii_of_string forallb]. rewrite IH.
    apply andb_assoc.
Qed.

Lemma substring_drop : forall n s,
  substring 0 n s ++ PyStr.drop n s = s.
Proof.
  induction n as [| n IH]; intros s.
  - destruct s; reflexivity.
  - destruct s as [| c s]; [reflexivity |]. cbn [substring PyStr.drop append].
    rewrite IH. reflexivity.
Qed.

Lemma splitext_parts : forall p,
  fst (OsPath.splitext p) ++ snd (OsPath.splitext p) = p.
Proof.
  intros p. unfold OsPath.splitext.
  destruct (OsPath.rfind "." p) as [dot |]; [| apply append_nil_r].
  match goal with |- context [if ?b then _ else _] => destruct b end.
  - apply substring_drop.
  - apply append_nil_r.
Qed.

Lemma md_name_no_slash : forall file_path,
  all_chars (fun c => negb (Ascii.eqb c "/")) (Pdf.md_name file_path) = true.
Proof.
  intros file_path. unfold Pdf.md_name.
  pose proof (basename_go_no_slash file_path EmptyString eq_refl) as Hb.
  fold (OsPath.basename file_path) in Hb.
  rewrite <- (splitext_parts (OsPath.basename file_path)) in Hb.
  rewrite all_chars_app in Hb. apply andb_true_iff in Hb. apply Hb.
Qed.

Lemma join_keeps_prefix : forall a b p,
  PyStr.startswith a p = true ->
  PyStr.startswith b "/" = false ->
  PyStr.startswith (OsPath.join a b) p = true.
Proof.
  intros a b p Ha Hb. unfold OsPath.join. rewrite Hb.
  unfold PyStr.startswith in *. apply prefix_exists in Ha.
  destruct Ha as [rest ->].
  destruct (negb (PyStr.nonempty (p ++ rest))
            || PyStr.endswith (p ++ rest) "/");
    rewrite append_assoc; apply prefix_app.
Qed.

Lemma md_path_keeps_prefix : forall file_path output_dir p,
  PyStr.startswith output_dir p = true ->
  PyStr.startswith (Pdf.md_path file_path output_dir) p = true.
Proof.
  intros file_path output_dir p Hp. unfold Pdf.md_path.
  apply join_keeps_prefix; [exact Hp |].
  pose proof (md_name_no_slash file_path) as Hn.
  destruct (Pdf.md_name file_path) as [| c name]; [reflexivity |].
  unfold all_chars in Hn. cbn [list_ascii_of_string forallb] in Hn.
  apply andb_true_iff in Hn. destruct Hn as [Hc _].
  apply negb_true_iff in Hc.
  unfold PyStr.startswith. cbn [append]. apply prefix_first.
  rewrite Ascii.eqb_sym. exact Hc.
Qed.

Lemma nothing_kept : forall w output_dir convert body out_path paths run,
  converts_exactly w output_dir convert body out_path paths run ->
  (forall path, not_error (out_path path) = false) ->
  result_of run = inr [].
Proof.
  intros w output_dir convert body out_path paths run
         (results & Hall & Hres & _) Hout.
  rewrite Hres. f_equal. clear Hres.
  induction Hall as [| path r paths results [_ Hkept] _ IH]; cbn [filter].
  - reflexivity.
  - destruct (not_error r) eqn:Hr; [| exact IH].
    destruct (Hkept eq_refl) as [-> _]. rewrite Hout in Hr. discriminate Hr.
Qed.

(** X14: a result counts as an error when it starts with "Error", and so
    does every markdown path under an output directory whose name starts
    with "Error".  With such a directory [process_directory] of the PDF and
    of the Word processor returns the empty list, whatever was
    converted. *)
Theorem error_named_output_dir_hides_results :
  forall w pdf word input_dir output_dir,
    PyStr.startswith output_dir "Error" = true ->
    (os_path_exists w output_dir = true \/ os_makedirs w output_dir = None) ->
    (forall file_path,
        not_error (Pdf.md_path file_path output_dir) = false /\
        not_error (Word.md_path file_path output_dir) = false) /\
    result_of (Pdf.process_directory w pdf input_dir output_dir) = inr [] /\
    result_of (Word.process_directory w word input_dir output_dir) = inr [].
Proof.
  intros w pdf word input_dir output_dir Hname Hdir.
  assert (Hpaths : forall file_path,
             not_error (Pdf.md_path file_path output_dir) = false).
  { intros file_path. unfold not_error.
    rewrite (md_path_keeps_prefix file_path _ _ Hname). reflexivity. }
  split; [intros file_path; split; apply Hpaths |]. split.
  - eapply nothing_kept; [| exact Hpaths].
    unfold Pdf.process_directory.
    erewrite bind_ext; [| intros; apply pdf_process_walk_eq].
    apply process_directory_shape; [exact Hdir |].
    intros path. apply pdf_convert_kept.
  - eapply nothing_kept; [| exact Hpaths].
    unfold Word.process_directory.
    erewrite bind_ext; [| intros; apply word_process_walk_eq].
    apply process_directory_shape; [exact Hdir |].
    intros path. apply word_convert_kept.
Qed.

(** X14 on the sample directory with the output directory [Errors]. *)
Lemma error_named_output_dir_hides_results_witness :
  (forall file_path,
      not_error (Pdf.md_path file_path "Errors") = false /\
      not_error (Word.md_path file_path "Errors") = false) /\
  result_of (Pdf.process_directory Sample.docs_world Sample.pdf_processor
               "docs" "Errors") = inr [] /\
  result_of (Word.process_directory Sample.docs_world Sample.word_processor
               "docs" "Errors") = inr [].
Proof.
  apply (@error_named_output_dir_hides_results Sample.docs_world
           Sample.pdf_processor Sample.word_processor "docs" "Errors").
  - reflexivity.
  - right. reflexivity.
Defined.

Example report_converted_but_not_listed :
  file_content "Errors/report.md"
    (trace_of (Pdf.process_directory Sample.docs_world Sample.pdf_processor
                 "docs" "Errors"))
  <> None.
Proof. vm_compute. discriminate. Qed.

(** ** What a conversion touches *)

Lemma every_app : forall P t1 t2,
  every P (t1 ++ t2) = every P t1 && every P t2.
Proof. intros. apply forallb_app. Qed.

Lemma every_bind : forall {A B} P (m : M A) (f : A -> M B),
  every P (trace_of m) = true ->
  (forall a, every P (trace_of (f a)) = true) ->
  every P (trace_of (bind m f)) = true.
Proof.
  intros A B P [[e | a] t] f Hm Hf; simpl in *.
  - exact Hm.
  - specialize (Hf a). destruct (f a) as [r t']. simpl in *.
    rewrite every_app, Hm, Hf. reflexivity.
Qed.

Lemma every_try : forall {A} P (m : M A) (h : exn -> M A),
  every P (trace_of m) = true ->
  (forall e, every P (trace_of (h e)) = true) ->
  every P (trace_of (try_except m h)) = true.
Proof.
  intros A P [[e | a] t] h Hm Hh; simpl in *.
  - specialize (Hh e). destruct (h e) as [r t']. simpl in *.
    rewrite every_app, Hm, Hh. reflexivity.
  - exact Hm.
Qed.

Lemma every_for_each : forall {A} P (l : list A) (body : A -> M unit),
  (forall x, every P (trace_of (body x)) = true) ->
  every P (trace_of (for_each l body)) = true.
Proof.
  intros A P l body Hbody; induction l as [| x l IH]; cbn [for_each].
  - reflexivity.
  - apply every_bind; [apply Hbody | intros _; exact IH].
Qed.

Lemma every_only_logs : forall P tr,
  (forall level msg, P (Log level msg) = true) ->
  only_logs tr = true -> every P tr = true.
Proof.
  intros P tr HP; induction tr as [| ev tr IH]; simpl; intros H.
  - reflexivity.
  - destruct ev; try discriminate H. rewrite HP. apply IH, H.
Qed.

Ltac checking :=
  repeat match goal with
         | |- every _ (trace_of (bind (lift (inr _)) _)) = true =>
             rewrite bind_lift_ok
         | |- every _ (trace_of (bind _ _)) = true =>
             apply every_bind; [| intros ? ]
         | |- every _ (trace_of (try_except _ _)) = true =>
             apply every_try; [| intros ? ]
         | |- every _ (trace_of (for_each _ _)) = true =>
             apply every_for_each; intros ?
         | |- every _ (trace_of (if ?b then _ else _)) = true =>
             destruct b
         | |- every _ (trace_of (let (_, _) := ?x in _)) = true =>
             destruct x
         | |- every _ (trace_of (lift _)) = true => reflexivity
         | |- every _ (trace_of (ret _)) = true => reflexivity
         | |- every _ (trace_of (raise _)) = true => reflexivity
         | |- every _ (trace_of (logger_error _)) = true => reflexivity
         | |- every _ (trace_of (logger_info _)) = true => reflexivity
         | |- every _ (trace_of (logger_warning _)) = true => reflexivity
         | |- every _ (trace_of (logger_debug _)) = true => reflexivity
         | |- every no_copy (trace_of (write _ _)) = true => reflexivity
         | |- every no_copy (trace_of (open_w ?w ?p)) = true =>
             unfold open_w; destruct (open_for_write w p); reflexivity
         | |- every no_copy (trace_of (makedirs ?w ?p)) = true =>
             unfold makedirs; destruct (os_makedirs w p); reflexivity
         | |- every (touches_only ?p) (trace_of (write ?p _)) = true =>
             simpl; rewrite String.eqb_refl; reflexivity
         | |- every (touches_only ?p) (trace_of (open_w ?w ?p)) = true =>
             unfold open_w; destruct (open_for_write w p);
             [reflexivity | simpl; rewrite String.eqb_refl; reflexivity]
         end.

Lemma pdf_extract_metadata_every : forall P w self file_path,
  (forall level msg, P (Log level msg) = true) ->
  every P (trace_of (Pdf.extract_metadata w self file_path)) = true.
Proof.
  intros P w self file_path HP. apply every_only_logs; [exact HP |].
  apply pdf_extract_metadata_quiet.
Qed.

Lemma pdf_ocr_every : forall P self page,
  (forall level msg, P (Log level msg) = true) ->
  every P (trace_of (Pdf._extract_text_with_ocr self page)) = true.
Proof.
  intros P self page HP. unfold Pdf._extract_text_with_ocr.
  apply every_try; [reflexivity |]. intros e.
  apply every_bind; [| intros; reflexivity]. simpl. rewrite HP. reflexivity.
Qed.

Lemma save_images_no_copy :
  forall w out img_dir name page_num images idx,
    every no_copy
      (trace_of (Pdf.save_images w out img_dir name page_num idx images))
    = true.
Proof.
  intros w out img_dir name page_num images;
    induction images as [| img images IH]; intros idx;
    cbn [Pdf.save_images].
  - reflexivity.
  - checking. apply IH.
Qed.

Lemma convert_pages_no_copy :
  forall w self output_dir name out pages page_num,
    every no_copy
      (trace_of (Pdf.convert_pages w self output_dir name out page_num pages))
    = true.
Proof.
  intros w self output_dir name out pages;
    induction pages as [| page pages IH]; intros page_num;
    cbn [Pdf.convert_pages].
  - reflexivity.
  - checking; try (apply pdf_ocr_every; reflexivity);
      try apply save_images_no_copy; apply IH.
Qed.

Lemma pdf_conversion_no_copy : forall w self file_path output_dir,
  every no_copy
    (trace_of (Pdf.convert_to_markdown w self file_path output_dir)) = true.
Proof.
  intros w self file_path output_dir.
  unfold Pdf.convert_to_markdown, Pdf.convert_body, Pdf.write_frontmatter.
  checking; try (apply pdf_extract_metadata_every; reflexivity).
  apply convert_pages_no_copy.
Qed.

Lemma convert_pages_touches :
  forall w self output_dir name out pages page_num,
    Py.truthy (Pdf.extract_images self) = false ->
    every (touches_only out)
      (trace_of (Pdf.convert_pages w self output_dir name out page_num pages))
    = true.
Proof.
  intros w self output_dir name out pages;
    induction pages as [| page pages IH]; intros page_num Himg;
    cbn [Pdf.convert_pages].
  - reflexivity.
  - rewrite Himg.
    checking; try (apply pdf_ocr_every; reflexivity). apply IH, Himg.
Qed.

Lemma save_rel_images_no_copy : forall w rels images,
  every no_copy (trace_of (Word.save_rel_images w rels images)) = true.
Proof.
  intros w rels; induction rels as [| rel rels IH]; intros images;
    cbn [Word.save_rel_images].
  - reflexivity.
  - checking; apply IH.
Qed.

Lemma word_extract_metadata_no_copy : forall w self file_path,
  every no_copy (trace_of (Word.extract_metadata w self file_path)) = true.
Proof.
  intros w self file_path.
  unfold Word.extract_metadata, Word.extract_text.
  checking; apply save_rel_images_no_copy.
Qed.

Lemma word_extract_metadata_touches : forall w self file_path out,
  Word.include_images self = false ->
  every (touches_only out)
    (trace_of (Word.extract_metadata w self file_path)) = true.
Proof.
  intros w self file_path out Hinc.
  unfold Word.extract_metadata, Word.extract_text. rewrite Hinc.
  checking.
Qed.

Lemma convert_paragraph_every : forall P w out para,
  (forall data, P (Write out data) = true) ->
  every P (trace_of (Word.convert_paragraph w out para)) = true.
Proof.
  intros P w out para HP. unfold Word.convert_paragraph.
  checking; simpl; rewrite HP; reflexivity.
Qed.

Lemma convert_table_every : forall P out table,
  (forall data, P (Write out data) = true) ->
  every P (trace_of (Word.convert_table out table)) = true.
Proof.
  intros P out table HP. unfold Word.convert_table.
  destruct (table_rows table) as [| row0 rows]; [reflexivity |].
  checking; simpl; rewrite HP; reflexivity.
Qed.

Lemma word_frontmatter_every : forall P out metadata,
  (forall data, P (Write out data) = true) ->
  every P (trace_of (Word.write_frontmatter out metadata)) = true.
Proof.
  intros P out metadata HP. unfold Word.write_frontmatter.
  checking; simpl; rewrite HP; reflexivity.
Qed.

Lemma word_conversion_no_copy : forall w self file_path output_dir,
  every no_copy
    (trace_of (Word.convert_to_markdown w self file_path output_dir)) = true.
Proof.
  intros w self file_path output_dir.
  unfold Word.convert_to_markdown, Word.convert_body.
  checking;
    try apply word_extract_metadata_no_copy;
    try (apply word_frontmatter_every; reflexivity);
    try (apply convert_paragraph_every; reflexivity);
    try (apply convert_table_every; reflexivity).
Qed.

Lemma touches_own_write : forall out data,
  touches_only out (Write out data) = true.
Proof. intros. simpl. apply String.eqb_refl. Qed.

(** X15: with image extraction off, a conversion touches no file but its
    markdown file: every event of [convert_to_markdown], of the PDF and of
    the Word processor, is a log record or opens or writes the markdown
    path; no directory is made and nothing is copied, whether the
    conversion runs through or fails. *)
Theorem conversion_touches_only_output :
  forall w pdf word pdf_path word_path output_dir,
    Py.truthy (Pdf.extract_images pdf) = false ->
    Word.include_images word = false ->
    every (touches_only (Pdf.md_path pdf_path output_dir))
      (trace_of (Pdf.convert_to_markdown w pdf pdf_path output_dir)) = true
    /\
    every (touches_only (Word.md_path word_path output_dir))
      (trace_of (Word.convert_to_markdown w word word_path output_dir))
    = true.
Proof.
  intros w pdf word pdf_path word_path output_dir Himg Hinc. split.
  - unfold Pdf.convert_to_markdown, Pdf.convert_body, Pdf.write_frontmatter.
    checking; try (apply pdf_extract_metadata_every; reflexivity).
    apply convert_pages_touches, Himg.
  - unfold Word.convert_to_markdown, Word.convert_body.
    checking;
      try (apply word_extract_metadata_touches; exact Hinc);
      try (apply word_frontmatter_every; apply touches_own_write);
      try (apply convert_paragraph_every; apply touches_own_write);
      try (apply convert_table_every; apply touches_own_write).
Qed.

(** X15 on the sample processors, which extract no images. *)
Lemma conversion_touches_only_output_witness :
  every (touches_only "out/report.md")
    (trace_of (Pdf.convert_to_markdown Sample.docs_world
                 Sample.pdf_processor "docs/report.pdf" "out")) = true
  /\
  every (touches_only "out/memo.md")
    (trace_of (Word.convert_to_markdown Sample.docs_world
                 Sample.word_processor "docs/memo.docx" "out")) = true.
Proof.
  apply (@conversion_touches_only_output Sample.docs_world
           Sample.pdf_processor Sample.word_processor "docs/report.pdf"
           "docs/memo.docx" "out"); reflexivity.
Defined.

Lemma match_extension_silent : forall self ext items,
  trace_of (Universal.match_extension self ext items) = [].
Proof.
  intros self ext items; induction items as [| [t exts] items IH];
    cbn [Universal.match_extension].
  - reflexivity.
  - destruct (Py.str_in ext exts) as [e | known]; [reflexivity |].
    rewrite bind_lift_ok.
    destruct (if known
              then Universal.find_processor t (Universal.processors self)
              else None); [reflexivity | exact IH].
Qed.

Lemma dispatcher_silent : forall self file_path,
  trace_of (Universal._get_processor_for_file self file_path) = [].
Proof.
  intros self file_path. unfold Universal._get_processor_for_file.
  destruct (Py.getitem (Universal.config self) "file_extensions")
    as [e | v]; [reflexivity |].
  rewrite bind_lift_ok. destruct v; try reflexivity.
  apply match_extension_silent.
Qed.

Lemma convert_with_no_copy : forall w proc file_path output_dir,
  every no_copy
    (trace_of (Universal.convert_with w proc file_path output_dir)) = true.
Proof.
  intros w [word | pdf] file_path output_dir; simpl.
  - apply word_conversion_no_copy.
  - apply pdf_conversion_no_copy.
Qed.

Lemma makedirs_value_no_copy : forall w v,
  every no_copy (trace_of (Universal.makedirs_value w v)) = true.
Proof.
  intros w v. destruct v; try reflexivity.
  unfold Universal.makedirs_value. checking.
Qed.

Lemma no_copy_not_in : forall tr src dst,
  every no_copy tr = true -> ~ In (Copy2 src dst) tr.
Proof.
  intros tr src dst Hall Hin. unfold every in Hall.
  rewrite forallb_forall in Hall. specialize (Hall _ Hin).
  discriminate Hall.
Qed.

(** ** The backup of [process_file] *)

Ltac copy_free H :=
  unfold trace_of in *; cbn [fst snd] in H;
  repeat rewrite in_app_iff in H; cbn [In] in H;
  repeat match type of H with
         | _ \/ _ => destruct H as [H | H]
         end;
  try contradiction; try discriminate H;
  try match goal with
      | Hall : every no_copy ?t = true |- _ =>
          match type of H with
          | In (Copy2 ?s ?d) t =>
              exfalso; exact (@no_copy_not_in t s d Hall H)
          end
      end.

Lemma backup_copy : forall w self file_path src dst,
  In (Copy2 src dst) (trace_of (Universal.process_file w self file_path)) ->
  src = file_path /\
  (exists backup_dir,
      Py.getitem (Universal.config self) "backup_dir"
      = inr (VStr backup_dir) /\
      dst = OsPath.join backup_dir (OsPath.basename file_path)) /\
  exists r,
    result_of (Universal.process_file w self file_path) = inr r /\
    Universal.success r = true.
Proof.
  intros w self file_path src dst.
  unfold Universal.process_file, Universal.returning, Universal.stry_except,
    Universal.process_file_body, Universal.sbind, Universal.call,
    Universal.modify, Universal.sret.
  unfold lift, logger_info, logger_error, logger_warning, logger_debug,
    emit, raise, trace_of, result_of.
  cbn [fst snd].
  destruct (Py.getitem (Universal.config self) "output_dir") as [e | v];
    cbn [fst snd].
  { intros H. copy_free H. }
  generalize (makedirs_value_no_copy w v).
  destruct (Universal.makedirs_value w v) as [[e | dir] t1];
    cbn [trace_of fst snd]; intros H1.
  { intros H. copy_free H. }
  generalize (dispatcher_silent self file_path).
  destruct (Universal._get_processor_for_file self file_path)
    as [[e | [[t proc] |]] t2]; cbn [trace_of fst snd]; intros ->.
  { intros H. copy_free H. }
  2: { intros H. copy_free H. }
  generalize (convert_with_no_copy w proc file_path dir).
  destruct (Universal.convert_with w proc file_path dir) as [[e | p] t3];
    cbn [trace_of fst snd]; intros H3.
  { intros H. copy_free H. }
  destruct (PyStr.startswith p "Error"); cbn [negb fst snd].
  { intros H. copy_free H. }
  destruct (Py.get (Universal.config self) "backup_dir") as [e | c];
    cbn [fst snd].
  { intros H. copy_free H. }
  destruct (Py.truthy c); cbn [fst snd].
  2: { intros H. copy_free H. }
  destruct (Py.getitem (Universal.config self) "backup_dir") as [e | b];
    cbn [fst snd].
  { intros H. copy_free H. }
  generalize (makedirs_value_no_copy w b).
  generalize (@makedirs_value_dir w b).
  destruct (Universal.makedirs_value w b) as [[e | bdir] t4];
    cbn [trace_of fst snd]; intros Hb H4.
  { intros H. copy_free H. }
  specialize (Hb bdir t4 eq_refl). subst b.
  destruct (shutil_copy2 w file_path
              (OsPath.join bdir (OsPath.basename file_path))) as [e |];
    cbn [fst snd].
  { intros H. copy_free H. }
  intros H. copy_free H. inversion H; subst src dst.
  split; [reflexivity |]. split.
  - exists bdir. split; reflexivity.
  - eexists. split; reflexivity.
Qed.

(** X16: [process_file] copies nothing but the file it was given, into the
    configured backup directory under the file's own name, and only after
    a successful conversion: whenever its trace holds a copy, the source is
    the input path, the destination is the backup path, and the returned
    dictionary has success true.  The conversions themselves copy
    nothing. *)
Theorem backup_only_after_success :
  forall w self file_path src dst,
    In (Copy2 src dst)
       (trace_of (Universal.process_file w self file_path)) ->
    src = file_path /\
    (exists backup_dir,
        Py.getitem (Universal.config self) "backup_dir"
        = inr (VStr backup_dir) /\
        dst = OsPath.join backup_dir (OsPath.basename file_path)) /\
    exists r,
      result_of (Universal.process_file w self file_path) = inr r /\
      Universal.success r = true.
Proof. exact backup_copy. Qed.

(** X16 on [docs/report.pdf], which is copied to [input/originals]. *)
Lemma backup_only_after_success_witness :
  "docs/report.pdf" = "docs/report.pdf" /\
  (exists backup_dir,
      Py.getitem (Universal.config Sample.universal_processor) "backup_dir"
      = inr (VStr backup_dir) /\
      "input/originals/report.pdf"
      = OsPath.join backup_dir (OsPath.basename "docs/report.pdf")) /\
  exists r,
    result_of (Universal.process_file Sample.docs_world
                 Sample.universal_processor "docs/report.pdf") = inr r /\
    Universal.success r = true.
Proof.
  apply (@backup_only_after_success Sample.docs_world
           Sample.universal_processor "docs/report.pdf").
  vm_compute. auto 20.
Defined.

(** ** [WordDocumentProcessor.extract_text] *)

Lemma save_rel_images_run : forall w rels images,
  (forall rel, In rel rels -> PyStr.contains (reltype rel) "image" = true ->
               can_save w rel) ->
  Word.save_rel_images w rels images
  = (inr (images
          ++ map (image_path w)
               (filter (fun rel => PyStr.contains (reltype rel) "image")
                  rels))%list,
     flat_map (saving w)
       (filter (fun rel => PyStr.contains (reltype rel) "image") rels)).
Proof.
  intros w rels; induction rels as [| rel rels IH]; intros images Hsave;
    cbn [Word.save_rel_images filter].
  - rewrite app_nil_r. reflexivity.
  - assert (Hrest : forall r, In r rels ->
                      PyStr.contains (reltype r) "image" = true ->
                      can_save w r)
      by (intros r Hr; apply Hsave; right; exact Hr).
    destruct (PyStr.contains (reltype rel) "image") eqn:Himage;
      [| apply IH, Hrest].
    destruct (Hsave rel (or_introl eq_refl) Himage) as [Hopen [data Hdata]].
    fold (image_path w rel). cbn [map flat_map].
    unfold saving at 1. rewrite Hdata.
    unfold open_w. rewrite Hopen.
    rewrite (IH (images ++ [image_path w rel])%list Hrest).
    cbn. rewrite <- app_assoc. reflexivity.
Qed.

Lemma paragraphs_with_text : forall paras,
  filter (fun para => PyStr.nonempty (PyStr.strip (para_text para))) paras
  = filter has_text paras.
Proof.
  intros paras. apply filter_ext. intros para. unfold has_text.
  rewrite strip_empty_iff_whitespace. reflexivity.
Qed.

(** X17: [WordDocumentProcessor.extract_text] never raises and returns a
    pair.  When the document does not open, the pair holds the error string
    and no image, and the error is logged.  When it opens, the text is the
    paragraphs that have text followed by one line per table row, joined by
    blank lines; without images nothing is touched, and with
    [include_images], when every image can be saved, each image
    relationship is written to the temporary directory, in order, under the
    last component of its target, and the pair lists these paths. *)
Theorem word_extract_text_outcome :
  forall w self file_path,
    match docx_Document w file_path with
    | inl e =>
        Word.extract_text w self file_path
        = (inr ("Error: Could not extract text from document ("
                ++ exn_str e ++ ")", []),
           [Log "ERROR"
              ("Error extracting text from Word document: " ++ exn_str e)])
    | inr doc =>
        if Word.include_images self
        then (forall rel, In rel (image_rels doc) -> can_save w rel) ->
             Word.extract_text w self file_path
             = (inr (document_text doc,
                     map (image_path w) (image_rels doc)),
                flat_map (saving w) (image_rels doc))
        else Word.extract_text w self file_path
             = (inr (document_text doc, []), [])
    end.
Proof.
  intros w self file_path. unfold Word.extract_text.
  destruct (docx_Document w file_path) as [e | doc]; [reflexivity |].
  rewrite bind_lift_ok, paragraphs_with_text. fold (document_text doc).
  destruct (Word.include_images self); [| reflexivity].
  intros Hsave. rewrite (@save_rel_images_run w (rels doc) []).
  - unfold image_rels. cbn [bind ret try_except app].
    rewrite app_nil_r. reflexivity.
  - intros rel Hrel Himage. apply Hsave. unfold image_rels.
    apply filter_In. split; assumption.
Qed.

(** X17 on a document with one picture and one hyperlink. *)
Lemma word_extract_text_outcome_witness :
  Word.extract_text Sample.illustrated_world Sample.image_processor
    "figure.docx"
  = (inr ("See the figure." ++ PyStr.nlnl ++ "x | y", ["/tmp/image1.png"]),
     [OpenW "/tmp/image1.png"; Write "/tmp/image1.png" "PNG"]).
Proof.
  apply (@word_extract_text_outcome Sample.illustrated_world
           Sample.image_processor "figure.docx").
  intros rel [<- | []]. split; [reflexivity |]. exists "PNG". reflexivity.
Defined.

(** ** A table without rows stops the conversion *)

Lemma tables_render : forall tbls,
  (forall table, In table tbls -> table_rows table <> []) ->
  rendered_until rendered_table tbls = (cat (map render_table tbls), None).
Proof.
  induction tbls as [| table tbls IH]; intros Hrows; [reflexivity |].
  cbn [rendered_until map cat fold_right].
  unfold rendered_table at 1.
  destruct (table_rows table) eqn:Htable.
  { exfalso. apply (Hrows table (or_introl eq_refl)). exact Htable. }
  rewrite IH by (intros t Ht; apply Hrows; right; exact Ht).
  reflexivity.
Qed.

Lemma tables_stop : forall out good bad rest,
  (forall table, In table good -> table_rows table <> []) ->
  table_rows bad = [] ->
  exists tr,
    for_each (good ++ bad :: rest) (Word.convert_table out)
    = (inl (Exn IndexError "list index out of range"), tr)
    /\ only_writes out tr = true
    /\ written out tr = cat (map render_table good).
Proof.
  intros out good bad rest Hgood Hbad.
  destruct (tables_run out good) as (r & tr & Hrun & Hw & Hdata & Hstop).
  rewrite (tables_render good Hgood) in Hdata, Hstop.
  cbn [fst snd] in Hdata, Hstop. subst r.
  exists (tr ++ [])%list. rewrite app_nil_r at 2 3.
  split; [| split; assumption].
  rewrite for_each_app. eapply bind_run_fail; [exact Hrun |].
  cbn [for_each]. apply bind_fail.
  unfold Word.convert_table. rewrite Hbad. reflexivity.
Qed.

(** X18: a table without rows stops the conversion of a Word document
    whose paragraphs all render: [convert_to_markdown] returns
    "Error: Could not convert document to Markdown (list index out of
    range)", and the markdown file is left with the front matter, the
    paragraphs and the tables before that one. *)
Theorem word_empty_table_stops_conversion :
  forall w self file_path output_dir doc text good bad rest,
    docx_Document w file_path = inr doc ->
    open_for_write w (Word.md_path file_path output_dir) = None ->
    images_saved_elsewhere w self doc (Word.md_path file_path output_dir) ->
    rendered_until (rendered_paragraph w) (filter has_text (paragraphs doc))
    = (text, None) ->
    tables doc = (good ++ bad :: rest)%list ->
    (forall table, In table good -> table_rows table <> []) ->
    table_rows bad = [] ->
    exists metadata,
      result_of (Word.extract_metadata w self file_path) = inr metadata /\
      result_of (Word.convert_to_markdown w self file_path output_dir)
      = inr ("Error: Could not convert document to Markdown ("
             ++ "list index out of range" ++ ")") /\
      file_content (Word.md_path file_path output_dir)
        (trace_of (Word.convert_to_markdown w self file_path output_dir))
      = Some (frontmatter metadata
              ++ text
              ++ cat (map render_table good)).
Proof.
  intros w self file_path output_dir doc text good bad rest
         Hdoc Hopen Himg Hparas Htables Hgood Hbad.
  set (out := Word.md_path file_path output_dir) in *.
  destruct (word_extract_metadata_returns w self file_path)
    as (metadata & tm & Hmd).
  assert (Hquiet : avoids out tm = true).
  { change tm with (trace_of (inr (A:=exn) metadata, tm)). rewrite <- Hmd.
    eapply word_extract_metadata_avoids; eassumption. }
  destruct (avoids_quiet _ _ Hquiet) as [Hmopen Hmdata].
  destruct (word_frontmatter_written out metadata)
    as (tf & Hf & Hfopen & Hfdata).
  destruct (@paragraphs_written w out (paragraphs doc) text Hparas)
    as (tp & Hp & Hpw & Hpdata).
  destruct (@tables_stop out good bad rest Hgood Hbad)
    as (tt' & Ht & Htw & Htdata).
  assert (Hbody : Word.convert_body w self file_path output_dir
                  = (inl (Exn IndexError "list index out of range"),
                     [] ++ [OpenW out] ++ tm ++ tf ++ tp ++ tt')%list).
  { unfold Word.convert_body. fold out.
    eapply bind_run_fail; [rewrite Hdoc; reflexivity |].
    eapply bind_run_fail; [unfold open_w; rewrite Hopen; reflexivity |].
    eapply bind_run_fail; [exact Hmd |].
    eapply bind_run_fail; [exact Hf |].
    eapply bind_run_fail; [exact Hp |].
    rewrite Htables. apply bind_fail. exact Ht. }
  exists metadata. rewrite Hmd. split; [reflexivity |].
  unfold Word.convert_to_markdown. rewrite Hbody.
  split; [reflexivity |].
  unfold file_content. cbn [trace_of snd try_except app replay bind
                              logger_error emit ret].
  rewrite String.eqb_refl, replay_written.
  - rewrite !written_app, Hmdata, Hfdata, Hpdata, Htdata. cbn [written].
    rewrite !append_nil_r. cbn [append]. reflexivity.
  - rewrite !never_opens_app, Hmopen, Hfopen.
    rewrite (only_writes_never_opens _ _ Hpw).
    rewrite (only_writes_never_opens _ _ Htw). reflexivity.
Qed.

(** X18 on a document whose second table has no rows. *)
Lemma word_empty_table_stops_conversion_witness :
  exists metadata,
    result_of (Word.extract_metadata Sample.gappy_world
                 Sample.word_processor "gappy.docx") = inr metadata /\
    result_of (Word.convert_to_markdown Sample.gappy_world
                 Sample.word_processor "gappy.docx" "out")
    = inr ("Error: Could not convert document to Markdown ("
           ++ "list index out of range" ++ ")") /\
    file_content "out/gappy.md"
      (trace_of (Word.convert_to_markdown Sample.gappy_world
                   Sample.word_processor "gappy.docx" "out"))
    = Some (frontmatter metadata
            ++ ("# Totals" ++ line_feed ++ line_feed)
            ++ cat (map render_table
                      [ {| table_rows := [["a"; "b"]; ["1"; "2"]] |} ])).
Proof.
  apply (@word_empty_table_stops_conversion Sample.gappy_world
           Sample.word_processor "gappy.docx" "out" Sample.gappy_docx
           ("# Totals" ++ line_feed ++ line_feed)
           [ {| table_rows := [["a"; "b"]; ["1"; "2"]] |} ]
           {| table_rows := [] |}
           [ {| table_rows := [["never written"]] |} ]).
  - reflexivity.
  - reflexivity.
  - intros Hinc. discriminate Hinc.
  - reflexivity.
  - reflexivity.
  - intros table [<- | []]. discriminate.
  - reflexivity.
Defined.

(** A level outside the 64-bit indices stops the conversion before the
    tables are reached: the error is the OverflowError, not the IndexError
    of the table without rows. *)
Example overflow_before_empty_table :
  forall w,
    markdown_body w
      {| core_properties := inl (Exn KeyError "no core properties part");
         paragraphs :=
           [ {| para_text := "Deep";
                style_name := "Heading 9223372036854775808";
                para_runs := [] |} ];
         tables := [ {| table_rows := [] |} ];
         rels := [] |}
    = (EmptyString, Some OverflowError).
Proof. intros w. reflexivity. Qed.

(** ** The dispatcher and the directory scans of the processors *)

Lemma extension_is_suffix : forall file_path ext,
  extension file_path = ext ->
  PyStr.endswith (PyStr.lower file_path) ext = true.
Proof.
  intros file_path ext <-. apply endswith_iff.
  exists (PyStr.lower (fst (OsPath.splitext file_path))).
  unfold extension. rewrite <- lower_app, splitext_parts. reflexivity.
Qed.

Lemma listed_extension : forall ext l,
  existsb (Py.is_str ext) (map VStr l) = true -> In ext l.
Proof.
  intros ext l; induction l as [| s l IH]; simpl; intros H.
  - discriminate H.
  - apply orb_true_iff in H. destruct H as [H | H].
    + left. apply String.eqb_eq. exact H.
    + right. apply IH, H.
Qed.

(** X19: with the default extension table, [_get_processor_for_file]
    returns the Word processor only for a path that ends in ".docx" or
    ".doc" and the PDF processor only for a path that ends in ".pdf", in
    any case of the letters: the files it accepts are among those the
    directory scans of the two processors accept. *)
Theorem dispatch_agrees_with_suffix :
  forall self file_path t proc,
    Py.getitem (Universal.config self) "file_extensions"
    = Py.getitem Universal.default_config "file_extensions" ->
    result_of (Universal._get_processor_for_file self file_path)
    = inr (Some (t, proc)) ->
    (t = KStr "word" /\ word_name file_path = true) \/
    (t = KStr "pdf" /\ pdf_name file_path = true).
Proof.
  intros self file_path t proc Hcfg Hfound.
  destruct (@dispatcher_runs self
              [ (KStr "word", VList [VStr ".docx"; VStr ".doc"]);
                (KStr "pdf", VList [VStr ".pdf"]) ]
              file_path)
    as (found & Hrun & Hsound & _).
  { split; [rewrite Hcfg; reflexivity | reflexivity]. }
  rewrite Hrun in Hfound. simpl in Hfound. inversion Hfound; subst found.
  destruct (Hsound t proc eq_refl) as [(exts & Hin & Hlisted) _].
  destruct Hin as [Heq | [Heq | []]]; inversion Heq; subst t exts;
    cbn [Py.str_in] in Hlisted; injection Hlisted as Hany.
  - apply (listed_extension (extension file_path) [".docx"; ".doc"]) in Hany.
    left. split; [reflexivity |]. unfold word_name.
    destruct Hany as [Hext | [Hext | []]];
      symmetry in Hext; apply extension_is_suffix in Hext; rewrite Hext.
    + reflexivity.
    + apply orb_true_r.
  - apply (listed_extension (extension file_path) [".pdf"]) in Hany.
    right. split; [reflexivity |]. unfold pdf_name.
    destruct Hany as [Hext | []].
    symmetry in Hext. apply extension_is_suffix in Hext. exact Hext.
Qed.

(** X19 on [docs/OLD.PDF]. *)
Lemma dispatch_agrees_with_suffix_witness :
  (KStr "pdf" = KStr "word" /\ word_name "docs/OLD.PDF" = true) \/
  (KStr "pdf" = KStr "pdf" /\ pdf_name "docs/OLD.PDF" = true).
Proof.
  apply (@dispatch_agrees_with_suffix Sample.universal_processor
           "docs/OLD.PDF" (KStr "pdf")
           (Universal.PdfProc Sample.pdf_processor)); reflexivity.
Defined.

(** The converse fails: a file named [.pdf] is taken by the directory scan
    of the PDF processor, and has no processor in the dispatcher. *)
Example hidden_pdf_not_dispatched :
  pdf_name ".pdf" = true /\
  Universal._get_processor_for_file Sample.universal_processor "docs/.pdf"
  = (inr None, []).
Proof. split; reflexivity. Qed.
